(** * Nail-OrangeUI: bills, bookings and the due-notification engine

    A shallow embedding of the parts of the application that carry logic:
    the booking collection ([hooks/useBookings.ts]), the due-notification
    engine and the backup import of [App], the totals and the submit
    validation of [components/BillEditor.tsx], the week window of
    [utils/dateUtils] with the dashboard sum, and the per-customer view of
    [components/CustomerList.tsx].

    Modelling conventions.
    - A JavaScript [number] holding money, a quantity or a percentage is a
      [Z]: the shop works in whole currency units, on which the binary64
      operations [+], [-] and [*] by a quantity are exact.  The one place
      where the source leaves the integers, the percentage
      [Math.round(subtotal * (discountValue / 100))], is computed in
      binary64.
    - An ISO date string is the [Z] it parses to (milliseconds since the
      epoch, the value of [getTime()]); [toISOString] and [new Date(_)] are
      inverse to each other on it.
    - Strings are byte strings; [trim] and [toLowerCase] act on the ASCII
      range.
    - React state is threaded explicitly; a functional updater
      [setX(prev => ...)] is a function on the state it is applied to, a
      value read from the render closure is read from the state the handler
      started in. *)

From Stdlib Require Import ZArith Ascii String List Bool Lia Permutation Sorted.
From Stdlib Require PrimFloat FloatOps SpecFloat Uint63.
From stdpp Require Import base tactics option list strings gmap pretty.

Local Open Scope Z_scope.

#[local] Set Warnings "-clear-no-such-hyp".

(** ** JavaScript primitives *)

Module JS.

(** ASCII white space removed by [String.prototype.trim]: TAB, LF, VT, FF,
    CR and SPACE. *)
Definition isWhiteSpace (c : ascii) : bool :=
  let n := Z.of_nat (nat_of_ascii c) in
  ((9 <=? n) && (n <=? 13)) || (n =? 32).

Fixpoint trimStart (s : string) : string :=
  match s with
  | EmptyString => EmptyString
  | String c s' => if isWhiteSpace c then trimStart s' else s
  end.

(** [trimEnd] written by recursion on the string: a white-space character
    is dropped when nothing but white space follows it. *)
Fixpoint trimEnd (s : string) : string :=
  match s with
  | EmptyString => EmptyString
  | String c s' =>
      match trimEnd s' with
      | EmptyString => if isWhiteSpace c then EmptyString else String c EmptyString
      | t => String c t
      end
  end.

Definition trim (s : string) : string := trimEnd (trimStart s).

Definition lowerChar (c : ascii) : ascii :=
  let n := Z.of_nat (nat_of_ascii c) in
  if (65 <=? n) && (n <=? 90) then ascii_of_nat (nat_of_ascii c + 32) else c.

Fixpoint toLowerCase (s : string) : string :=
  match s with
  | EmptyString => EmptyString
  | String c s' => String (lowerChar c) (toLowerCase s')
  end.

(** A string in a condition: the empty string is falsy. *)
Definition truthy (s : string) : bool := negb (String.eqb s "").

(** [a || b] on strings. *)
Definition or_else (a b : string) : string := if truthy a then a else b.

(** The nearest integer to the rational [n / d], [0 < d], a tie going up:
    [floor (n/d + 1/2)]. *)
Definition Math_round_ratio (n d : Z) : Z := (2 * n + d) / (2 * d).

(** An integer as a binary64 number (exact below 2^53 in absolute value). *)
Definition toNumber (z : Z) : PrimFloat.float :=
  match z with
  | Z0 => PrimFloat.zero
  | Zpos _ => PrimFloat.of_uint63 (Uint63.of_Z z)
  | Zneg _ => PrimFloat.opp (PrimFloat.of_uint63 (Uint63.of_Z (- z)))
  end.

(** [Math.round(x)] of a binary64 number: the integer closest to [x], the
    one towards plus infinity on a tie.  A finite [x] is [(-1)^s * m * 2^e];
    zeros give 0 (the model has no use for NaN and the infinities, which are
    sent to 0 too). *)
Definition Math_round (x : PrimFloat.float) : Z :=
  match FloatOps.Prim2SF x with
  | SpecFloat.S754_finite s m e =>
      let n := if s then Zneg m else Zpos m in
      if 0 <=? e then n * 2 ^ e else Math_round_ratio n (2 ^ (- e))
  | _ => 0
  end.

(** [Math.round(a * (b / 100))] on integers [a], [b], in binary64 as the
    source computes it. *)
Definition roundPercent (a b : Z) : Z :=
  Math_round (PrimFloat.mul (toNumber a) (PrimFloat.div (toNumber b) (toNumber 100))).

Definition Math_max (a b : Z) : Z := Z.max a b.

(** [parseInt(s)] on decimal input: leading white space, an optional sign,
    then the longest run of digits; [None] is [NaN]. *)
Definition digit (c : ascii) : option Z :=
  let n := Z.of_nat (nat_of_ascii c) in
  if (48 <=? n) && (n <=? 57) then Some (n - 48) else None.

Fixpoint digits (acc : option Z) (s : string) : option Z :=
  match s with
  | EmptyString => acc
  | String c s' =>
      match digit c with
      | Some d => digits (Some (10 * default 0 acc + d)) s'
      | None => acc
      end
  end.

Definition parseInt (s : string) : option Z :=
  match trimStart s with
  | String "-"%char s' => Z.opp <$> digits None s'
  | String "+"%char s' => digits None s'
  | s' => digits None s'
  end.

End JS.

(** ** The [Date] object, after ECMA-262 (Time Values and Time Range)

    A [Date] is its time value, a [Z] of milliseconds since the epoch in
    UTC.  Local time is UTC shifted by the constant [LocalTZA]: the model
    has one offset, no daylight-saving change. *)

Module JSDate.

Definition msPerSecond : Z := 1000.
Definition msPerMinute : Z := 60000.
Definition msPerHour : Z := 3600000.
Definition msPerDay : Z := 86400000.

Definition Day (t : Z) : Z := t / msPerDay.
Definition TimeWithinDay (t : Z) : Z := t mod msPerDay.

Definition DaysInYear (y : Z) : Z :=
  if negb (y mod 4 =? 0) then 365
  else if negb (y mod 100 =? 0) then 366
  else if negb (y mod 400 =? 0) then 365
  else 366.

Definition DayFromYear (y : Z) : Z :=
  365 * (y - 1970) + (y - 1969) / 4 - (y - 1901) / 100 + (y - 1601) / 400.

Definition TimeFromYear (y : Z) : Z := msPerDay * DayFromYear y.

(** The largest [y] with [TimeFromYear y <= t], searched downwards from an
    upper estimate. *)
Fixpoint year_search (fuel : nat) (y d : Z) : Z :=
  match fuel with
  | O => y
  | S fuel' => if DayFromYear y <=? d then y else year_search fuel' (y - 1) d
  end.

Definition YearFromTime (t : Z) : Z :=
  let d := Day t in
  year_search (Z.to_nat (Z.abs d / 100000 + 4)) (1970 + Z.max (d / 365) (d / 366) + 1) d.

Definition InLeapYear (t : Z) : Z :=
  if DaysInYear (YearFromTime t) =? 366 then 1 else 0.

Definition DayWithinYear (t : Z) : Z := Day t - DayFromYear (YearFromTime t).

(** Day of the year on which month [m] (0 = January) begins. *)
Definition monthStart (m leap : Z) : Z :=
  match m with
  | 0 => 0
  | 1 => 31
  | 2 => 59 + leap
  | 3 => 90 + leap
  | 4 => 120 + leap
  | 5 => 151 + leap
  | 6 => 181 + leap
  | 7 => 212 + leap
  | 8 => 243 + leap
  | 9 => 273 + leap
  | 10 => 304 + leap
  | _ => 334 + leap
  end.

Definition MonthFromTime (t : Z) : Z :=
  let d := DayWithinYear t in
  let leap := InLeapYear t in
  if d <? 31 then 0
  else if d <? 59 + leap then 1
  else if d <? 90 + leap then 2
  else if d <? 120 + leap then 3
  else if d <? 151 + leap then 4
  else if d <? 181 + leap then 5
  else if d <? 212 + leap then 6
  else if d <? 243 + leap then 7
  else if d <? 273 + leap then 8
  else if d <? 304 + leap then 9
  else if d <? 334 + leap then 10
  else 11.

Definition DateFromTime (t : Z) : Z :=
  DayWithinYear t - monthStart (MonthFromTime t) (InLeapYear t) + 1.

Definition WeekDay (t : Z) : Z := (Day t + 4) mod 7.

Definition MakeTime (hour min sec ms : Z) : Z :=
  hour * msPerHour + min * msPerMinute + sec * msPerSecond + ms.

Definition MakeDay (year month date : Z) : Z :=
  let ym := year + month / 12 in
  let mn := month mod 12 in
  DayFromYear ym + monthStart mn (if DaysInYear ym =? 366 then 1 else 0) + date - 1.

Definition MakeDate (day time : Z) : Z := day * msPerDay + time.

Definition HourFromTime (t : Z) : Z := (t / msPerHour) mod 24.
Definition MinFromTime (t : Z) : Z := (t / msPerMinute) mod 60.

Section WithLocalTZA.
(** [LocalTZA]: the offset of local time from UTC, in milliseconds. *)
Variable LocalTZA : Z.

Definition LocalTime (t : Z) : Z := t + LocalTZA.
Definition UTC (t : Z) : Z := t - LocalTZA.

Definition getDay (d : Z) : Z := WeekDay (LocalTime d).
Definition getDate (d : Z) : Z := DateFromTime (LocalTime d).
Definition getHours (d : Z) : Z := HourFromTime (LocalTime d).
Definition getMinutes (d : Z) : Z := MinFromTime (LocalTime d).

(** [d.setDate(dt)] *)
Definition setDate (d dt : Z) : Z :=
  let t := LocalTime d in
  UTC (MakeDate (MakeDay (YearFromTime t) (MonthFromTime t) dt) (TimeWithinDay t)).

(** [d.setHours(hour, min, sec, ms)] *)
Definition setHours (d hour min sec ms : Z) : Z :=
  let t := LocalTime d in
  UTC (MakeDate (Day t) (MakeTime hour min sec ms)).
End WithLocalTZA.

End JSDate.

(** ** Data model

    [types.ts] is not among the sources: the records below follow the data
    model of the specification and the fields the sources read and write. *)

(** Modelled from the spec: [discountType (percent|amount)]. *)
Inductive DiscountType := percent | amount.

(** Modelled from the spec: "ServiceItem: id, serviceId (... may be unset
    for unsaved rows), name, price (already quantity/variant-adjusted),
    quantity, optional variantName". *)
Record ServiceItem := mkServiceItem {
  item_id : string;
  serviceId : string;
  item_name : string;
  price : Z;
  quantity : Z;
  variantName : option string
}.

(** Modelled from the spec: "Bill: id, customerName, date, items, total,
    discountValue, discountType, optional note", "Booking: same shape as Bill
    plus createdAt".  [BillData] is [Omit<Booking, 'id'>], what
    [const { id, ...billData } = booking] leaves in [billData]; a [Bill] has
    no [createdAt], a [Booking] has one. *)
Record BillData := mkBillData {
  customerName : string;
  date : Z;
  items : list ServiceItem;
  total : Z;
  discountValue : Z;
  discountType : DiscountType;
  note : option string;
  createdAt : option Z
}.

Record Bill := mkBill {
  id : string;
  billData :> BillData
}.

Abbreviation Booking := Bill (only parsing).

(** [{ ...data, date: d }] *)
Definition with_date (d : Z) (data : BillData) : BillData :=
  {| customerName := customerName data; date := d; items := items data;
     total := total data; discountValue := discountValue data;
     discountType := discountType data; note := note data;
     createdAt := createdAt data |}.

(** [{ ...data, createdAt: c }] *)
Definition with_createdAt (c : option Z) (data : BillData) : BillData :=
  {| customerName := customerName data; date := date data; items := items data;
     total := total data; discountValue := discountValue data;
     discountType := discountType data; note := note data;
     createdAt := c |}.

(** Modelled from the spec: "PredefinedService: id, name, price, priceType
    (fixed|variable), optional variants (ordered sequence of {id, name,
    price}), optional categoryId reference, allowQuantity flag". *)
Record Variant := mkVariant {
  variant_id : string;
  variant_name : string;
  variant_price : Z
}.

Inductive PriceType := fixed | variable.

Record PredefinedService := mkService {
  service_id : string;
  service_name : string;
  service_price : Z;
  priceType : PriceType;
  variants : option (list Variant);
  categoryId : option string;
  allowQuantity : bool
}.

(** Modelled from the spec: "Customer: id, name, optional phone, optional
    dob". *)
Record Customer := mkCustomer {
  customer_id : string;
  customer_name : string;
  phone : option string;
  dob : option string
}.

(** ** Collections *)

Module Collections.

(** [useBookings]: the three updaters, as functions on the array.  The id
    suffix (ISO time and random digits) is the caller's [newId]. *)
Definition addBooking (newId : string) (now : Z) (booking : BillData)
    (prev : list Booking) : list Booking :=
  mkBill newId (with_createdAt (Some now) booking) :: prev.

Definition updateBooking (updatedBooking : Booking) (prev : list Booking)
    : list Booking :=
  map (fun b => if String.eqb (id b) (id updatedBooking) then updatedBooking else b) prev.

Definition deleteBooking (i : string) (prev : list Booking) : list Booking :=
  List.filter (fun b => negb (String.eqb (id b) i)) prev.

(** Modelled from the spec: [hooks/useBills.ts] is not among the sources.
    [add(recordWithoutId)] "generates a unique id ... and stores"; the
    generated id is the caller's [newId], and the record is put in front
    as [addBooking] does. *)
Definition addBill (newId : string) (bill : BillData) (prev : list Bill)
    : list Bill :=
  mkBill newId bill :: prev.

(** Modelled from the spec: [update(record)] "replaces the record matching
    its id, no-op if absent". *)
Definition updateBill (updatedBill : Bill) (prev : list Bill) : list Bill :=
  map (fun b => if String.eqb (id b) (id updatedBill) then updatedBill else b) prev.

End Collections.

(** ** The due-notification engine ([App]) *)

Module Notifier.
Import Collections.

(** The part of [App]'s state the engine and its popup read and write. *)
Record AppState := mkAppState {
  bills : list Bill;
  bookings : list Booking;
  dueBookingQueue : list Booking;
  notifiedBookingIds : gset string;
  isSnoozeMode : bool;
  snoozeDuration : option Z;
  showDeleteConfirmForDue : bool
}.

Definition setBills (v : list Bill) (st : AppState) : AppState :=
  mkAppState v (bookings st) (dueBookingQueue st) (notifiedBookingIds st)
    (isSnoozeMode st) (snoozeDuration st) (showDeleteConfirmForDue st).
Definition setBookings (v : list Booking) (st : AppState) : AppState :=
  mkAppState (bills st) v (dueBookingQueue st) (notifiedBookingIds st)
    (isSnoozeMode st) (snoozeDuration st) (showDeleteConfirmForDue st).
Definition setDueBookingQueue (f : list Booking -> list Booking) (st : AppState)
    : AppState :=
  mkAppState (bills st) (bookings st) (f (dueBookingQueue st)) (notifiedBookingIds st)
    (isSnoozeMode st) (snoozeDuration st) (showDeleteConfirmForDue st).
Definition setNotifiedBookingIds (f : gset string -> gset string) (st : AppState)
    : AppState :=
  mkAppState (bills st) (bookings st) (dueBookingQueue st) (f (notifiedBookingIds st))
    (isSnoozeMode st) (snoozeDuration st) (showDeleteConfirmForDue st).
Definition setIsSnoozeMode (v : bool) (st : AppState) : AppState :=
  mkAppState (bills st) (bookings st) (dueBookingQueue st) (notifiedBookingIds st)
    v (snoozeDuration st) (showDeleteConfirmForDue st).
Definition setSnoozeDuration (v : option Z) (st : AppState) : AppState :=
  mkAppState (bills st) (bookings st) (dueBookingQueue st) (notifiedBookingIds st)
    (isSnoozeMode st) v (showDeleteConfirmForDue st).
Definition setShowDeleteConfirmForDue (v : bool) (st : AppState) : AppState :=
  mkAppState (bills st) (bookings st) (dueBookingQueue st) (notifiedBookingIds st)
    (isSnoozeMode st) (snoozeDuration st) v.

(** What the application starts from: the persisted collections and
    notified ids, an empty queue, the popup flags down. *)
Definition initial (bs : list Bill) (bks : list Booking) (notified : gset string)
    : AppState :=
  mkAppState bs bks [] notified false None false.

Definition catchUpWindow : Z := 24 * 60 * 60 * 1000.

Definition isDue (now : Z) (booking : Booking) : bool := date booking <=? now.
Definition isRecent (now : Z) (booking : Booking) : bool :=
  date booking >? now - catchUpWindow.

Definition hasId (i : string) (b : Booking) : bool := String.eqb (id b) i.

(** The updater handed to [setDueBookingQueue] by the poll. *)
Definition enqueue (booking : Booking) (prevQueue : list Booking) : list Booking :=
  if existsb (hasId (id booking)) prevQueue then prevQueue
  else prevQueue ++ [booking].

(** The test of one booking inside [checkBookings]; [notified] is the set
    of the render the effect closed over. *)
Definition surfaces (now : Z) (notified : gset string) (booking : Booking) : bool :=
  isDue now booking && isRecent now booking
    && negb (bool_decide (id booking ∈ notified)).

(** One poll tick.  [bookings] and [notifiedBookingIds] are read from the
    state the tick starts in; the two updaters of each due booking are
    applied, in order, to the state being built. *)
Definition checkBookings (now : Z) (st : AppState) : AppState :=
  fold_left
    (fun acc booking =>
       if surfaces now (notifiedBookingIds st) booking then
         setNotifiedBookingIds (fun prev => {[id booking]} ∪ prev)
           (setDueBookingQueue (enqueue booking) acc)
       else acc)
    (bookings st) st.

Definition currentDueBooking (st : AppState) : option Booking :=
  head (dueBookingQueue st).

Definition processNextBooking (st : AppState) : AppState :=
  setShowDeleteConfirmForDue false
    (setSnoozeDuration None
       (setIsSnoozeMode false
          (setDueBookingQueue (drop 1) st))).

Definition confirmDueBooking (now : Z) (newId : string) (st : AppState) : AppState :=
  match currentDueBooking st with
  | Some cur =>
      let newBill := with_date now (billData cur) in
      processNextBooking
        (setBookings (deleteBooking (id cur) (bookings st))
           (setBills (addBill newId newBill (bills st)) st))
  | None => st
  end.

(** [window.confirm] answers [confirmed]. *)
Definition handleConvertToBill (booking : Booking) (confirmed : bool) (now : Z)
    (newId : string) (st : AppState) : AppState :=
  if confirmed then
    let newBill := with_date now (billData booking) in
    setBookings (deleteBooking (id booking) (bookings st))
      (setBills (addBill newId newBill (bills st)) st)
  else st.

Definition openSnoozeOptions (st : AppState) : AppState := setIsSnoozeMode true st.

Definition cancelSnooze (st : AppState) : AppState :=
  setSnoozeDuration None (setIsSnoozeMode false st).

Definition confirmSnooze (now : Z) (st : AppState) : AppState :=
  match currentDueBooking st, snoozeDuration st with
  | Some cur, Some mins =>
      if mins =? 0 then st
      else
        let newDate := now + mins * 60000 in
        let updatedBooking := mkBill (id cur) (with_date newDate (billData cur)) in
        processNextBooking
          (setNotifiedBookingIds (fun prev => prev ∖ {[id cur]})
             (setBookings (updateBooking updatedBooking (bookings st)) st))
  | _, _ => st
  end.

Definition deleteDueBooking (st : AppState) : AppState :=
  match currentDueBooking st with
  | Some cur => processNextBooking (setBookings (deleteBooking (id cur) (bookings st)) st)
  | None => st
  end.

(** Everything that can happen to the engine's state: the poll, the
    buttons of the popup and of its delete dialog, the booking list and
    the editor, and a reload of the page. *)
Inductive Action :=
| Tick (now : Z)
| ConfirmButton (now : Z) (newId : string)
| KeepButton
| SnoozeChoice (mins : Z)
| SnoozeCancel
| SnoozeConfirm (now : Z)
| DeleteButton
| DeleteCancel
| DeleteConfirm
| ListConvert (booking : Booking) (confirmed : bool) (now : Z) (newId : string)
| ListDelete (i : string)
| EditorUpdate (updatedBooking : Booking)
| EditorAdd (newId : string) (now : Z) (booking : BillData)
| Reload.

(** The popup's three buttons are "Chuyển sang hóa đơn"
    ([confirmDueBooking]), "Giữ lịch hẹn" ([openSnoozeOptions]) and "Xóa
    lịch hẹn" ([setShowDeleteConfirmForDue(true)]); its snooze pane has the
    minute choices, "Hủy" ([cancelSnooze]) and "Xác nhận"
    ([confirmSnooze]); the delete dialog has "Hủy" and "Xóa"
    ([deleteDueBooking]). *)
Definition step (st : AppState) (a : Action) : AppState :=
  match a with
  | Tick now => checkBookings now st
  | ConfirmButton now newId => confirmDueBooking now newId st
  | KeepButton => openSnoozeOptions st
  | SnoozeChoice mins => setSnoozeDuration (Some mins) st
  | SnoozeCancel => cancelSnooze st
  | SnoozeConfirm now => confirmSnooze now st
  | DeleteButton => setShowDeleteConfirmForDue true st
  | DeleteCancel => setShowDeleteConfirmForDue false st
  | DeleteConfirm => deleteDueBooking st
  | ListConvert booking confirmed now newId =>
      handleConvertToBill booking confirmed now newId st
  | ListDelete i => setBookings (deleteBooking i (bookings st)) st
  | EditorUpdate b => setBookings (updateBooking b (bookings st)) st
  | EditorAdd newId now b => setBookings (addBooking newId now b (bookings st)) st
  | Reload => initial (bills st) (bookings st) (notifiedBookingIds st)
  end.

Definition run (st : AppState) (acts : list Action) : AppState :=
  fold_left step acts st.

(** States the application can be in. *)
Inductive reachable : AppState -> Prop :=
| reachable_initial bs bks notified : reachable (initial bs bks notified)
| reachable_step st a : reachable st -> reachable (step st a).

(** The action is a snooze that takes effect on the booking id [i]. *)
Definition snoozes (i : string) (st : AppState) (a : Action) : bool :=
  match a, currentDueBooking st, snoozeDuration st with
  | SnoozeConfirm _, Some cur, Some mins => String.eqb (id cur) i && negb (mins =? 0)
  | _, _, _ => false
  end.

(** No action of the run snoozes [i]. *)
Fixpoint neverSnoozed (i : string) (st : AppState) (acts : list Action) : bool :=
  match acts with
  | [] => true
  | a :: acts' => negb (snoozes i st a) && neverSnoozed i (step st a) acts'
  end.

(** How many entries of the queue carry the id [i]. *)
Definition occurrences (i : string) (q : list Booking) : nat :=
  length (List.filter (hasId i) q).

(** The bookings a tick puts at the end of the queue. *)
Definition surfaced (now : Z) (st : AppState) : list Booking :=
  drop (length (dueBookingQueue st)) (dueBookingQueue (checkBookings now st)).

(** [setInterval(checkBookings, 5000)]: the times of the first [n] ticks of
    a poll started at [t0]. *)
Definition pollInterval : Z := 5000.

Definition pollTicks (t0 : Z) (n : nat) : list Z :=
  map (fun k => t0 + pollInterval * Z.of_nat k) (seq 0 n).

(** The queue invariant: no id twice, and every queued id is notified. *)
Definition queueInv (st : AppState) : Prop :=
  NoDup (map id (dueBookingQueue st))
  ∧ ∀ b, b ∈ dueBookingQueue st → id b ∈ notifiedBookingIds st.

End Notifier.

(** ** The bill and booking editor ([components/BillEditor.tsx]) *)

Module BillEditor.
Import JS JSDate Collections.

Record Props := mkProps {
  bill : option Bill;
  services : list PredefinedService;
  isBooking : bool
}.

(** The [useState] variables of the form.  [s_date] is the day the date
    input holds, counted from the epoch ([new Date("YYYY-MM-DD")] is the UTC
    midnight of that day); [s_time] is the pair [time.split(':').map(Number)]
    yields. *)
Record EditorState := mkEditorState {
  s_customerName : string;
  s_date : Z;
  s_time : Z * Z;
  s_items : list ServiceItem;
  s_note : string;
  s_discountValue : Z;
  s_discountType : DiscountType
}.

Definition setItems (v : list ServiceItem) (st : EditorState) : EditorState :=
  mkEditorState (s_customerName st) (s_date st) (s_time st) v (s_note st)
    (s_discountValue st) (s_discountType st).
Definition setDiscountValue (v : Z) (st : EditorState) : EditorState :=
  mkEditorState (s_customerName st) (s_date st) (s_time st) (s_items st) (s_note st)
    v (s_discountType st).
Definition setDiscountType (v : DiscountType) (st : EditorState) : EditorState :=
  mkEditorState (s_customerName st) (s_date st) (s_time st) (s_items st) (s_note st)
    (s_discountValue st) v.
Definition setCustomerName (v : string) (st : EditorState) : EditorState :=
  mkEditorState v (s_date st) (s_time st) (s_items st) (s_note st)
    (s_discountValue st) (s_discountType st).

(** The row [addItem] and the empty form start with. *)
Definition emptyRow (tempId : string) : ServiceItem :=
  mkServiceItem tempId "" "" 0 1 None.

(** The form of a new bill or booking (the [else] branch of the effect on
    [bill]). *)
Definition freshForm (tempId : string) (day : Z) (time : Z * Z) : EditorState :=
  mkEditorState "" day time [emptyRow tempId] "" 0 amount.

Definition findService (services : list PredefinedService) (i : string)
    : option PredefinedService :=
  find (fun s => String.eqb (service_id s) i) services.

(** The handlers take the index of a rendered row; an index outside the rows
    leaves the form as it is. *)
Definition handleItemChange (p : Props) (index : nat) (selectedServiceId : string)
    (st : EditorState) : EditorState :=
  match findService (services p) selectedServiceId with
  | None => st
  | Some service =>
      match s_items st !! index with
      | None => st
      | Some it =>
          let item :=
            match priceType service, variants service with
            | variable, Some (defaultVariant :: _) =>
                mkServiceItem (item_id it) (service_id service) (service_name service)
                  (variant_price defaultVariant) 1 (Some (variant_name defaultVariant))
            | _, _ =>
                mkServiceItem (item_id it) (service_id service) (service_name service)
                  (service_price service) 1 None
            end in
          setItems (<[index := item]> (s_items st)) st
      end
  end.

Definition handleVariantChange (p : Props) (index : nat) (name : string)
    (st : EditorState) : EditorState :=
  match s_items st !! index with
  | None => st
  | Some it =>
      match findService (services p) (serviceId it) with
      | Some service =>
          match variants service with
          | Some vs =>
              match find (fun v => String.eqb (variant_name v) name) vs with
              | Some variant =>
                  let item :=
                    mkServiceItem (item_id it) (serviceId it) (item_name it)
                      (variant_price variant * quantity it) (quantity it)
                      (Some (variant_name variant)) in
                  setItems (<[index := item]> (s_items st)) st
              | None => st
              end
          | None => st
          end
      | None => st
      end
  end.

Definition handleQuantityChange (p : Props) (index : nat) (value : string)
    (st : EditorState) : EditorState :=
  let newQuantity := if String.eqb value "" then Some 0 else parseInt value in
  match s_items st !! index with
  | None => st
  | Some it =>
      match findService (services p) (serviceId it) with
      | Some service =>
          let q := default 0 newQuantity in
          let unitPrice :=
            match priceType service, variants service with
            | variable, Some vs =>
                match find (fun v => bool_decide (Some (variant_name v) = variantName it)) vs with
                | Some variant => variant_price variant
                | None => service_price service
                end
            | _, _ => service_price service
            end in
          let item :=
            mkServiceItem (item_id it) (serviceId it) (item_name it)
              (unitPrice * q) q (variantName it) in
          setItems (<[index := item]> (s_items st)) st
      | None => st
      end
  end.

Definition handleQuantityBlur (p : Props) (index : nat) (st : EditorState)
    : EditorState :=
  match s_items st !! index with
  | Some item =>
      if (quantity item =? 0) || (quantity item <? 1)
      then handleQuantityChange p index "1" st
      else st
  | None => st
  end.

Definition addItem (tempId : string) (st : EditorState) : EditorState :=
  setItems (s_items st ++ [emptyRow tempId]) st.

(** [items.filter((_, i) => i !== index)] *)
Definition removeItem (index : nat) (st : EditorState) : EditorState :=
  setItems (delete index (s_items st)) st.

Definition calculateSubtotal (st : EditorState) : Z :=
  fold_left (fun sum item => sum + price item) (s_items st) 0.

Definition calculateDiscountAmount (st : EditorState) : Z :=
  let subtotal := calculateSubtotal st in
  match s_discountType st with
  | percent => roundPercent subtotal (s_discountValue st)
  | amount => s_discountValue st
  end.

Definition calculateTotal (st : EditorState) : Z :=
  let subtotal := calculateSubtotal st in
  let discount := calculateDiscountAmount st in
  Math_max 0 (subtotal - discount).

(** The three messages of [handleSubmit]:
    "Vui lòng điền tên khách hàng.",
    "Vui lòng thêm ít nhất một dịch vụ hợp lệ vào hóa đơn." and
    "Thời gian đặt lịch không thể ở trong quá khứ!". *)
Inductive SubmitAlert := MissingCustomerName | NoValidService | BookingInThePast.

(** What a submit does: an [alert] and a return ([Blocked], with the flag
    telling whether the customer pane was opened), or the call
    [onSave(billData)]. *)
Inductive SubmitOutcome :=
| Blocked (msg : SubmitAlert) (customerInfoOpened : bool)
| OnSave (billData : Bill).

Definition finalDate (LocalTZA : Z) (st : EditorState) : Z :=
  setHours LocalTZA (s_date st * msPerDay) (fst (s_time st)) (snd (s_time st)) 0 0.

Definition handleSubmit (LocalTZA now : Z) (p : Props) (st : EditorState)
    : SubmitOutcome :=
  let finalItems := List.filter (fun item => truthy (serviceId item)) (s_items st) in
  if negb (truthy (trim (s_customerName st))) then Blocked MissingCustomerName true
  else if (length finalItems =? 0)%nat then Blocked NoValidService false
  else
    let finalDate := finalDate LocalTZA st in
    if isBooking p && (finalDate <? now) && (now - finalDate >? 60000)
    then Blocked BookingInThePast false
    else
      let finalTotal := calculateTotal st in
      OnSave
        (mkBill (or_else (from_option id "" (bill p)) "")
           (mkBillData (trim (s_customerName st)) finalDate finalItems finalTotal
              (s_discountValue st) (s_discountType st) (Some (trim (s_note st)))
              (match isBooking p, bill p with
               | true, Some b => createdAt b
               | _, _ => None
               end))).

(** [onSaveItem] of [App], on the two collections. *)
Inductive CreateMode := createBill | createBooking.

Definition onSaveItem (selectedBooking selectedBill : option Bill)
    (createMode : CreateMode) (newId : string) (now : Z) (item : Bill)
    (cols : list Bill * list Booking) : list Bill * list Booking :=
  match selectedBooking, selectedBill with
  | Some _, _ => (fst cols, updateBooking item (snd cols))
  | None, Some _ => (updateBill item (fst cols), snd cols)
  | None, None =>
      match createMode with
      | createBooking => (fst cols, addBooking newId now item (snd cols))
      | createBill => (addBill newId item (fst cols), snd cols)
      end
  end.

(** The form of a record being edited (the [if (bill)] branch of the effect
    on [bill]): the date input takes the UTC day of [toISOString], the time
    input the local hours and minutes. *)
Definition loadForm (LocalTZA : Z) (b : Bill) : EditorState :=
  mkEditorState (customerName b) (Day (date b))
    (getHours LocalTZA (date b), getMinutes LocalTZA (date b))
    (map (fun item =>
            mkServiceItem (item_id item) (serviceId item) (item_name item) (price item)
              (if quantity item =? 0 then 1 else quantity item) (variantName item))
       (items b))
    (default "" (note b)) (discountValue b) (discountType b).

(** What the user can do to the form. *)
Inductive Event :=
| CustomerNameChange (value : string)
| DateChange (day : Z)
| TimeChange (time : Z * Z)
| NoteChange (value : string)
| ItemChange (index : nat) (selectedServiceId : string)
| VariantChange (index : nat) (name : string)
| QuantityChange (index : nat) (value : string)
| QuantityBlur (index : nat)
| AddItem (tempId : string)
| RemoveItem (index : nat)
| DiscountValueChange (value : Z)
| DiscountTypeChange (value : DiscountType).

Definition editorStep (p : Props) (st : EditorState) (ev : Event) : EditorState :=
  match ev with
  | CustomerNameChange value => setCustomerName value st
  | DateChange day =>
      mkEditorState (s_customerName st) day (s_time st) (s_items st) (s_note st)
        (s_discountValue st) (s_discountType st)
  | TimeChange time =>
      mkEditorState (s_customerName st) (s_date st) time (s_items st) (s_note st)
        (s_discountValue st) (s_discountType st)
  | NoteChange value =>
      mkEditorState (s_customerName st) (s_date st) (s_time st) (s_items st) value
        (s_discountValue st) (s_discountType st)
  | ItemChange index selectedServiceId => handleItemChange p index selectedServiceId st
  | VariantChange index name => handleVariantChange p index name st
  | QuantityChange index value => handleQuantityChange p index value st
  | QuantityBlur index => handleQuantityBlur p index st
  | AddItem tempId => addItem tempId st
  | RemoveItem index => removeItem index st
  | DiscountValueChange value => setDiscountValue (Math_max 0 value) st
  | DiscountTypeChange value => setDiscountType value st
  end.

(** What the form's own handlers keep true of its rows: a row with no
    service selected has price 0. *)
Definition rowsUnpriced (rows : list ServiceItem) : Prop :=
  ∀ item, item ∈ rows → serviceId item = "" → price item = 0.

(** The discount amount of a saved record, computed from the record's own
    items, discount value and discount type the way
    [calculateDiscountAmount] computes it from the form: for [percent],
    [Math.round(subtotal * (discountValue / 100))] in binary64. *)
Definition discountAmount (b : BillData) : Z :=
  let subtotal := fold_right Z.add 0 (map price (items b)) in
  match discountType b with
  | amount => discountValue b
  | percent => roundPercent subtotal (discountValue b)
  end.

(** The discount amount as the specification words it: the discount value
    for the type [amount] and, for [percent],
    round(subtotal * discountValue / 100), the exact quotient rounded to the
    nearest integer, a half going up. *)
Definition specDiscountAmount (b : BillData) : Z :=
  let subtotal := fold_right Z.add 0 (map price (items b)) in
  match discountType b with
  | amount => discountValue b
  | percent => Math_round_ratio (subtotal * discountValue b) 100
  end.

(** [z] is the integer nearest to the binary64 number [x], a half going
    up: a finite [x] is [n * 2^e] with [n] its signed significand, an
    integer when [0 <= e], and otherwise [x - 1/2 < z <= x + 1/2], that is
    [- 2^(-e) <= 2 n - 2 * 2^(-e) * z < 2^(-e)].  Nothing is said of NaN and
    of the infinities. *)
Definition nearestInteger (x : PrimFloat.float) (z : Z) : Prop :=
  match FloatOps.Prim2SF x with
  | SpecFloat.S754_zero _ => z = 0
  | SpecFloat.S754_finite s m e =>
      let n := if s then Zneg m else Zpos m in
      if 0 <=? e then z = n * 2 ^ e
      else - 2 ^ (- e) <= 2 * n - 2 * 2 ^ (- e) * z < 2 ^ (- e)
  | _ => True
  end.

End BillEditor.

(** ** The week window ([utils/dateUtils]) and the dashboard sum *)

Module DateUtils.
Import JSDate.

Section WithClock.
(** The zone offset and the value of [new Date()]. *)
Variables (LocalTZA today : Z).

(** [today.getDay() || 7] *)
Definition currentDay : Z :=
  if getDay LocalTZA today =? 0 then 7 else getDay LocalTZA today.

Definition startOfWeek : Z :=
  let startOfWeek := today in
  let startOfWeek := setDate LocalTZA startOfWeek (getDate LocalTZA today - currentDay + 1) in
  setHours LocalTZA startOfWeek 0 0 0 0.

Definition endOfWeek : Z :=
  let endOfWeek := startOfWeek in
  setDate LocalTZA endOfWeek (getDate LocalTZA startOfWeek + 7).

Definition isWithinThisWeek (date : Z) : bool :=
  (startOfWeek <=? date) && (date <? endOfWeek).

End WithClock.

End DateUtils.

Module Dashboard.
Import DateUtils.

Definition revenueThisWeek (LocalTZA today : Z) (bills : list Bill) : Z :=
  fold_left (fun sum (bill : Bill) => sum + total bill)
    (List.filter (fun bill : Bill => isWithinThisWeek LocalTZA today (date bill)) bills) 0.

End Dashboard.

(** ** Per-customer statistics ([components/CustomerList.tsx]) *)

Module CustomerList.
Import JS.

Record VisitRecord := mkVisit {
  visit_date : Z;
  visit_amount : Z
}.

(** [lastVisitDate] is [None] for the empty string the source puts when
    there is no visit; [stat_id] is [None] when the object has no [id]. *)
Record CustomerStat := mkStat {
  stat_id : option string;
  stat_name : string;
  stat_phone : option string;
  stat_dob : option string;
  totalSpent : Z;
  visitCount : nat;
  lastVisitDate : option Z;
  visitHistory : list VisitRecord
}.

(** A [Map] with string keys: the entries in insertion order. *)
Definition Map_get {V} (k : string) (m : list (string * V)) : option V :=
  snd <$> find (fun kv => String.eqb (fst kv) k) m.

Fixpoint Map_set {V} (k : string) (v : V) (m : list (string * V)) : list (string * V) :=
  match m with
  | [] => [(k, v)]
  | (k', v') :: m' =>
      if String.eqb k' k then (k, v) :: m' else (k', v') :: Map_set k v m'
  end.

(** [Array.prototype.sort(compare)], a stable sort: an element moves behind
    another only when [compare] puts it strictly after. *)
Fixpoint sort_insert {A} (compare : A -> A -> Z) (x : A) (l : list A) : list A :=
  match l with
  | [] => [x]
  | y :: l' =>
      if compare x y <=? 0 then x :: l else y :: sort_insert compare x l'
  end.

Definition Array_sort {A} (compare : A -> A -> Z) (l : list A) : list A :=
  fold_right (sort_insert compare) [] l.

Definition newestFirst (a b : VisitRecord) : Z := visit_date b - visit_date a.
Definition bySpentDesc (a b : CustomerStat) : Z := totalSpent b - totalSpent a.

Abbreviation StatsMap := (list (string * (Z * list VisitRecord))) (only parsing).

(** 1. Aggregate Bills *)
Definition aggregateBills (bills : list Bill) : StatsMap :=
  fold_left
    (fun statsMap (bill : Bill) =>
       let customerName := trim (customerName bill) in
       if negb (truthy customerName) then statsMap
       else
         let lowerName := toLowerCase customerName in
         let existingStat := default (0, []) (Map_get lowerName statsMap) in
         Map_set lowerName
           (fst existingStat + total bill,
            snd existingStat ++ [mkVisit (date bill) (total bill)])
           statsMap)
    bills [].

(** 2. Manual customers.  The loop carries the map (whose visit arrays
    [sort] reorders in place), the names still to process and the stats
    pushed so far. *)
Definition mergeCustomer
    (acc : StatsMap * list string * list CustomerStat) (cust : Customer)
    : StatsMap * list string * list CustomerStat :=
  let '(statsMap, processedNames, mergedStats) := acc in
  let lowerName := toLowerCase (trim (customer_name cust)) in
  let billStats := Map_get lowerName statsMap in
  let visits :=
    match billStats with
    | Some s => Array_sort newestFirst (snd s)
    | None => []
    end in
  let statsMap' :=
    match billStats with
    | Some s => Map_set lowerName (fst s, visits) statsMap
    | None => statsMap
    end in
  (statsMap',
   List.filter (fun n => negb (String.eqb n lowerName)) processedNames,
   mergedStats ++
     [mkStat (Some (customer_id cust)) (customer_name cust) (phone cust) (dob cust)
        (match billStats with Some s => fst s | None => 0 end)
        (length visits) (visit_date <$> head visits) visits]).

(** 3. Customers found in bills but not in the manual list. *)
Definition billOnlyStat (bills : list Bill) (statsMap : StatsMap)
    (mergedStats : list CustomerStat) (lowerName : string) : list CustomerStat :=
  let originalName :=
    or_else
      (from_option (fun b : Bill => customerName b) ""
         (find (fun b : Bill => String.eqb (toLowerCase (customerName b)) lowerName) bills))
      lowerName in
  match Map_get lowerName statsMap with
  | Some billStats =>
      let visits := Array_sort newestFirst (snd billStats) in
      mergedStats ++
        [mkStat None originalName None None (fst billStats)
           (length visits) (visit_date <$> head visits) visits]
  | None => mergedStats
  end.

Definition customerStats (bills : list Bill) (customers : list Customer)
    : list CustomerStat :=
  let statsMap := aggregateBills bills in
  let processedNames := map fst statsMap in
  let '(statsMap, processedNames, mergedStats) :=
    fold_left mergeCustomer customers (statsMap, processedNames, []) in
  let mergedStats :=
    fold_left (billOnlyStat bills statsMap) processedNames mergedStats in
  Array_sort bySpentDesc mergedStats.

(** *** The view as the specification words it *)

(** The normalised name: trimmed, lower case. *)
Definition normalized (name : string) : string := toLowerCase (trim name).

(** The bills of the customer whose normalised name is [key]; bills with a
    blank name belong to nobody. *)
Definition billsOf (key : string) (bills : list Bill) : list Bill :=
  List.filter
    (fun b : Bill => truthy (trim (customerName b))
                     && String.eqb (normalized (customerName b)) key)
    bills.

Definition visitsOf (key : string) (bills : list Bill) : list VisitRecord :=
  map (fun b : Bill => mkVisit (date b) (total b)) (billsOf key bills).

Definition spentOf (key : string) (bills : list Bill) : Z :=
  fold_right Z.add 0 (map (fun b : Bill => total b) (billsOf key bills)).

(** Newest first: no visit is followed, anywhere later, by a newer one. *)
Definition newestFirstSorted (l : list VisitRecord) : Prop :=
  StronglySorted (fun v w => visit_date w <= visit_date v) l.

(** Highest spender first. *)
Definition spentDescSorted (l : list CustomerStat) : Prop :=
  StronglySorted (fun a b => totalSpent b <= totalSpent a) l.

(** A stat carries the figures of the bills of [key]. *)
Definition statOf (key : string) (bills : list Bill) (s : CustomerStat) : Prop :=
  totalSpent s = spentOf key bills
  ∧ visitCount s = length (billsOf key bills)
  ∧ visitHistory s ≡ₚ visitsOf key bills
  ∧ newestFirstSorted (visitHistory s)
  ∧ lastVisitDate s = visit_date <$> head (visitHistory s).

Definition sortedVisits (key : string) (bills : list Bill) : list VisitRecord :=
  Array_sort newestFirst (visitsOf key bills).

(** The stat of a manual profile: the profile's identity and the figures of
    the bills under its normalised name. *)
Definition manualStat (bills : list Bill) (cust : Customer) : CustomerStat :=
  let key := normalized (customer_name cust) in
  let visits := sortedVisits key bills in
  mkStat (Some (customer_id cust)) (customer_name cust) (phone cust) (dob cust)
    (spentOf key bills) (length visits) (visit_date <$> head visits) visits.

(** The name shown for a customer known from bills only. *)
Definition displayName (bills : list Bill) (key : string) : string :=
  or_else
    (from_option (fun b : Bill => customerName b) ""
       (find (fun b : Bill => String.eqb (toLowerCase (customerName b)) key) bills))
    key.

(** The stat of a customer known from bills only: no id, no phone, no
    birthday. *)
Definition billOnly (bills : list Bill) (key : string) : CustomerStat :=
  let visits := sortedVisits key bills in
  mkStat None (displayName bills key) None None
    (spentOf key bills) (length visits) (visit_date <$> head visits) visits.

(** The normalised names that occur on bills, each once. *)
Definition billKeys (bills : list Bill) : list string :=
  remove_dups
    (map (fun b : Bill => normalized (customerName b))
       (List.filter (fun b : Bill => truthy (trim (customerName b))) bills)).

Definition isCustomerKey (customers : list Customer) (key : string) : bool :=
  existsb (fun c => String.eqb key (normalized (customer_name c))) customers.

(** One stat per manual profile, then one per bill-only customer. *)
Definition specView (bills : list Bill) (customers : list Customer) : list CustomerStat :=
  map (manualStat bills) customers
  ++ map (billOnly bills)
       (List.filter (fun key => negb (isCustomerKey customers key)) (billKeys bills)).

(** The map built from the bills, as the loop over the customers sees it:
    each entry has the sum of its key's bills and, up to the order [sort]
    leaves them in, their visits. *)
Definition tracks (bills : list Bill) (m : StatsMap) : Prop :=
  ∀ key,
    match Map_get key m with
    | None => billsOf key bills = []
    | Some s =>
        billsOf key bills ≠ [] ∧ fst s = spentOf key bills
        ∧ Array_sort newestFirst (snd s) = sortedVisits key bills
    end.

End CustomerList.

(** ** Backup import ([handleFileUpload] of [App]) *)

Module Backup.

(** What [JSON.parse] returns. *)
#[warnings="-register-all"]
Inductive JSON :=
| JNull
| JBool (b : bool)
| JNumber (n : Z)
| JString (s : string)
| JArray (elements : list JSON)
| JObject (members : list (string * JSON)).

(** The outcome of a property read [v.k]: a [TypeError] (on [null]),
    [undefined], or a value. *)
Inductive Lookup :=
| Throws
| Undefined
| Found (v : JSON).

Definition getProp (v : JSON) (k : string) : Lookup :=
  match v with
  | JNull => Throws
  | JObject members =>
      match find (fun kv => String.eqb (fst kv) k) members with
      | Some kv => Found (snd kv)
      | None => Undefined
      end
  | _ => Undefined
  end.

Definition Array_isArray (l : Lookup) : option (list JSON) :=
  match l with
  | Found (JArray elements) => Some elements
  | _ => None
  end.

(** A value in a condition. *)
Definition truthy (l : Lookup) : bool :=
  match l with
  | Found JNull => false
  | Found (JBool b) => b
  | Found (JNumber n) => negb (n =? 0)
  | Found (JString s) => JS.truthy s
  | Found (JArray _) | Found (JObject _) => true
  | Undefined | Throws => false
  end.

(** The collections and settings an import can touch. *)
Record Store := mkStore {
  bills : list JSON;
  services : list JSON;
  categories : list JSON;
  shopName : JSON;
  billTheme : JSON
}.

(** Modelled from the spec: [hooks/useBills.ts], [hooks/useServices.ts] and
    [hooks/useShopSettings.ts] are not among the sources.  [restore(wholeArray)]
    "replaces the entire collection"; the two settings updaters store the
    value they are given. *)
Definition restoreBills (v : list JSON) (st : Store) : Store :=
  mkStore v (services st) (categories st) (shopName st) (billTheme st).
Definition restoreServices (v : list JSON) (st : Store) : Store :=
  mkStore (bills st) v (categories st) (shopName st) (billTheme st).
Definition restoreCategories (v : list JSON) (st : Store) : Store :=
  mkStore (bills st) (services st) v (shopName st) (billTheme st).
Definition updateShopName (v : JSON) (st : Store) : Store :=
  mkStore (bills st) (services st) (categories st) v (billTheme st).
Definition updateBillTheme (v : JSON) (st : Store) : Store :=
  mkStore (bills st) (services st) (categories st) (shopName st) v.

(** The three [alert]s of the handler:
    "Dữ liệu đã được khôi phục thành công.",
    "Tệp không hợp lệ. Vui lòng đảm bảo tệp chứa dữ liệu hóa đơn và dịch vụ." and
    "Đã xảy ra lỗi khi đọc tệp. Tệp có thể bị hỏng hoặc không đúng định dạng.". *)
Inductive ImportAlert := RestoreSucceeded | InvalidFile | ReadFailed.

Record ImportResult := mkResult {
  store : Store;
  alerts : list ImportAlert;
  reloaded : bool
}.

(** The settings block: each of the two names is applied when truthy. *)
Definition applySettings (data : JSON) (st : Store) : Store :=
  if truthy (getProp data "settings") then
    match getProp data "settings" with
    | Found settings =>
        let st :=
          match getProp settings "shopName" with
          | Found v => if truthy (Found v) then updateShopName v st else st
          | _ => st
          end in
        match getProp settings "billTheme" with
        | Found v => if truthy (Found v) then updateBillTheme v st else st
        | _ => st
        end
    | _ => st
    end
  else st.

Definition applyCategories (data : JSON) (st : Store) : Store :=
  if truthy (getProp data "categories") then
    match Array_isArray (getProp data "categories") with
    | Some cats => restoreCategories cats st
    | None => st
    end
  else st.

(** The body of [reader.onload].  [parsed] is the result of
    [JSON.parse(text)], [None] when it throws; [confirmed] is the answer to
    [window.confirm].  A [TypeError] of [data.bills] lands in the same
    [catch] as a parse error. *)
Definition handleFileUpload (parsed : option JSON) (confirmed : bool) (st : Store)
    : ImportResult :=
  match parsed with
  | None => mkResult st [ReadFailed] false
  | Some data =>
      match getProp data "bills" with
      | Throws => mkResult st [ReadFailed] false
      | billsProp =>
          match Array_isArray billsProp, Array_isArray (getProp data "services") with
          | Some newBills, Some newServices =>
              if confirmed then
                let st := restoreBills newBills st in
                let st := restoreServices newServices st in
                let st := applyCategories data st in
                let st := applySettings data st in
                mkResult st [RestoreSucceeded] true
              else mkResult st [] false
          | _, _ => mkResult st [InvalidFile] false
          end
      end
  end.

(** The document has the key [k] holding an array. *)
Definition hasArray (data : JSON) (k : string) : Prop :=
  ∃ elements, getProp data k = Found (JArray elements).

End Backup.

(** ** The customer profiles ([hooks/useCustomers.ts]) *)

Module Customers.

(** [Omit<Customer, 'id'>], what the profile form hands over. *)
Record CustomerData := mkCustomerData {
  data_name : string;
  data_phone : option string;
  data_dob : option string
}.

(** The id suffix (time and random digits) is the caller's [newId]; a new
    profile goes to the end of the array. *)
Definition addCustomer (newId : string) (customerData : CustomerData)
    (prev : list Customer) : list Customer :=
  prev ++ [mkCustomer newId (data_name customerData) (data_phone customerData)
             (data_dob customerData)].

Definition updateCustomer (updatedCustomer : Customer) (prev : list Customer)
    : list Customer :=
  map (fun c => if String.eqb (customer_id c) (customer_id updatedCustomer)
                then updatedCustomer else c) prev.

Definition deleteCustomer (i : string) (prev : list Customer) : list Customer :=
  List.filter (fun c => negb (String.eqb (customer_id c) i)) prev.

End Customers.

(** ** [App]: the name list of the editor and the cascade delete *)

Module App.
Import JS Collections Customers Notifier.

(** [[...new Set(array)]]: the elements in the order of their first
    occurrence. *)
Definition Set_of (l : list string) : list string :=
  fold_left (fun seen x => if bool_decide (x ∈ seen) then seen else seen ++ [x]) l [].

Definition customerNames (bills : list Bill) (bookings : list Booking)
    (customers : list Customer) : list string :=
  let names := map (fun bill : Bill => trim (customerName bill)) bills in
  let bookingNames := map (fun b : Booking => trim (customerName b)) bookings in
  let manualNames := map (fun c => trim (customer_name c)) customers in
  List.filter truthy (Set_of (names ++ bookingNames ++ manualNames)).

(** Modelled from the spec: [hooks/useBills.ts] is not among the sources;
    [delete(id)] "removes matching record". *)
Definition deleteBill (i : string) (prev : list Bill) : list Bill :=
  List.filter (fun b => negb (String.eqb (id b) i)) prev.

(** [name.toLowerCase().trim()], the comparison key of the cascade. *)
Definition lowerTrim (name : string) : string := trim (toLowerCase name).

(** The cascade walks the arrays of the render it was created in and issues
    one delete per matching record; the deletes are applied in order to the
    collection as it then is.  [customer] is the pair of the optional id and
    the name of the stat it is called with. *)
Definition handleFullCustomerDelete (customer : option string * string)
    (st : AppState) (customers : list Customer) : AppState * list Customer :=
  let customerNameNormalized := lowerTrim (snd customer) in
  let bills' :=
    fold_left
      (fun acc (b : Bill) =>
         if String.eqb (lowerTrim (customerName b)) customerNameNormalized
         then deleteBill (id b) acc else acc)
      (bills st) (bills st) in
  let bookings' :=
    fold_left
      (fun acc (b : Booking) =>
         if String.eqb (lowerTrim (customerName b)) customerNameNormalized
         then deleteBooking (id b) acc else acc)
      (bookings st) (bookings st) in
  let customers' :=
    match fst customer with
    | Some i => if truthy i then deleteCustomer i customers else customers
    | None => customers
    end in
  (setBookings bookings' (setBills bills' st), customers').

End App.

(** ** Sample data *)

Module Samples.
Import Notifier.

Definition hour : Z := 3600000.

Definition gel : ServiceItem := mkServiceItem "row-1" "svc-gel" "Gel" 100000 1 None.

(** A booking made at time 0 for the time [due]. *)
Definition booking (i : string) (due : Z) : Booking :=
  mkBill i (mkBillData "Lan" due [gel] 100000 0 amount (Some "") (Some 0)).

Definition noon : Z := 100 * hour.

(** The application as it starts: nothing notified, one booking 23 hours
    old, one 25 hours old. *)
Definition morning : AppState :=
  initial [] [booking "b1" (noon - 23 * hour); booking "b2" (noon - 25 * hour)] ∅.

(** The popup shows booking b1. *)
Definition popup : AppState :=
  mkAppState [] [booking "b1" (noon - 23 * hour); booking "b2" (noon - 25 * hour)]
    [booking "b1" (noon - 23 * hour)] {["b1"]} false None false.

(** The snooze pane is open with ten minutes chosen. *)
Definition snoozing : AppState :=
  step (step popup KeepButton) (SnoozeChoice 10).

(** A day at the salon after the popup: the poll, the keep button and back,
    a reschedule of b1 in the editor, more polls, a reload. *)
Definition busyDay : list Action :=
  [Tick (noon + 5000); KeepButton; SnoozeCancel;
   EditorUpdate (booking "b1" (noon + hour)); Tick (noon + 2 * hour);
   Reload; Tick (noon + 2 * hour + 5000)].

(** The scenario of the specification: Service A at the fixed price
    100000, a new bill with Service A taken twice. *)
Definition serviceA : PredefinedService :=
  mkService "svc-a" "Service A" 100000 fixed None None true.

Definition billProps : BillEditor.Props := BillEditor.mkProps None [serviceA] false.

Definition indochina : Z := 7 * hour.

Definition twiceA : BillEditor.EditorState :=
  fold_left (BillEditor.editorStep billProps)
    [BillEditor.CustomerNameChange "Lan"; BillEditor.ItemChange 0%nat "svc-a";
     BillEditor.QuantityChange 0%nat "2"]
    (BillEditor.freshForm "temp-1" 19000 (10, 30)).

(** The same form in the booking editor; its date and time inputs read
    10:30 on day 19000, which in the zone [indochina] is [appointment]. *)
Definition bookingProps : BillEditor.Props := BillEditor.mkProps None [serviceA] true.

Definition appointment : Z := 19000 * 86400000 + 10 * hour + 30 * 60000 - indochina.

Definition twiceA_tenPercent : BillEditor.EditorState :=
  fold_left (BillEditor.editorStep billProps)
    [BillEditor.DiscountValueChange 10; BillEditor.DiscountTypeChange percent]
    twiceA.

(** Two bills of the same customer, written "Anna " and "anna". *)
Definition annaBills : list Bill :=
  [mkBill "bill-1" (mkBillData "Anna " (noon - 48 * hour) [gel] 100000 0 amount None None);
   mkBill "bill-2" (mkBillData "anna" noon [gel; gel] 200000 0 amount None None)].

Definition annaProfile : Customer := mkCustomer "cust-1" "ANNA" (Some "0900") None.

Definition noBillProfile : Customer := mkCustomer "cust-2" "Binh" None None.

(** Backup documents: a complete one, one without [services], and the
    state they are imported into. *)
Definition backupDocument : Backup.JSON :=
  Backup.JObject
    [("bills", Backup.JArray [Backup.JObject [("id", Backup.JString "bill-9")]]);
     ("services", Backup.JArray []);
     ("settings", Backup.JObject [("shopName", Backup.JString "Nail Spa")])].

Definition billsOnlyDocument : Backup.JSON :=
  Backup.JObject [("bills", Backup.JArray []); ("services", Backup.JString "none")].

Definition currentStore : Backup.Store :=
  Backup.mkStore [Backup.JObject [("id", Backup.JString "bill-1")]]
    [Backup.JObject [("id", Backup.JString "svc-a")]]
    [Backup.JObject [("id", Backup.JString "cat-1")]]
    (Backup.JString "Orange Nails") (Backup.JString "default").

End Samples.

(** ** The receipt (components/BillViewModal.tsx) *)

Module BillViewModal.

Definition subTotal (bill : Bill) : Z :=
  fold_left (fun sum item => sum + price item) (items bill) 0.

Definition discountAmount (bill : Bill) : Z :=
  if total bill <? subTotal bill then subTotal bill - total bill else 0.

Definition hasDiscount (bill : Bill) : bool := discountAmount bill >? 0.

End BillViewModal.

(** ** The rows of the editor *)

Module EditorRows.

(** The unit price [handleQuantityChange] multiplies the quantity by: the
    price of the variant the row names when the service is priced by
    variant and has it, the price of the service otherwise. *)
Definition unitPrice (service : PredefinedService) (variantName : option string) : Z :=
  match priceType service, variants service with
  | variable, Some vs =>
      match find (fun v => bool_decide (Some (variant_name v) = variantName)) vs with
      | Some variant => variant_price variant
      | None => service_price service
      end
  | _, _ => service_price service
  end.

End EditorRows.

(** ** More of utils/dateUtils and of the dashboard *)

Module DateUtilsMore.
Import JS JSDate DateUtils.

(** [Math.ceil(n / d)] for integers [n] and [0 < d]. *)
Definition Math_ceil_ratio (n d : Z) : Z := - ((- n) / d).

Section WithClock.
(** The zone offset and the value of [new Date()]. *)
Variables (LocalTZA today : Z).

Definition getMonth (d : Z) : Z := MonthFromTime (LocalTime LocalTZA d).
Definition getFullYear (d : Z) : Z := YearFromTime (LocalTime LocalTZA d).

Definition isToday (date : Z) : bool :=
  (getDate LocalTZA date =? getDate LocalTZA today)
  && (getMonth date =? getMonth today)
  && (getFullYear date =? getFullYear today).

Definition isWithinThisMonth (date : Z) : bool :=
  (getMonth date =? getMonth today) && (getFullYear date =? getFullYear today).

Definition getBillDateCategory (date : Z) : string :=
  let today := setHours LocalTZA today 0 0 0 0 in
  let billDate := setHours LocalTZA date 0 0 0 0 in
  let diffTime := today - billDate in
  let diffDays := Math_ceil_ratio diffTime (1000 * 60 * 60 * 24) in
  if diffDays =? 0 then "Hôm nay"
  else if diffDays =? 1 then "Hôm qua"
  else if (diffDays <? 7) && (diffDays >? 1) then pretty diffDays +:+ " ngày trước"
  else "Tháng " +:+ pretty (getMonth billDate + 1) +:+ "/" +:+ pretty (getFullYear billDate).

Definition revenueToday (bills : list Bill) : Z :=
  fold_left (fun sum (bill : Bill) => sum + total bill)
    (List.filter (fun bill : Bill => isToday (date bill)) bills) 0.

Definition revenueThisMonth (bills : list Bill) : Z :=
  fold_left (fun sum (bill : Bill) => sum + total bill)
    (List.filter (fun bill : Bill => isWithinThisMonth (date bill)) bills) 0.

End WithClock.

End DateUtilsMore.

(** ** The customer modals (components/CustomerList.tsx) *)

Module CustomerModals.
Import JS Customers CustomerList.

(** [CustomerDetailModal.handleSaveEdit], with [onUpdate] and [onCreate]
    the two operations of the profile collection as [App] passes them. *)
Definition handleSaveEdit (customerStat : CustomerStat) (newId : string)
    (data : CustomerData) (customers : list Customer) : list Customer :=
  match stat_id customerStat with
  | Some i =>
      if truthy i
      then updateCustomer (mkCustomer i (data_name data) (data_phone data) (data_dob data))
             customers
      else addCustomer newId data customers
  | None => addCustomer newId data customers
  end.

End CustomerModals.

Module EditorInvariant.
Import BillEditor EditorRows.

(** A row is priced by the catalogue: it has no service and no price, or
    its service is in the catalogue and the row carries the service's name
    and the unit price times the quantity. *)
Definition rowPriced (services : list PredefinedService) (item : ServiceItem) : Prop :=
  (serviceId item = "" ∧ price item = 0)
  ∨ ∃ service,
      findService services (serviceId item) = Some service
      ∧ item_name item = service_name service
      ∧ price item = unitPrice service (variantName item) * quantity item.

Definition rowsPriced (services : list PredefinedService) (rows : list ServiceItem) : Prop :=
  ∀ item, item ∈ rows → rowPriced services item.

End EditorInvariant.

(** ** The list of bills and bookings (components/BillList.tsx) *)

Module BillList.
Import JS JSDate DateUtilsMore CustomerList.

(** [s.includes(search)] *)
Fixpoint includes (s search : string) : bool :=
  String.prefix search s
  || match s with
     | EmptyString => false
     | String _ s' => includes s' search
     end.

Definition filteredBookings (searchTerm : string) (bookings : list Booking)
    : list Booking :=
  Array_sort (fun a b : Booking => date a - date b)
    (List.filter
       (fun booking : Booking =>
          includes (toLowerCase (customerName booking)) (toLowerCase searchTerm))
       bookings).

(** [currentList.slice(0, visibleCount)] *)
Definition visibleItems {A} (currentList : list A) (visibleCount : nat) : list A :=
  take visibleCount currentList.

Definition hasMore {A} (currentList : list A) (visibleCount : nat) : bool :=
  (visibleCount <? length currentList)%nat.

(** One step of the two grouping [reduce]s: the array under [category] is
    created when the object has none, and the record is pushed on it.  The
    object is kept as its entries in insertion order. *)
Definition pushInto {A} (category : string) (x : A) (acc : list (string * list A))
    : list (string * list A) :=
  match Map_get category acc with
  | None => Map_set category [x] acc
  | Some group => Map_set category (group ++ [x]) acc
  end.

(** What the two [reduce]s have in common: the records are pushed, in
    order, into the group of their label. *)
Definition grouped {A} (category : A → string) (items : list A)
    : list (string * list A) :=
  fold_left (fun acc x => pushInto (category x) x acc) items [].

Section WithClock.
Variables (LocalTZA today : Z).

Definition groupedBills (visibleItems : list Bill) : list (string * list Bill) :=
  fold_left
    (fun acc (bill : Bill) =>
       pushInto (getBillDateCategory LocalTZA today (date bill)) bill acc)
    visibleItems [].

(** The label [groupedBookings] computes for a booking. *)
Definition bookingCategory (date : Z) : string :=
  let today := setHours LocalTZA today 0 0 0 0 in
  let tomorrow := setDate LocalTZA today (getDate LocalTZA today + 1) in
  let bDate := setHours LocalTZA date 0 0 0 0 in
  if bDate =? today then "Hôm nay"
  else if bDate =? tomorrow then "Ngày mai"
  else pretty (getDate LocalTZA bDate) +:+ "/" +:+ pretty (getMonth LocalTZA bDate + 1)
       +:+ "/" +:+ pretty (getFullYear LocalTZA bDate).

Definition groupedBookings (visibleItems : list Booking) : list (string * list Booking) :=
  fold_left
    (fun acc (booking : Booking) => pushInto (bookingCategory (date booking)) booking acc)
    visibleItems [].

End WithClock.

End BillList.

(** ** The chart of the last seven days (components/Dashboard.tsx) *)

Module Chart.
Import JS JSDate DateUtilsMore.

Fixpoint zeros (n : nat) : string :=
  match n with
  | O => ""
  | S n' => String "0" (zeros n')
  end.

(** [s.padStart(targetLength, '0')] *)
Definition padStart (targetLength : nat) (s : string) : string :=
  zeros (targetLength - String.length s) +:+ s.

(** An entry of the chart.  [chart_name] stands for the short weekday name
    [toLocaleDateString] gives: it holds the weekday number the name is
    made from. *)
Record ChartDay := mkChartDay {
  chart_name : Z;
  chart_date : string;
  chart_revenue : Z
}.

(** [dayData.revenue += amount] on the entry
    [data.find(d => d.date === key)], when there is one. *)
Fixpoint addRevenue (key : string) (amount : Z) (data : list ChartDay) : list ChartDay :=
  match data with
  | [] => []
  | d :: rest =>
      if String.eqb (chart_date d) key
      then mkChartDay (chart_name d) (chart_date d) (chart_revenue d + amount) :: rest
      else d :: addRevenue key amount rest
  end.

Section WithClock.
Variables (LocalTZA today : Z).

Definition getLocalDateKey (dateInput : Z) : string :=
  let d := dateInput in
  let year := getFullYear LocalTZA d in
  let month := padStart 2 (pretty (getMonth LocalTZA d + 1)) in
  let day := padStart 2 (pretty (getDate LocalTZA d)) in
  pretty year +:+ "-" +:+ month +:+ "-" +:+ day.

Definition weeklyChartData (bills : list Bill) : list ChartDay :=
  let data :=
    rev (map (fun i =>
                let d := setDate LocalTZA today (getDate LocalTZA today - i) in
                mkChartDay (getDay LocalTZA d) (getLocalDateKey d) 0)
           [0; 1; 2; 3; 4; 5; 6]) in
  fold_left
    (fun data (bill : Bill) =>
       addRevenue (getLocalDateKey (date bill)) (total bill) data)
    bills data.

End WithClock.

End Chart.

(** ** The form of a new record *)

Module NewForm.
Import JS JSDate DateUtilsMore BillEditor.

Section WithClock.
(** The zone offset and the value of [new Date()] when the form is set up. *)
Variables (LocalTZA now : Z).

(** [getTodayDateString()]: the local calendar date, held as the day
    [new Date("YYYY-MM-DD")] reads from the string, the UTC day of that
    date. *)
Definition getTodayDateString : Z :=
  MakeDay (getFullYear LocalTZA now) (getMonth LocalTZA now) (getDate LocalTZA now).

(** [getCurrentTimeString()]: local hours and minutes. *)
Definition getCurrentTimeString : Z * Z :=
  (getHours LocalTZA now, getMinutes LocalTZA now).

(** The [else] branch of the effect on [bill]. *)
Definition newForm : EditorState :=
  freshForm ("temp-" +:+ pretty now) getTodayDateString getCurrentTimeString.

End WithClock.

End NewForm.

(** ** More sample data *)

Module MoreSamples.
Import Notifier.

(** The application holding the two bills of Anna and nothing else. *)
Definition annaState : AppState := initial Samples.annaBills [] ∅.

Definition annaCustomers : list Customer := [Samples.annaProfile; Samples.noBillProfile].

(** A bill for 06:30 on day 19000 in the zone [indochina] (23:30 UTC of the
    day before), as the editor saves it. *)
Definition earlyBill : Bill :=
  mkBill "bill-7"
    (mkBillData "Lan" (19000 * 86400000 + 6 * Samples.hour + 30 * 60000 - Samples.indochina)
       [mkServiceItem "temp-1" "svc-a" "Service A" 200000 2 None] 200000 0 amount
       (Some "") None).

Definition earlyBillProps : BillEditor.Props :=
  BillEditor.mkProps (Some earlyBill) [Samples.serviceA] false.

(** A catalogue with a service priced by variant. *)
Definition manicure : PredefinedService :=
  mkService "svc-m" "Manicure" 50000 variable
    (Some [mkVariant "v-1" "Short" 80000; mkVariant "v-2" "Long" 120000]) None true.

Definition variantProps : BillEditor.Props :=
  BillEditor.mkProps None [Samples.serviceA; manicure] false.

(** Manicure is chosen, then its second variant, then three of it. *)
Definition threeLong : list BillEditor.Event :=
  [BillEditor.ItemChange 0%nat "svc-m"; BillEditor.VariantChange 0%nat "Long";
   BillEditor.QuantityChange 0%nat "3"].

(** A service at 50 taken once, with a discount of 29 percent: the exact
    discount is 14.5. *)
Definition serviceB : PredefinedService :=
  mkService "svc-b" "Service B" 50 fixed None None true.

Definition halfProps : BillEditor.Props := BillEditor.mkProps None [serviceB] false.

Definition onceB_29percent : BillEditor.EditorState :=
  fold_left (BillEditor.editorStep halfProps)
    [BillEditor.CustomerNameChange "Lan"; BillEditor.ItemChange 0%nat "svc-b";
     BillEditor.DiscountValueChange 29; BillEditor.DiscountTypeChange percent]
    (BillEditor.freshForm "temp-1" 19000 (10, 30)).

(** A stored bill with a priced row that names no service, as only a
    hand-made backup can hold it, and the editor opened on it. *)
Definition oddBill : Bill :=
  mkBill "bill-8"
    (mkBillData "Lan" 0
       [mkServiceItem "row-1" "" "Extra" 50000 1 None;
        mkServiceItem "row-2" "svc-a" "Service A" 100000 1 None]
       150000 0 amount (Some "") None).

Definition oddProps : BillEditor.Props :=
  BillEditor.mkProps (Some oddBill) [Samples.serviceA] false.

End MoreSamples.

(** * Properties *)

(** ** The poll tick *)

Module NotifierFacts.
Import Collections Notifier.

Lemma hasId_true i b : hasId i b = true ↔ id b = i.
Proof. unfold hasId. apply String.eqb_eq. Qed.

Lemma existsb_hasId i q : existsb (hasId i) q = true ↔ i ∈ map id q.
Proof.
  rewrite existsb_exists, list_elem_of_fmap. split.
  - intros (b & Hin & Hb). exists b. apply hasId_true in Hb.
    split; [done | by apply list_elem_of_In].
  - intros (b & -> & Hin). exists b. split; [by apply list_elem_of_In | by apply hasId_true].
Qed.

Lemma surfaces_true now N b :
  surfaces now N b = true ↔ date b <= now ∧ now - catchUpWindow < date b ∧ id b ∉ N.
Proof.
  unfold surfaces, isDue, isRecent.
  rewrite !andb_true_iff, negb_true_iff, bool_decide_eq_false.
  rewrite Z.leb_le, Z.gtb_lt. tauto.
Qed.

(** The tick, field by field: the queue and the notified set are folds over
    the bookings that pass the test, everything else is left alone. *)
Lemma tick_fold now N l acc :
  let r :=
    fold_left
      (fun acc booking =>
         if surfaces now N booking then
           setNotifiedBookingIds (fun prev => {[id booking]} ∪ prev)
             (setDueBookingQueue (enqueue booking) acc)
         else acc) l acc in
  bills r = bills acc ∧ bookings r = bookings acc
  ∧ isSnoozeMode r = isSnoozeMode acc ∧ snoozeDuration r = snoozeDuration acc
  ∧ showDeleteConfirmForDue r = showDeleteConfirmForDue acc
  ∧ notifiedBookingIds r
    = list_to_set (map id (List.filter (surfaces now N) l)) ∪ notifiedBookingIds acc
  ∧ dueBookingQueue r
    = fold_left (fun q b => enqueue b q) (List.filter (surfaces now N) l)
        (dueBookingQueue acc).
Proof.
  revert acc. induction l as [|b l IH]; intros acc; simpl.
  - repeat split; try done. set_solver.
  - destruct (surfaces now N b) eqn:Hb; simpl.
    + specialize (IH (setNotifiedBookingIds (fun prev => {[id b]} ∪ prev)
                        (setDueBookingQueue (enqueue b) acc))).
      simpl in IH. destruct IH as (? & ? & ? & ? & ? & HN & HQ).
      repeat split; try done. rewrite HN. set_solver.
    + apply IH.
Qed.

(** Folding [enqueue] only ever adds, at the end, some of the candidates. *)
Lemma enqueue_fold_app l q :
  ∃ l', fold_left (fun q b => enqueue b q) l q = q ++ l' ∧ l' ⊆ l
        ∧ (∀ i, i ∈ map id l → i ∈ map id (q ++ l')).
Proof.
  revert q. induction l as [|b l IH]; intros q; simpl.
  - exists []. rewrite app_nil_r. set_solver.
  - unfold enqueue at 2. destruct (existsb (hasId (id b)) q) eqn:Hex.
    + destruct (IH q) as (l' & -> & Hsub & Hids). exists l'.
      split; [done|]. split; [set_solver|].
      intros i Hi. apply elem_of_cons in Hi as [->|Hi]; [|by apply Hids].
      apply existsb_hasId in Hex. rewrite map_app. set_solver.
    + destruct (IH (q ++ [b])) as (l' & -> & Hsub & Hids). exists (b :: l').
      rewrite <- app_assoc. split; [done|]. split; [set_solver|].
      intros i Hi. rewrite <- app_assoc in Hids. simpl in Hids.
      apply elem_of_cons in Hi as [->|Hi]; [|by apply Hids].
      rewrite map_app. simpl. set_solver.
Qed.

(** With fresh, pairwise distinct ids every candidate is added. *)
Lemma enqueue_fold_fresh l q :
  NoDup (map id l) → (∀ i, i ∈ map id l → i ∉ map id q) →
  fold_left (fun q b => enqueue b q) l q = q ++ l.
Proof.
  revert q. induction l as [|b l IH]; intros q Hnd Hfresh; simpl.
  - by rewrite app_nil_r.
  - simpl in Hnd. apply NoDup_cons in Hnd as [Hb Hnd].
    unfold enqueue at 2. destruct (existsb (hasId (id b)) q) eqn:Hex.
    + apply existsb_hasId in Hex. exfalso. apply (Hfresh (id b)); [|done].
      simpl. set_solver.
    + rewrite IH; [by rewrite <- app_assoc | done |].
      intros i Hi. rewrite map_app. simpl.
      intros [Hq|Hq]%elem_of_app.
      * apply (Hfresh i); [simpl; set_solver | done].
      * apply list_elem_of_singleton in Hq as ->. done.
Qed.

(** Folding [enqueue] keeps the ids of the queue distinct. *)
Lemma enqueue_fold_NoDup l q :
  NoDup (map id q) → NoDup (map id (fold_left (fun q b => enqueue b q) l q)).
Proof.
  revert q. induction l as [|b l IH]; intros q Hq; simpl; [done|].
  apply IH. unfold enqueue. destruct (existsb (hasId (id b)) q) eqn:Hex; [done|].
  rewrite map_app. simpl. apply NoDup_app. split; [done|]. split.
  - intros i Hi Hb. apply list_elem_of_singleton in Hb as ->.
    apply existsb_hasId in Hi. congruence.
  - apply NoDup_singleton.
Qed.

Lemma filter_map_id_NoDup (f : Booking → bool) l :
  NoDup (map id l) → NoDup (map id (List.filter f l)).
Proof.
  induction l as [|b l IH]; simpl; [done|].
  intros [Hb Hnd]%NoDup_cons. destruct (f b); simpl; [|by apply IH].
  apply NoDup_cons. split; [|by apply IH].
  intros Hin. apply Hb. apply list_elem_of_fmap in Hin as (x & -> & Hx).
  apply list_elem_of_fmap. exists x. split; [done|].
  apply list_elem_of_In, filter_In in Hx as [Hx _]. by apply list_elem_of_In.
Qed.

Lemma elem_of_filter_bool {A} (f : A → bool) l x :
  x ∈ List.filter f l ↔ x ∈ l ∧ f x = true.
Proof. rewrite !list_elem_of_In. apply filter_In. Qed.

(** The queue after a tick, in general: the old queue followed by bookings
    that pass the test. *)
Lemma checkBookings_queue now st :
  dueBookingQueue (checkBookings now st) = dueBookingQueue st ++ surfaced now st
  ∧ ∀ b, b ∈ surfaced now st →
         b ∈ bookings st ∧ surfaces now (notifiedBookingIds st) b = true.
Proof.
  unfold surfaced, checkBookings.
  destruct (tick_fold now (notifiedBookingIds st) (bookings st) st)
    as (_ & _ & _ & _ & _ & _ & HQ). simpl in HQ. rewrite HQ.
  destruct (enqueue_fold_app (List.filter (surfaces now (notifiedBookingIds st)) (bookings st))
              (dueBookingQueue st)) as (l' & -> & Hsub & _).
  rewrite drop_app_length. split; [done|].
  intros b Hb. apply Hsub, elem_of_filter_bool in Hb. done.
Qed.

Lemma checkBookings_notified now st :
  notifiedBookingIds (checkBookings now st)
  = list_to_set (map id (List.filter (surfaces now (notifiedBookingIds st)) (bookings st)))
      ∪ notifiedBookingIds st.
Proof.
  unfold checkBookings.
  by destruct (tick_fold now (notifiedBookingIds st) (bookings st) st)
    as (_ & _ & _ & _ & _ & HN & _).
Qed.

Lemma checkBookings_frame now st :
  bills (checkBookings now st) = bills st
  ∧ bookings (checkBookings now st) = bookings st
  ∧ isSnoozeMode (checkBookings now st) = isSnoozeMode st
  ∧ snoozeDuration (checkBookings now st) = snoozeDuration st
  ∧ showDeleteConfirmForDue (checkBookings now st) = showDeleteConfirmForDue st.
Proof.
  unfold checkBookings.
  destruct (tick_fold now (notifiedBookingIds st) (bookings st) st)
    as (? & ? & ? & ? & ? & _ & _). done.
Qed.

(** In a state that satisfies the queue invariant, with distinct booking
    ids, the tick adds exactly the bookings that pass the test. *)
Lemma surfaced_filter now st :
  queueInv st → NoDup (map id (bookings st)) →
  surfaced now st = List.filter (surfaces now (notifiedBookingIds st)) (bookings st).
Proof.
  intros [Hnd Hsub] Hbk. unfold surfaced, checkBookings.
  destruct (tick_fold now (notifiedBookingIds st) (bookings st) st)
    as (_ & _ & _ & _ & _ & _ & HQ). simpl in HQ. rewrite HQ.
  rewrite enqueue_fold_fresh; [by rewrite drop_app_length | by apply filter_map_id_NoDup |].
  intros i Hi Hq.
  apply list_elem_of_fmap in Hi as (b & -> & Hb).
  apply elem_of_filter_bool in Hb as [_ Hb]. apply surfaces_true in Hb as (_ & _ & Hb).
  apply list_elem_of_fmap in Hq as (b' & Heq & Hb'). apply Hsub in Hb'. congruence.
Qed.


Lemma NoDup_map_inj {A B} (f : A → B) l x y :
  NoDup (map f l) → x ∈ l → y ∈ l → f x = f y → x = y.
Proof.
  induction l as [|a l IH]; simpl; [by intros _ ?%elem_of_nil|].
  intros [Ha Hnd]%NoDup_cons Hx Hy Heq.
  apply elem_of_cons in Hx as [->|Hx]; apply elem_of_cons in Hy as [->|Hy];
    try done; try by apply IH.
  - exfalso. apply Ha. rewrite Heq. apply list_elem_of_fmap. by exists y.
  - exfalso. apply Ha. rewrite <- Heq. apply list_elem_of_fmap. by exists x.
Qed.

(** *** The queue invariant holds in every state the application reaches *)

Lemma queueInv_initial bs bks notified : queueInv (initial bs bks notified).
Proof. split; simpl; [constructor | by intros b ?%elem_of_nil]. Qed.

Lemma queueInv_tail st (f : gset string → gset string) :
  queueInv st →
  (∀ i, i ∈ notifiedBookingIds st → i ∈ map id (drop 1 (dueBookingQueue st)) →
        i ∈ f (notifiedBookingIds st)) →
  NoDup (map id (drop 1 (dueBookingQueue st)))
  ∧ ∀ b, b ∈ drop 1 (dueBookingQueue st) → id b ∈ f (notifiedBookingIds st).
Proof.
  intros [Hnd Hsub] Hf. destruct (dueBookingQueue st) as [|cur rest]; simpl in *.
  - split; [constructor | by intros b ?%elem_of_nil].
  - apply NoDup_cons in Hnd as [_ Hnd]. split; [done|].
    intros b Hb. apply Hf; [apply Hsub; set_solver|].
    apply list_elem_of_fmap. by exists b.
Qed.

Lemma checkBookings_queueInv now st : queueInv st → queueInv (checkBookings now st).
Proof.
  intros [Hnd Hsub]. split.
  - unfold checkBookings.
    destruct (tick_fold now (notifiedBookingIds st) (bookings st) st)
      as (_ & _ & _ & _ & _ & _ & HQ). simpl in HQ. rewrite HQ.
    by apply enqueue_fold_NoDup.
  - intros b. destruct (checkBookings_queue now st) as [-> Hnew].
    rewrite checkBookings_notified. intros [Hb|Hb]%elem_of_app.
    + apply Hsub in Hb. set_solver.
    + destruct (Hnew b Hb) as [Hin Hs]. apply elem_of_union_l, elem_of_list_to_set.
      apply list_elem_of_fmap. exists b. split; [done|]. by apply elem_of_filter_bool.
Qed.

Lemma confirmSnooze_queueInv now st : queueInv st → queueInv (confirmSnooze now st).
Proof.
  intros Hinv. unfold confirmSnooze, currentDueBooking.
  destruct (dueBookingQueue st) as [|cur rest] eqn:Hq; simpl; [done|].
  destruct (snoozeDuration st) as [mins|]; [|done].
  destruct (mins =? 0); [done|].
  destruct Hinv as [Hnd Hsub]. rewrite Hq in Hnd, Hsub. simpl in Hnd.
  apply NoDup_cons in Hnd as [Hcur Hnd].
  split; simpl; rewrite Hq; simpl; [done|].
  intros b Hb. apply elem_of_difference. split; [apply Hsub; set_solver|].
  intros Heq%elem_of_singleton. apply Hcur. rewrite <- Heq.
  apply list_elem_of_fmap. by exists b.
Qed.

Lemma step_queueInv st a : queueInv st → queueInv (step st a).
Proof.
  intros Hinv. destruct a; simpl; try exact Hinv.
  - by apply checkBookings_queueInv.
  - unfold confirmDueBooking, currentDueBooking.
    destruct (head (dueBookingQueue st)); [|done].
    apply (queueInv_tail st (fun N => N) Hinv). auto.
  - by apply confirmSnooze_queueInv.
  - unfold deleteDueBooking, currentDueBooking.
    destruct (head (dueBookingQueue st)); [|done].
    apply (queueInv_tail st (fun N => N) Hinv). auto.
  - unfold handleConvertToBill. by destruct confirmed.
  - apply queueInv_initial.
Qed.

Lemma reachable_queueInv st : reachable st → queueInv st.
Proof.
  induction 1 as [bs bks notified | st a _ IH].
  - apply queueInv_initial.
  - by apply step_queueInv.
Qed.

(** C1. One poll tick, in a state that satisfies the queue invariant (every
    reachable state does) and whose bookings have distinct ids: the queue
    grows at its end by [surfaced now st]; a booking of the collection is
    among the appended ones, and its id is newly notified, if and only if
    its date is at most [now], later than [now] minus 24 hours, and its id
    was not notified; nothing else is appended; no id occurs twice in the
    queue.  A booking dated 23 hours back and not notified is in the queue
    after the tick; a booking dated 25 hours back is appended by no tick at
    [now] or later, in whatever state. *)
Theorem checkBookings_surfaces_due_recent_unnotified (now : Z) (st : AppState) :
  queueInv st → NoDup (map id (bookings st)) →
  let st' := checkBookings now st in
  dueBookingQueue st' = dueBookingQueue st ++ surfaced now st
  ∧ (∀ b : Booking, b ∈ bookings st →
       (b ∈ surfaced now st
        ↔ date b <= now ∧ date b > now - 24 * 60 * 60 * 1000
          ∧ id b ∉ notifiedBookingIds st))
  ∧ (∀ b : Booking, b ∈ bookings st →
       (id b ∈ notifiedBookingIds st' ∧ id b ∉ notifiedBookingIds st
        ↔ date b <= now ∧ date b > now - 24 * 60 * 60 * 1000
          ∧ id b ∉ notifiedBookingIds st))
  ∧ (∀ b : Booking, b ∈ surfaced now st → b ∈ bookings st)
  ∧ notifiedBookingIds st ⊆ notifiedBookingIds st'
  ∧ bookings st' = bookings st
  ∧ NoDup (map id (dueBookingQueue st'))
  ∧ (∀ b : Booking, b ∈ bookings st → id b ∉ notifiedBookingIds st →
       date b = now - 23 * 60 * 60 * 1000 →
       b ∈ dueBookingQueue st' ∧ id b ∈ notifiedBookingIds st')
  ∧ (∀ (b : Booking) (later : Z) (st2 : AppState),
       date b = now - 25 * 60 * 60 * 1000 → now <= later →
       b ∉ surfaced later st2).
Proof.
  intros Hinv Hbk st'.
  assert (Hcond : ∀ b : Booking, b ∈ bookings st →
            (b ∈ surfaced now st
             ↔ date b <= now ∧ date b > now - 24 * 60 * 60 * 1000
               ∧ id b ∉ notifiedBookingIds st)).
  { intros b Hb. rewrite (surfaced_filter now st Hinv Hbk), elem_of_filter_bool.
    rewrite surfaces_true. unfold catchUpWindow. split.
    - intros (_ & ? & ? & ?). repeat split; [done | lia | done].
    - intros (? & ? & ?). repeat split; [done | done | lia | done]. }
  destruct (checkBookings_queue now st) as [HQ Hnew].
  split; [exact HQ|]. split; [exact Hcond|]. split.
  { intros b Hb. rewrite <- (Hcond b Hb). subst st'.
    rewrite checkBookings_notified, (surfaced_filter now st Hinv Hbk). split.
    - intros [Hin Hnot]. apply elem_of_union in Hin as [Hin|Hin]; [|done].
      apply elem_of_list_to_set, list_elem_of_fmap in Hin as (b' & Heq & Hb').
      assert (b = b') as <-; [|done].
      apply (NoDup_map_inj id (bookings st)); try done.
      by apply elem_of_filter_bool in Hb' as [? _].
    - intros Hin. split.
      + apply elem_of_union_l, elem_of_list_to_set, list_elem_of_fmap. by exists b.
      + by apply elem_of_filter_bool in Hin as [_ (_ & _ & ?)%surfaces_true]. }
  split; [intros b Hb; by apply Hnew|].
  split; [subst st'; rewrite checkBookings_notified; set_solver|].
  split; [apply checkBookings_frame|].
  split; [by apply checkBookings_queueInv|].
  split.
  - intros b Hb Hnot Hdate.
    assert (Hs : b ∈ surfaced now st).
    { apply Hcond; [done|]. repeat split; [lia | lia | done]. }
    split.
    + subst st'. rewrite HQ. set_solver.
    + subst st'. rewrite checkBookings_notified.
      apply elem_of_union_l, elem_of_list_to_set, list_elem_of_fmap. exists b.
      split; [done|]. by rewrite <- (surfaced_filter now st Hinv Hbk).
  - intros b later st2 Hdate Hlater Hin.
    destruct (checkBookings_queue later st2) as [_ Hnew2].
    apply Hnew2 in Hin as [_ Hs]. apply surfaces_true in Hs.
    unfold catchUpWindow in Hs. lia.
Qed.


(** *** Snooze *)

Lemma updateBooking_elem (u : Booking) l b :
  b ∈ updateBooking u l ↔ (b = u ∧ ∃ b0, b0 ∈ l ∧ id b0 = id u) ∨ (b ∈ l ∧ id b ≠ id u).
Proof.
  unfold updateBooking. rewrite list_elem_of_fmap. split.
  - intros (b0 & -> & Hb0). destruct (String.eqb (id b0) (id u)) eqn:E.
    + apply String.eqb_eq in E. left. split; [done|]. by exists b0.
    + apply String.eqb_neq in E. by right.
  - intros [(-> & b0 & Hb0 & E)|[Hb E]].
    + exists b0. apply String.eqb_eq in E. by rewrite E.
    + exists b. apply String.eqb_neq in E. by rewrite E.
Qed.

(** A tick surfaces every booking that passes its test: an entry with that
    id is in the queue afterwards. *)
Lemma checkBookings_enqueues now st (b : Booking) :
  b ∈ bookings st → surfaces now (notifiedBookingIds st) b = true →
  id b ∈ map id (dueBookingQueue (checkBookings now st))
  ∧ id b ∈ notifiedBookingIds (checkBookings now st).
Proof.
  intros Hb Hs. split.
  - unfold checkBookings.
    destruct (tick_fold now (notifiedBookingIds st) (bookings st) st)
      as (_ & _ & _ & _ & _ & _ & HQ). simpl in HQ. rewrite HQ.
    destruct (enqueue_fold_app (List.filter (surfaces now (notifiedBookingIds st)) (bookings st))
                (dueBookingQueue st)) as (l' & -> & _ & Hids).
    apply Hids, list_elem_of_fmap. exists b. split; [done|]. by apply elem_of_filter_bool.
  - rewrite checkBookings_notified.
    apply elem_of_union_l, elem_of_list_to_set, list_elem_of_fmap. exists b.
    split; [done|]. by apply elem_of_filter_bool.
Qed.

(** An id none of whose bookings passes the test stays out of the queue and
    out of the notified set. *)
Lemma checkBookings_skips now st i :
  (∀ b : Booking, b ∈ bookings st → id b = i →
                  surfaces now (notifiedBookingIds st) b = false) →
  i ∉ notifiedBookingIds st → i ∉ map id (dueBookingQueue st) →
  (i ∉ notifiedBookingIds (checkBookings now st))
  ∧ (i ∉ map id (dueBookingQueue (checkBookings now st))).
Proof.
  intros Hno HN HQ. split.
  - rewrite checkBookings_notified. intros [Hin|Hin]%elem_of_union; [|done].
    apply elem_of_list_to_set, list_elem_of_fmap in Hin as (b & -> & Hb).
    apply elem_of_filter_bool in Hb as [Hb Hs]. rewrite (Hno b Hb eq_refl) in Hs. done.
  - destruct (checkBookings_queue now st) as [-> Hnew].
    rewrite map_app. intros [Hin|Hin]%elem_of_app; [done|].
    apply list_elem_of_fmap in Hin as (b & -> & Hb).
    destruct (Hnew b Hb) as [Hb' Hs]. rewrite (Hno b Hb' eq_refl) in Hs. done.
Qed.

(** C2. Snooze of the booking at the head of the queue, with a duration
    chosen: the queue loses its head, the id leaves the notified set, and
    in the collection the record with that id becomes the queued booking
    with date [now + mins] minutes (the other records and the bills are
    untouched).  Consequently, from a state satisfying the queue invariant
    in which the booking is still in the collection, after any poll ticks
    before the new time, the poll tick at or after the new time (inside the
    catch-up window of that time) puts the rescheduled booking into the
    queue again and notifies its id; in particular a poll ticking every
    5000 ms from before the new time does so at its first tick at or after
    the new time. *)
Theorem confirmSnooze_reschedules_and_rearms
    (now : Z) (st : AppState) (cur : Booking) (rest : list Booking) (mins : Z) :
  dueBookingQueue st = cur :: rest → snoozeDuration st = Some mins → mins ≠ 0 →
  let newDate := now + mins * 60000 in
  let snoozed := mkBill (id cur) (with_date newDate cur) in
  let st' := confirmSnooze now st in
  dueBookingQueue st' = rest
  ∧ notifiedBookingIds st' = notifiedBookingIds st ∖ {[id cur]}
  ∧ date snoozed = newDate
  ∧ (∀ b : Booking, b ∈ bookings st' → id b = id cur → b = snoozed)
  ∧ (∀ b : Booking, b ∈ bookings st → id b = id cur → snoozed ∈ bookings st')
  ∧ (∀ b : Booking, id b ≠ id cur → (b ∈ bookings st' ↔ b ∈ bookings st))
  ∧ bills st' = bills st
  ∧ (queueInv st → (∃ b : Booking, b ∈ bookings st ∧ id b = id cur) →
     ∀ (earlier : list Z) (t : Z),
       (∀ e, e ∈ earlier → e < newDate) →
       newDate <= t → t < newDate + catchUpWindow →
       let st'' := checkBookings t (run st' (map Tick earlier)) in
       snoozed ∈ dueBookingQueue st'' ∧ id cur ∈ notifiedBookingIds st'')
  ∧ (queueInv st → (∃ b : Booking, b ∈ bookings st ∧ id b = id cur) →
     ∀ (t0 : Z) (n : nat),
       t0 + pollInterval * Z.of_nat n < newDate →
       newDate <= t0 + pollInterval * Z.of_nat (S n) →
       let st'' := run st' (map Tick (pollTicks t0 (S (S n)))) in
       snoozed ∈ dueBookingQueue st'' ∧ id cur ∈ notifiedBookingIds st'').
Proof.
  intros Hq Hd Hmins newDate snoozed st'.
  assert (Hst' : st' = processNextBooking
            (setNotifiedBookingIds (fun prev => prev ∖ {[id cur]})
               (setBookings (updateBooking snoozed (bookings st)) st))).
  { subst st'. unfold confirmSnooze, currentDueBooking. rewrite Hq, Hd. simpl.
    apply Z.eqb_neq in Hmins. by rewrite Hmins. }
  assert (Hown : ∀ b : Booking, b ∈ bookings st' → id b = id cur → b = snoozed).
  { rewrite Hst'. simpl. intros b [[-> _]|[_ Hne]]%updateBooking_elem E; [done|].
    by destruct Hne. }
  assert (Hkept : ∀ b : Booking, b ∈ bookings st → id b = id cur → snoozed ∈ bookings st').
  { rewrite Hst'. simpl. intros b Hb E. apply updateBooking_elem. left.
    split; [done|]. by exists b. }
  split; [by rewrite Hst'; simpl; rewrite Hq|].
  split; [by rewrite Hst'|].
  split; [done|]. split; [exact Hown|]. split; [exact Hkept|].
  split.
  { rewrite Hst'. simpl. intros b Hne. rewrite updateBooking_elem. split.
    - intros [[-> _]|[? _]]; [by destruct Hne | done].
    - intros Hb. by right. }
  split; [by rewrite Hst'|].
  assert (Hrearm : queueInv st → (∃ b : Booking, b ∈ bookings st ∧ id b = id cur) →
     ∀ (earlier : list Z) (t : Z),
       (∀ e, e ∈ earlier → e < newDate) →
       newDate <= t → t < newDate + catchUpWindow →
       let st'' := checkBookings t (run st' (map Tick earlier)) in
       snoozed ∈ dueBookingQueue st'' ∧ id cur ∈ notifiedBookingIds st'');
    [|split; [exact Hrearm|]].
  2: { intros Hinv Hpresent t0 n Hbefore Hafter.
       unfold pollTicks. rewrite seq_S, !map_app, Nat.add_0_l. unfold run.
       rewrite fold_left_app. cbn [map fold_left step].
       apply (Hrearm Hinv Hpresent
                (map (fun k => t0 + pollInterval * Z.of_nat k) (seq 0 (S n)))
                (t0 + pollInterval * Z.of_nat (S n))).
       - intros e He. apply list_elem_of_fmap in He as (k & -> & Hk).
         apply list_elem_of_In, in_seq in Hk. unfold pollInterval in *. lia.
       - exact Hafter.
       - unfold pollInterval, catchUpWindow in *. lia. }
  intros [Hnd Hsub] (b0 & Hb0 & E0) earlier t Hearly Hle Hlt st''.
  (* what the ticks before the new time keep true *)
  assert (Hwait : ∀ s, bookings s = bookings st' →
            id cur ∉ notifiedBookingIds s → id cur ∉ map id (dueBookingQueue s) →
            let s' := run s (map Tick earlier) in
            bookings s' = bookings st' ∧ (id cur ∉ notifiedBookingIds s')
            ∧ (id cur ∉ map id (dueBookingQueue s'))).
  { clear st''. induction earlier as [|e earlier IH]; intros s Hbk HN HQ; simpl; [done|].
    destruct (checkBookings_skips e s (id cur)) as [HN' HQ']; try done.
    { intros b Hb E. rewrite Hbk in Hb. rewrite (Hown b Hb E).
      apply not_true_is_false. intros (Hdue & _)%surfaces_true. simpl in Hdue.
      assert (e < newDate) by (apply Hearly; set_solver). lia. }
    apply IH; try done.
    - intros e' He'. apply Hearly. set_solver.
    - destruct (checkBookings_frame e s) as (_ & -> & _). done. }
  destruct (Hwait st') as (Hbk & HN & HQ); [done | | |].
  { rewrite Hst'. simpl. set_solver. }
  { rewrite Hst'. simpl. rewrite Hq in Hnd |- *. simpl in *.
    by apply NoDup_cons in Hnd as [? _]. }
  set (s := run st' (map Tick earlier)) in *.
  assert (Hin : snoozed ∈ bookings s) by (rewrite Hbk; by apply (Hkept b0)).
  assert (Hs : surfaces t (notifiedBookingIds s) snoozed = true).
  { apply surfaces_true. simpl. repeat split; [lia | lia | done]. }
  destruct (checkBookings_enqueues t s snoozed Hin Hs) as [HQ' HN'].
  split; [|exact HN'].
  subst st''. destruct (checkBookings_queue t s) as [HQeq Hnew]. rewrite HQeq in HQ' |- *.
  rewrite map_app in HQ'. apply elem_of_app in HQ' as [HQ'|HQ']; [done|].
  apply list_elem_of_fmap in HQ' as (x & E & Hx). simpl in E.
  destruct (Hnew x Hx) as [Hxin _]. rewrite Hbk in Hxin.
  rewrite <- (Hown x Hxin (eq_sym E)). set_solver.
Qed.


(** *** Notified ids do not come back *)

Lemma occurrences_app i q l :
  occurrences i (q ++ l) = (occurrences i q + occurrences i l)%nat.
Proof. unfold occurrences. by rewrite List.filter_app, length_app. Qed.

Lemma occurrences_tail i (q : list Booking) :
  (occurrences i (drop 1 q) <= occurrences i q)%nat.
Proof.
  destruct q as [|b q]; [done|]. unfold occurrences. cbn.
  rewrite drop_0. destruct (hasId i b); cbn; lia.
Qed.

Lemma occurrences_none i (l : list Booking) :
  (∀ b, b ∈ l → id b ≠ i) → occurrences i l = 0%nat.
Proof.
  intros Hl. unfold occurrences.
  induction l as [|b l IH]; simpl; [done|].
  destruct (hasId i b) eqn:E.
  - apply hasId_true in E. destruct (Hl b); [set_solver | done].
  - apply IH. intros b' Hb'. apply Hl. set_solver.
Qed.

(** One action, on a notified id that the action does not snooze: the id
    stays notified and the queue gains no entry with it. *)
Lemma step_keeps_notified (i : string) (st : AppState) (a : Action) :
  i ∈ notifiedBookingIds st → snoozes i st a = false →
  i ∈ notifiedBookingIds (step st a)
  ∧ (occurrences i (dueBookingQueue (step st a)) <= occurrences i (dueBookingQueue st))%nat.
Proof.
  intros Hi Hs. destruct a; simpl; try (split; [done | lia]).
  - (* the poll *)
    split; [rewrite checkBookings_notified; set_solver|].
    destruct (checkBookings_queue now st) as [-> Hnew].
    rewrite occurrences_app, (occurrences_none i (surfaced now st)); [lia|].
    intros b Hb <-. destruct (Hnew b Hb) as [_ (_ & _ & Hnot)%surfaces_true]. done.
  - unfold confirmDueBooking. destruct (currentDueBooking st); simpl; [|split; [done|lia]].
    split; [done | apply occurrences_tail].
  - unfold snoozes in Hs. unfold confirmSnooze.
    destruct (currentDueBooking st) as [cur|]; [|split; [done|lia]].
    destruct (snoozeDuration st) as [mins|]; [|split; [done|lia]].
    destruct (mins =? 0); simpl in *; [split; [done|lia]|].
    rewrite andb_true_r in Hs. apply String.eqb_neq in Hs.
    split; [set_solver | apply occurrences_tail].
  - unfold deleteDueBooking. destruct (currentDueBooking st); simpl; [|split; [done|lia]].
    split; [done | apply occurrences_tail].
  - unfold handleConvertToBill. destruct confirmed; simpl; split; done || lia.
  - split; [done | unfold occurrences; simpl; lia].
Qed.

(** C3, as the code has it.  Take any state, any run of actions (polls,
    popup buttons, list and editor actions, reloads) and an id that is
    notified at the start.  As long as no action of the run is a snooze
    taking effect on that id, the id is notified before every action of the
    run and no action adds a queue entry with it.  The popup's keep button
    ("Giữ lịch hẹn") does not pop the queue: it opens the snooze options and
    leaves the queue, the bookings and the notified ids as they are.  The
    pop that ends the confirm, snooze and delete decisions,
    [processNextBooking], drops the head and changes neither the bookings
    nor the notified ids.  What each action does to a queue with a head:
    the popup's confirm and the confirmed delete leave the rest of the
    queue, and so does the confirmed snooze when a duration other than 0 is
    chosen (without one it changes nothing); a reload empties the queue; a
    poll tick appends what it surfaces; every other action leaves the queue
    as it is. *)
Theorem notified_id_never_requeued_unless_snoozed
    (st : AppState) (acts : list Action) (i : string) :
  i ∈ notifiedBookingIds st → neverSnoozed i st acts = true →
  (∀ pre a post, acts = pre ++ a :: post →
     i ∈ notifiedBookingIds (run st pre)
     ∧ i ∈ notifiedBookingIds (step (run st pre) a)
     ∧ (occurrences i (dueBookingQueue (step (run st pre) a))
        <= occurrences i (dueBookingQueue (run st pre)))%nat)
  ∧ (∀ s, dueBookingQueue (step s KeepButton) = dueBookingQueue s
          ∧ bookings (step s KeepButton) = bookings s
          ∧ notifiedBookingIds (step s KeepButton) = notifiedBookingIds s
          ∧ isSnoozeMode (step s KeepButton) = true)
  ∧ (∀ s, dueBookingQueue (processNextBooking s) = drop 1 (dueBookingQueue s)
          ∧ bookings (processNextBooking s) = bookings s
          ∧ notifiedBookingIds (processNextBooking s) = notifiedBookingIds s)
  ∧ (∀ s a cur rest, dueBookingQueue s = cur :: rest →
       match a with
       | ConfirmButton _ _ | DeleteConfirm => dueBookingQueue (step s a) = rest
       | SnoozeConfirm _ =>
           dueBookingQueue (step s a)
           = match snoozeDuration s with
             | Some mins => if mins =? 0 then cur :: rest else rest
             | None => cur :: rest
             end
       | Reload =>
           dueBookingQueue (step s a) = []
           ∧ notifiedBookingIds (step s a) = notifiedBookingIds s
       | Tick now => dueBookingQueue (step s a) = cur :: rest ++ surfaced now s
       | _ => dueBookingQueue (step s a) = cur :: rest
       end).
Proof.
  intros Hi Hns. split; [|split; [done|split; [done|]]].
  2: { intros s a cur rest Hq. destruct a; cbn [step]; try (simpl; exact Hq).
       - destruct (checkBookings_queue now s) as [-> _]. by rewrite Hq.
       - unfold confirmDueBooking, currentDueBooking. rewrite Hq. simpl. by rewrite Hq.
       - unfold confirmSnooze, currentDueBooking. rewrite Hq. simpl.
         destruct (snoozeDuration s) as [mins|]; [|done].
         destruct (mins =? 0); [done|]. simpl. by rewrite Hq.
       - unfold deleteDueBooking, currentDueBooking. rewrite Hq. simpl. by rewrite Hq.
       - unfold handleConvertToBill. destruct confirmed; simpl; exact Hq.
       - done. }
  revert st Hi Hns. induction acts as [|a0 acts IH]; intros st Hi Hns pre a post Heq.
  - by destruct pre.
  - simpl in Hns. apply andb_true_iff in Hns as [Hs Hns]. apply negb_true_iff in Hs.
    destruct (step_keeps_notified i st a0 Hi Hs) as [Hi' Hocc].
    destruct pre as [|p pre]; simpl in Heq; injection Heq as -> Heq.
    + simpl. done.
    + subst acts. simpl. by eapply IH.
Qed.

(** *** Converting a booking into a bill *)

Lemma deleteBooking_elem i l (b : Booking) :
  b ∈ deleteBooking i l ↔ b ∈ l ∧ id b ≠ i.
Proof.
  unfold deleteBooking. rewrite elem_of_filter_bool, negb_true_iff.
  by rewrite String.eqb_neq.
Qed.



(** *** The theorems at work on the sample data *)

Lemma sample_ids_distinct : NoDup (map id (bookings Samples.morning)).
Proof.
  apply NoDup_cons. split; [|apply NoDup_singleton].
  intros Hin%list_elem_of_singleton. discriminate Hin.
Qed.

Lemma checkBookings_surfaces_witness :
  Samples.booking "b1" (Samples.noon - 23 * Samples.hour)
    ∈ dueBookingQueue (checkBookings Samples.noon Samples.morning)
  ∧ Samples.booking "b2" (Samples.noon - 25 * Samples.hour)
    ∉ surfaced Samples.noon Samples.morning.
Proof.
  destruct (checkBookings_surfaces_due_recent_unnotified Samples.noon Samples.morning
              (queueInv_initial _ _ _) sample_ids_distinct)
    as (_ & _ & _ & _ & _ & _ & _ & H23 & H25).
  split.
  - apply H23; [apply list_elem_of_here | apply not_elem_of_empty | reflexivity].
  - apply H25; [reflexivity | apply Z.le_refl].
Defined.

Lemma snoozing_queueInv : queueInv Samples.snoozing.
Proof.
  split; simpl.
  - apply NoDup_singleton.
  - intros b ->%list_elem_of_singleton. by apply elem_of_singleton.
Qed.

Lemma confirmSnooze_witness :
  dueBookingQueue (confirmSnooze Samples.noon Samples.snoozing) = []
  ∧ notifiedBookingIds (confirmSnooze Samples.noon Samples.snoozing)
    = notifiedBookingIds Samples.snoozing ∖ {["b1"]}
  ∧ Samples.booking "b1" (Samples.noon + 10 * 60000)
    ∈ dueBookingQueue
        (checkBookings (Samples.noon + 10 * 60000 + 2000)
           (run (confirmSnooze Samples.noon Samples.snoozing)
              [Tick (Samples.noon + 5000); Tick (Samples.noon + 10000)])).
Proof.
  destruct (confirmSnooze_reschedules_and_rearms Samples.noon Samples.snoozing
              (Samples.booking "b1" (Samples.noon - 23 * Samples.hour)) [] 10
              eq_refl eq_refl ltac:(discriminate))
    as (HQ & HN & _ & _ & _ & _ & _ & Hrearm & _).
  split; [exact HQ|]. split; [exact HN|].
  apply (Hrearm snoozing_queueInv
           (ex_intro _ (Samples.booking "b1" (Samples.noon - 23 * Samples.hour))
              (conj (list_elem_of_here _ _) eq_refl))
           [Samples.noon + 5000; Samples.noon + 10000]
           (Samples.noon + 10 * 60000 + 2000)).
  - intros e He. apply elem_of_cons in He as [->|He]; [reflexivity|].
    apply list_elem_of_singleton in He as ->. reflexivity.
  - discriminate.
  - reflexivity.
Defined.

Lemma busyDay_never_snoozes : neverSnoozed "b1" Samples.popup Samples.busyDay = true.
Proof. vm_compute. reflexivity. Qed.

Lemma popup_has_notified_b1 : "b1" ∈ notifiedBookingIds Samples.popup.
Proof. unfold Samples.popup. simpl. by apply elem_of_singleton. Qed.

Lemma notified_id_never_requeued_witness :
  "b1" ∈ notifiedBookingIds (run Samples.popup Samples.busyDay).
Proof.
  destruct (notified_id_never_requeued_unless_snoozed Samples.popup Samples.busyDay "b1"
              popup_has_notified_b1 busyDay_never_snoozes)
    as [Hrun _].
  destruct (Hrun (removelast Samples.busyDay) (Tick (Samples.noon + 2 * Samples.hour + 5000)) []
              eq_refl) as (_ & H & _).
  exact H.
Defined.

(** The keep button on the sample popup: pressing "Giữ lịch hẹn" while the
    popup shows booking b1 leaves b1 at the head of the queue; nothing is
    popped. *)
Lemma keep_button_does_not_pop :
  dueBookingQueue (step Samples.popup KeepButton) = dueBookingQueue Samples.popup
  ∧ dueBookingQueue (step Samples.popup KeepButton)
    ≠ drop 1 (dueBookingQueue Samples.popup).
Proof. split; [reflexivity | discriminate]. Qed.


End NotifierFacts.

(** ** The editor: totals and validation *)

Module BillEditorFacts.
Import JS JSDate Collections BillEditor.

Lemma truthy_false s : truthy s = false ↔ s = "".
Proof. unfold truthy. rewrite negb_false_iff. apply String.eqb_eq. Qed.

Lemma truthy_true s : truthy s = true ↔ s ≠ "".
Proof. unfold truthy. rewrite negb_true_iff. apply String.eqb_neq. Qed.

Lemma sum_fold_left (l : list ServiceItem) (a : Z) :
  fold_left (fun sum item => sum + price item) l a
  = a + fold_right Z.add 0 (map price l).
Proof.
  revert a. induction l as [|x l IH]; intros a; simpl; [lia|]. rewrite IH. lia.
Qed.

Lemma calculateSubtotal_sum st :
  calculateSubtotal st = fold_right Z.add 0 (map price (s_items st)).
Proof. unfold calculateSubtotal. by rewrite sum_fold_left. Qed.

(** Dropping the rows without a service does not change the sum when those
    rows carry no price. *)
Lemma sum_selected_rows rows :
  rowsUnpriced rows →
  fold_right Z.add 0
    (map price (List.filter (fun item => truthy (serviceId item)) rows))
  = fold_right Z.add 0 (map price rows).
Proof.
  induction rows as [|x rows IH]; intros Hrows; simpl; [done|].
  assert (Hrest : rowsUnpriced rows) by (intros y Hy; apply Hrows; set_solver).
  destruct (truthy (serviceId x)) eqn:E; simpl; rewrite (IH Hrest); [done|].
  apply truthy_false in E. rewrite (Hrows x); [done | set_solver | done].
Qed.

(** The nearest integer to a quotient, a tie going up. *)
Lemma Math_round_ratio_nearest n d :
  0 < d →
  - d <= 2 * n - 2 * d * Math_round_ratio n d < d.
Proof.
  intros Hd. unfold Math_round_ratio.
  pose proof (Z.div_mod (2 * n + d) (2 * d) ltac:(lia)) as Hdm.
  pose proof (Z.mod_pos_bound (2 * n + d) (2 * d) ltac:(lia)) as Hm.
  lia.
Qed.

(** [Math.round] of a finite number with a fractional part, [n / 2^k]: the
    result is within one half of it, a tie going up. *)
Lemma Math_round_nearest x s m e :
  FloatOps.Prim2SF x = SpecFloat.S754_finite s m e → e < 0 →
  let n := if s then Zneg m else Zpos m in
  - 2 ^ (- e) <= 2 * n - 2 * 2 ^ (- e) * Math_round x < 2 ^ (- e).
Proof.
  intros Hx He n. unfold Math_round. rewrite Hx.
  destruct (0 <=? e) eqn:E; [apply Z.leb_le in E; lia|].
  apply Math_round_ratio_nearest. apply Z.pow_pos_nonneg; lia.
Qed.

(** The percentage in binary64: ten percent of 200000 is 20000; a half goes
    up; 29 percent of 50 is 14, the binary64 product falling just below
    14.5. *)
Example roundPercent_examples :
  roundPercent 200000 10 = 20000 ∧ roundPercent 5 10 = 1 ∧ roundPercent 25 10 = 3
  ∧ roundPercent 50 29 = 14 ∧ roundPercent 150000 29 = 43500.
Proof. repeat split. Qed.

(** What a successful submit hands to [onSave]. *)
Lemma handleSubmit_OnSave LocalTZA now p st b :
  handleSubmit LocalTZA now p st = OnSave b →
  customerName b = trim (s_customerName st)
  ∧ date b = finalDate LocalTZA st
  ∧ items b = List.filter (fun item => truthy (serviceId item)) (s_items st)
  ∧ total b = calculateTotal st
  ∧ discountValue b = s_discountValue st
  ∧ discountType b = s_discountType st
  ∧ note b = Some (trim (s_note st))
  ∧ createdAt b = match isBooking p, bill p with
                  | true, Some b0 => createdAt b0
                  | _, _ => None
                  end.
Proof.
  unfold handleSubmit.
  destruct (negb (truthy (trim (s_customerName st)))); [done|].
  destruct (length _ =? 0)%nat; [done|].
  destruct (isBooking p && _ && _); [done|].
  intros [= <-]. done.
Qed.

(** *** The rows of a form the user has worked on *)

Lemma rowsUnpriced_insert rows index item :
  rowsUnpriced rows → (serviceId item = "" → price item = 0) →
  rowsUnpriced (<[index := item]> rows).
Proof.
  intros Hrows Hitem x Hx. apply list_elem_of_lookup in Hx as [j Hj].
  apply list_lookup_insert_Some in Hj as [(_ & -> & _)|[_ Hj]]; [done|].
  apply Hrows, list_elem_of_lookup. by exists j.
Qed.

Lemma findService_id services i service :
  findService services i = Some service → service_id service = i.
Proof.
  unfold findService. intros H. apply find_some in H as [_ H].
  by apply String.eqb_eq in H.
Qed.

Lemma findService_In services i service :
  findService services i = Some service → service ∈ services.
Proof.
  unfold findService. intros H. apply find_some in H as [H _].
  by apply list_elem_of_In.
Qed.

Lemma editorStep_rowsUnpriced p st ev :
  (∀ service, service ∈ services p → service_id service ≠ "") →
  rowsUnpriced (s_items st) → rowsUnpriced (s_items (editorStep p st ev)).
Proof.
  intros Hids Hrows.
  assert (Hqc : ∀ index value, rowsUnpriced (s_items (handleQuantityChange p index value st))).
  { intros index value. unfold handleQuantityChange.
    destruct (s_items st !! index) as [it|] eqn:Hit; [|done].
    destruct (findService (services p) (serviceId it)) as [service|] eqn:Hf; [|done].
    simpl. apply rowsUnpriced_insert; [done|]. simpl. intros E.
    apply findService_id in Hf as Hid. apply findService_In, Hids in Hf. congruence. }
  destruct ev; simpl; try done.
  - unfold handleItemChange.
    destruct (findService (services p) selectedServiceId) as [service|] eqn:Hf; [|done].
    destruct (s_items st !! index) as [it|]; [|done].
    simpl. apply rowsUnpriced_insert; [done|].
    apply findService_In, Hids in Hf.
    destruct (priceType service), (variants service) as [[|v vs]|]; simpl; done.
  - unfold handleVariantChange.
    destruct (s_items st !! index) as [it|] eqn:Hit; [|done].
    destruct (findService (services p) (serviceId it)) as [service|] eqn:Hf; [|done].
    destruct (variants service) as [vs|]; [|done].
    destruct (find _ vs); [|done].
    simpl. apply rowsUnpriced_insert; [done|]. simpl. intros E.
    apply findService_id in Hf as Hid. apply findService_In, Hids in Hf. congruence.
  - unfold handleQuantityBlur. destruct (s_items st !! index); [|done].
    destruct (_ || _); [apply Hqc | done].
  - intros x [Hx|Hx]%elem_of_app; [by apply Hrows|].
    apply list_elem_of_singleton in Hx as ->. done.
  - intros x Hx. apply Hrows. by eapply list_elem_of_delete_inv.
Qed.

Lemma freshForm_rowsUnpriced tempId day time :
  rowsUnpriced (s_items (freshForm tempId day time)).
Proof. intros x Hx. apply list_elem_of_singleton in Hx as ->. done. Qed.

(** The form that loads a record has the property when the record's items
    have it; the items of a record the editor saved do, each having a
    service. *)
Lemma loadForm_rowsUnpriced LocalTZA (b : Bill) :
  rowsUnpriced (items b) → rowsUnpriced (s_items (loadForm LocalTZA b)).
Proof.
  intros Hrows x Hx E. simpl in Hx. apply list_elem_of_fmap in Hx as (y & -> & Hy).
  simpl in *. by apply Hrows.
Qed.

Lemma saved_items_rowsUnpriced LocalTZA now p st b :
  handleSubmit LocalTZA now p st = OnSave b → rowsUnpriced (items b).
Proof.
  intros (_ & _ & Hitems & _)%handleSubmit_OnSave x Hx E. exfalso.
  rewrite Hitems in Hx. apply list_elem_of_In, filter_In in Hx as [_ Hx].
  by apply truthy_true in Hx.
Qed.

(** Every form reached from a new form, or from the form of a record the
    editor saved, has the property. *)
Lemma worked_form_rowsUnpriced p st events :
  (∀ service, service ∈ services p → service_id service ≠ "") →
  rowsUnpriced (s_items st) →
  rowsUnpriced (s_items (fold_left (editorStep p) events st)).
Proof.
  intros Hids. revert st. induction events as [|ev events IH]; intros st Hrows; simpl; [done|].
  apply IH. by apply editorStep_rowsUnpriced.
Qed.


(** [Math.round] gives the nearest integer, a half going up, and there is
    only one such integer. *)
Lemma Math_round_nearestInteger x : nearestInteger x (Math_round x).
Proof.
  unfold nearestInteger, Math_round.
  destruct (FloatOps.Prim2SF x) as [s| | |s m e]; try done.
  cbv zeta. destruct (0 <=? e) eqn:E; [done|]. apply Z.leb_gt in E.
  apply Math_round_ratio_nearest. apply Z.pow_pos_nonneg; lia.
Qed.

Lemma nearestInteger_unique x z z' :
  (∃ s m e, FloatOps.Prim2SF x = SpecFloat.S754_finite s m e)
  ∨ (∃ s, FloatOps.Prim2SF x = SpecFloat.S754_zero s) →
  nearestInteger x z → nearestInteger x z' → z = z'.
Proof.
  unfold nearestInteger.
  intros [(s & m & e & ->)|(s & ->)]; [|congruence].
  cbv zeta. destruct (0 <=? e) eqn:E; [congruence|]. apply Z.leb_gt in E.
  assert (Hd : 0 < 2 ^ (- e)) by (apply Z.pow_pos_nonneg; lia).
  set (d := 2 ^ (- e)) in *. clearbody d. intros H1 H2. nia.
Qed.

(** C5, as the code has it.  A record the editor hands to [onSave], from a
    form whose rows without a service carry no price: its total is the
    larger of 0 and the sum of its items' prices minus the discount amount;
    the discount amount is the discount value for the type [amount], as the
    specification has it, and, for [percent], [Math.round] of the binary64
    product subtotal times (value over 100): the one integer nearest to
    that product, a half going up.  Every form the user reaches from a new
    form, or from the form loaded with a record the editor saved before, is
    such a form (the services of the catalogue having non-empty ids), so
    the formula holds of every record saved in such a session.  The
    scenario: Service A at 100000 taken twice gives a row of price 200000,
    subtotal and total 200000; with 10 percent the discount is 20000, which
    is also the exact rounded percentage, and the total 180000.  The
    rounding: 10 percent of 5 is 0.5 and gives 1; 29 percent of 50 is 14.5
    exactly, the binary64 product falls just below it and gives 14, where
    the exact quotient rounded gives 15, so the record saved has total 36
    and not 35. *)
Theorem saved_total_is_subtotal_minus_discount :
  (∀ (LocalTZA now : Z) (p : Props) (st : EditorState) (b : Bill),
     handleSubmit LocalTZA now p st = OnSave b → rowsUnpriced (s_items st) →
     let subtotal := fold_right Z.add 0 (map price (items b)) in
     total b = Z.max 0 (subtotal - discountAmount b)
     ∧ discountAmount b = calculateDiscountAmount st
     ∧ (discountType b = amount → discountAmount b = discountValue b)
     ∧ (discountType b = percent →
        discountAmount b = roundPercent subtotal (discountValue b))
     ∧ (discountType b = amount → discountAmount b = specDiscountAmount b)
     ∧ (discountType b = percent →
        nearestInteger
          (PrimFloat.mul (toNumber subtotal)
             (PrimFloat.div (toNumber (discountValue b)) (toNumber 100)))
          (discountAmount b)))
  ∧ (∀ (LocalTZA now : Z) (p : Props) (events : list Event)
       (tempId : string) (day : Z) (time : Z * Z) (b : Bill),
       (∀ service, service ∈ services p → service_id service ≠ "") →
       handleSubmit LocalTZA now p
         (fold_left (editorStep p) events (freshForm tempId day time)) = OnSave b →
       total b
       = Z.max 0 (fold_right Z.add 0 (map price (items b)) - discountAmount b))
  ∧ (∀ (LocalTZA now now0 : Z) (p p0 : Props) (st0 : EditorState) (b0 : Bill)
       (events : list Event) (b : Bill),
       (∀ service, service ∈ services p → service_id service ≠ "") →
       handleSubmit LocalTZA now0 p0 st0 = OnSave b0 →
       handleSubmit LocalTZA now p
         (fold_left (editorStep p) events (loadForm LocalTZA b0)) = OnSave b →
       total b
       = Z.max 0 (fold_right Z.add 0 (map price (items b)) - discountAmount b))
  ∧ (map price (s_items Samples.twiceA) = [200000]
     ∧ map quantity (s_items Samples.twiceA) = [2]
     ∧ calculateSubtotal Samples.twiceA = 200000
     ∧ calculateTotal Samples.twiceA = 200000
     ∧ (∀ now, ∃ b,
          handleSubmit Samples.indochina now Samples.billProps Samples.twiceA = OnSave b
          ∧ map price (items b) = [200000] ∧ total b = 200000))
  ∧ (calculateSubtotal Samples.twiceA_tenPercent = 200000
     ∧ calculateDiscountAmount Samples.twiceA_tenPercent = 20000
     ∧ calculateTotal Samples.twiceA_tenPercent = 180000
     ∧ (∀ now, ∃ b,
          handleSubmit Samples.indochina now Samples.billProps Samples.twiceA_tenPercent
          = OnSave b
          ∧ discountAmount b = 20000 ∧ total b = 180000
          ∧ specDiscountAmount b = 20000))
  ∧ (∀ x z z',
       (∃ s m e, FloatOps.Prim2SF x = SpecFloat.S754_finite s m e)
       ∨ (∃ s, FloatOps.Prim2SF x = SpecFloat.S754_zero s) →
       nearestInteger x z → nearestInteger x z' → z = z')
  ∧ (roundPercent 5 10 = 1
     ∧ roundPercent 50 29 = 14
     ∧ Math_round_ratio (50 * 29) 100 = 15
     ∧ (∀ now, ∃ b,
          handleSubmit Samples.indochina now MoreSamples.halfProps
            MoreSamples.onceB_29percent = OnSave b
          ∧ map price (items b) = [50]
          ∧ discountAmount b = 14 ∧ total b = 36
          ∧ specDiscountAmount b = 15))
  ∧ (∀ (p : Props) (events : list Event) (tempId : string) (day : Z) (time : Z * Z),
       (∀ service, service ∈ services p → service_id service ≠ "") →
       rowsUnpriced (s_items (fold_left (editorStep p) events (freshForm tempId day time))))
  ∧ (∀ (LocalTZA now0 : Z) (p p0 : Props) (st0 : EditorState) (b0 : Bill)
       (events : list Event),
       (∀ service, service ∈ services p → service_id service ≠ "") →
       handleSubmit LocalTZA now0 p0 st0 = OnSave b0 →
       rowsUnpriced (s_items (fold_left (editorStep p) events (loadForm LocalTZA b0)))).
Proof.
  assert (Hgeneral :
    ∀ (LocalTZA now : Z) (p : Props) (st : EditorState) (b : Bill),
      handleSubmit LocalTZA now p st = OnSave b → rowsUnpriced (s_items st) →
      let subtotal := fold_right Z.add 0 (map price (items b)) in
      total b = Z.max 0 (subtotal - discountAmount b)
      ∧ discountAmount b = calculateDiscountAmount st
      ∧ (discountType b = amount → discountAmount b = discountValue b)
      ∧ (discountType b = percent →
         discountAmount b = roundPercent subtotal (discountValue b))
      ∧ (discountType b = amount → discountAmount b = specDiscountAmount b)
      ∧ (discountType b = percent →
         nearestInteger
           (PrimFloat.mul (toNumber subtotal)
              (PrimFloat.div (toNumber (discountValue b)) (toNumber 100)))
           (discountAmount b))).
  { intros LocalTZA now p st b Hsave Hrows subtotal.
    apply handleSubmit_OnSave in Hsave as (_ & _ & Hitems & Htotal & Hdv & Hdt & _).
    assert (Hsub : subtotal = calculateSubtotal st).
    { subst subtotal. rewrite Hitems, calculateSubtotal_sum. by apply sum_selected_rows. }
    assert (Hdisc : discountAmount b = calculateDiscountAmount st).
    { unfold discountAmount, calculateDiscountAmount. fold subtotal.
      rewrite Hsub, Hdv, Hdt. by destruct (s_discountType st). }
    split; [|split; [done|split; [|split; [|split]]]].
    + rewrite Htotal, Hdisc, Hsub. done.
    + intros E. unfold discountAmount. by rewrite E.
    + intros E. unfold discountAmount. fold subtotal. by rewrite E.
    + intros E. unfold discountAmount, specDiscountAmount. by rewrite E.
    + intros E. unfold discountAmount. fold subtotal. rewrite E.
      apply Math_round_nearestInteger. }
  split; [exact Hgeneral|]. split; [|split; [|split; [|split; [|split; [|split; [|split]]]]]].
  - intros LocalTZA now p events tempId day time b Hids Hsave.
    apply (Hgeneral _ _ _ _ _ Hsave).
    apply worked_form_rowsUnpriced; [done | apply freshForm_rowsUnpriced].
  - intros LocalTZA now now0 p p0 st0 b0 events b Hids Hsave0 Hsave.
    apply (Hgeneral _ _ _ _ _ Hsave).
    apply worked_form_rowsUnpriced; [done|].
    eapply loadForm_rowsUnpriced, saved_items_rowsUnpriced, Hsave0.
  - repeat split; try reflexivity.
    intros now. eexists. split; [reflexivity|]. split; reflexivity.
  - repeat split; try reflexivity.
    intros now. eexists. split; [reflexivity|]. repeat split; reflexivity.
  - exact nearestInteger_unique.
  - repeat split; try reflexivity.
    intros now. eexists. split; [reflexivity|]. repeat split; reflexivity.
  - intros p events tempId day time Hids.
    apply worked_form_rowsUnpriced; [done | apply freshForm_rowsUnpriced].
  - intros LocalTZA now0 p p0 st0 b0 events Hids Hsave0.
    apply worked_form_rowsUnpriced; [done|].
    eapply loadForm_rowsUnpriced, saved_items_rowsUnpriced, Hsave0.
Qed.

Lemma saved_total_witness :
  ∃ b : Bill,
    handleSubmit Samples.indochina 0 Samples.billProps Samples.twiceA_tenPercent = OnSave b
    ∧ total b = Z.max 0 (fold_right Z.add 0 (map price (items b)) - discountAmount b).
Proof.
  destruct saved_total_is_subtotal_minus_discount
    as (Hgeneral & _ & _ & _ & (_ & _ & _ & Hsaved) & _).
  destruct (Hsaved 0) as (b & Hb & _). exists b. split; [exact Hb|].
  destruct (Hgeneral Samples.indochina 0 Samples.billProps Samples.twiceA_tenPercent b Hb)
    as [Htotal _]; [|exact Htotal].
  apply worked_form_rowsUnpriced.
  - intros service Hs. apply list_elem_of_singleton in Hs as ->. discriminate.
  - apply worked_form_rowsUnpriced; [|apply freshForm_rowsUnpriced].
    intros service Hs. apply list_elem_of_singleton in Hs as ->. discriminate.
Defined.

(** The claim's formula fails on records the editor produces.  Service B
    at 50 with a discount of 29 percent is saved with total 36, while the
    larger of 0 and the subtotal minus round(50 * 29 / 100) is 35.  And the
    editor opened on a stored bill with a priced row that names no service,
    submitted untouched, takes the total over both rows and saves only the
    row with a service: total 150000 over items worth 100000, with no
    discount. *)
Lemma percent_discount_of_an_exact_half :
  (∃ b : Bill,
     handleSubmit Samples.indochina 0 MoreSamples.halfProps MoreSamples.onceB_29percent
     = OnSave b
     ∧ map price (items b) = [50] ∧ discountType b = percent ∧ discountValue b = 29
     ∧ specDiscountAmount b = 15
     ∧ total b = 36
     ∧ total b ≠ Z.max 0 (fold_right Z.add 0 (map price (items b)) - specDiscountAmount b))
  ∧ (∃ b : Bill,
       handleSubmit Samples.indochina 0 MoreSamples.oddProps
         (loadForm Samples.indochina MoreSamples.oddBill) = OnSave b
       ∧ map price (items b) = [100000] ∧ discountType b = amount ∧ discountValue b = 0
       ∧ specDiscountAmount b = 0
       ∧ total b = 150000
       ∧ total b
         ≠ Z.max 0 (fold_right Z.add 0 (map price (items b)) - specDiscountAmount b)).
Proof. split; eexists; (split; [reflexivity|]); repeat split; discriminate. Qed.

(** *** Validation *)

Lemma trimStart_empty s :
  trimStart s = "" ↔ Forall (fun c => isWhiteSpace c = true) (list_ascii_of_string s).
Proof.
  induction s as [|c s IH]; simpl.
  - split; [constructor | done].
  - destruct (isWhiteSpace c) eqn:E.
    + rewrite IH. split; [by constructor | by inversion 1].
    + split; [done|]. inversion 1; congruence.
Qed.

Lemma trimEnd_empty_head c s : isWhiteSpace c = false → trimEnd (String c s) ≠ "".
Proof. intros E. simpl. rewrite E. by destruct (trimEnd s). Qed.

Lemma trimStart_head s c s' : trimStart s = String c s' → isWhiteSpace c = false.
Proof.
  induction s as [|a s IH]; simpl; [done|].
  destruct (isWhiteSpace a) eqn:E; [done|]. intros [= -> _]. done.
Qed.

(** A name is blank for [trim] exactly when it is made of white space. *)
Lemma trim_empty s :
  trim s = "" ↔ Forall (fun c => isWhiteSpace c = true) (list_ascii_of_string s).
Proof.
  rewrite <- trimStart_empty. unfold trim. split.
  - destruct (trimStart s) as [|c s'] eqn:E; [done|].
    intros H. by apply trimEnd_empty_head in H; [|by eapply trimStart_head].
  - by intros ->.
Qed.

Lemma filter_nil_iff {A} (f : A → bool) l :
  List.filter f l = [] ↔ ∀ x, x ∈ l → f x = false.
Proof.
  induction l as [|a l IH]; simpl.
  - split; [by intros _ x ?%elem_of_nil | done].
  - destruct (f a) eqn:E.
    + split; [done|]. intros H. rewrite H in E; [done | set_solver].
    + rewrite IH. split.
      * intros H x [->|Hx]%elem_of_cons; [done | by apply H].
      * intros H x Hx. apply H. set_solver.
Qed.

(** The date and time the form combines.  In a zone at or east of UTC it
    is the entered day at the entered time, local time; in a zone west of
    UTC the UTC midnight of the entered day falls on the evening before, and
    the combination is one day early. *)
Lemma finalDate_local LocalTZA st :
  0 <= LocalTZA < msPerDay →
  LocalTime LocalTZA (finalDate LocalTZA st)
  = s_date st * msPerDay + MakeTime (fst (s_time st)) (snd (s_time st)) 0 0.
Proof.
  intros Hz. unfold finalDate, setHours, UTC, LocalTime, MakeDate, Day.
  replace (s_date st * msPerDay + LocalTZA) with (LocalTZA + s_date st * msPerDay) by lia.
  rewrite Z.div_add by (unfold msPerDay; lia).
  rewrite Z.div_small by lia. lia.
Qed.

Lemma finalDate_west_of_UTC LocalTZA st :
  - msPerDay <= LocalTZA < 0 →
  LocalTime LocalTZA (finalDate LocalTZA st)
  = (s_date st - 1) * msPerDay + MakeTime (fst (s_time st)) (snd (s_time st)) 0 0.
Proof.
  intros Hz. unfold finalDate, setHours, UTC, LocalTime, MakeDate, Day.
  replace (s_date st * msPerDay + LocalTZA)
    with (LocalTZA + msPerDay + (s_date st - 1) * msPerDay) by lia.
  rewrite Z.div_add by (unfold msPerDay; lia).
  rewrite Z.div_small by lia. lia.
Qed.

(** C9. The submit handler alerts and returns, without calling [onSave],
    exactly when the customer name is blank (empty or white space only), or
    no row has a service selected, or the form is a booking's and its
    combined date and time lie more than 60000 ms before now.  Otherwise it
    calls [onSave] with the combined date and time; so a booking at most 60
    seconds in the past goes through.  The combined date and time is the
    entered day at the entered time in a zone at or east of UTC. *)
Theorem handleSubmit_blocks_invalid_submissions
    (LocalTZA now : Z) (p : Props) (st : EditorState) :
  let blank := trim (s_customerName st) = "" in
  let unselected := ∀ item, item ∈ s_items st → serviceId item = "" in
  let late := now - finalDate LocalTZA st in
  ((blank ∨ unselected ∨ (isBooking p = true ∧ late > 60000))
   ↔ ∃ msg opened, handleSubmit LocalTZA now p st = Blocked msg opened)
  ∧ (¬ (blank ∨ unselected ∨ (isBooking p = true ∧ late > 60000))
     ↔ ∃ b, handleSubmit LocalTZA now p st = OnSave b)
  ∧ (blank → handleSubmit LocalTZA now p st = Blocked MissingCustomerName true)
  ∧ (¬ blank → unselected → handleSubmit LocalTZA now p st = Blocked NoValidService false)
  ∧ (¬ blank → ¬ unselected → isBooking p = true → late <= 60000 →
     ∃ b, handleSubmit LocalTZA now p st = OnSave b ∧ date b = finalDate LocalTZA st)
  ∧ (blank ↔ Forall (fun c => isWhiteSpace c = true)
               (list_ascii_of_string (s_customerName st)))
  ∧ (0 <= LocalTZA < msPerDay →
     LocalTime LocalTZA (finalDate LocalTZA st)
     = s_date st * msPerDay + MakeTime (fst (s_time st)) (snd (s_time st)) 0 0).
Proof.
  intros blank unselected late.
  pose proof (finalDate_local LocalTZA st) as Hlocal.
  assert (Hblank : negb (truthy (trim (s_customerName st))) = true ↔ blank).
  { rewrite negb_true_iff. apply truthy_false. }
  assert (Hunsel : (length (List.filter (fun item => truthy (serviceId item)) (s_items st))
                      =? 0)%nat = true ↔ unselected).
  { rewrite Nat.eqb_eq, length_zero_iff_nil, filter_nil_iff. subst unselected.
    split; intros H item Hitem; apply truthy_false; by apply H. }
  assert (Hlate : isBooking p && (finalDate LocalTZA st <? now)
                    && (now - finalDate LocalTZA st >? 60000) = true
                  ↔ isBooking p = true ∧ late > 60000).
  { rewrite !andb_true_iff, Z.ltb_lt, Z.gtb_lt. subst late. intuition lia. }
  unfold handleSubmit.
  destruct (negb (truthy (trim (s_customerName st)))) eqn:E1.
  { assert blank by by apply Hblank.
    repeat split; try done; try (by apply trim_empty); try (by intros ?%trim_empty);
      eauto; try tauto.
    - by intros [b ?]. }
  assert (¬ blank) by (rewrite <- Hblank; congruence).
  destruct (length _ =? 0)%nat eqn:E2.
  { assert unselected by by apply Hunsel.
    repeat split; try done; try (by apply trim_empty); try (by intros ?%trim_empty);
      eauto; try tauto.
    - by intros [b ?]. }
  assert (¬ unselected) by (rewrite <- Hunsel; congruence).
  destruct (isBooking p && _ && _) eqn:E3.
  { assert (isBooking p = true ∧ late > 60000) as [? ?] by by apply Hlate.
    repeat split; try done; try (by apply trim_empty); try (by intros ?%trim_empty);
      eauto; try tauto; try lia.
    - by intros [b ?]. }
  assert (¬ (isBooking p = true ∧ late > 60000)) by (rewrite <- Hlate; congruence).
  repeat split; try done; try (by apply trim_empty); try (by intros ?%trim_empty);
    eauto; try tauto.
  - by intros (? & ? & ?).
Qed.


(** A booking one minute in the past is saved, one a millisecond older is
    refused. *)
Example booking_sixty_seconds_late_is_saved :
  ∃ b, handleSubmit Samples.indochina (Samples.appointment + 60000)
         Samples.bookingProps Samples.twiceA = OnSave b
       ∧ date b = Samples.appointment.
Proof. eexists. split; reflexivity. Qed.

Example booking_later_than_sixty_seconds_is_blocked :
  handleSubmit Samples.indochina (Samples.appointment + 60001)
    Samples.bookingProps Samples.twiceA = Blocked BookingInThePast false.
Proof. reflexivity. Qed.

Lemma handleSubmit_blocks_witness :
  handleSubmit Samples.indochina (Samples.appointment + 60001) Samples.bookingProps
    (setCustomerName "   " Samples.twiceA) = Blocked MissingCustomerName true.
Proof.
  destruct (handleSubmit_blocks_invalid_submissions Samples.indochina
              (Samples.appointment + 60001) Samples.bookingProps
              (setCustomerName "   " Samples.twiceA)) as (_ & _ & Hblank & _).
  apply Hblank. reflexivity.
Defined.

Example blank_name_is_blocked :
  handleSubmit Samples.indochina 0 Samples.bookingProps
    (setCustomerName "  " Samples.twiceA) = Blocked MissingCustomerName true.
Proof. reflexivity. Qed.

End BillEditorFacts.

(** ** Bills made from bookings *)

Module ConversionFacts.
Import Collections Notifier BillEditor.

(** C10. The bill made from a booking, by the popup's confirm or by the
    list's convert, carries the booking's [createdAt], with its items,
    total, discount fields and note; only the id is new and the date is the
    current time.  A booking has a [createdAt] from [addBooking].  A bill
    saved from the bill editor, and the record [onSaveItem] adds for it,
    have none. *)
Theorem converted_bill_keeps_createdAt :
  (∀ (now : Z) (newId : string) (st : AppState) (cur : Booking) (rest : list Booking),
     dueBookingQueue st = cur :: rest →
     ∃ newBill : Bill,
       bills (confirmDueBooking now newId st) = newBill :: bills st
       ∧ createdAt newBill = createdAt cur
       ∧ items newBill = items cur ∧ total newBill = total cur
       ∧ discountValue newBill = discountValue cur
       ∧ discountType newBill = discountType cur ∧ note newBill = note cur
       ∧ customerName newBill = customerName cur
       ∧ id newBill = newId ∧ date newBill = now)
  ∧ (∀ (booking : Booking) (now : Z) (newId : string) (st : AppState),
       ∃ newBill : Bill,
         bills (handleConvertToBill booking true now newId st) = newBill :: bills st
         ∧ createdAt newBill = createdAt booking
         ∧ items newBill = items booking ∧ total newBill = total booking
         ∧ discountValue newBill = discountValue booking
         ∧ discountType newBill = discountType booking ∧ note newBill = note booking
         ∧ customerName newBill = customerName booking
         ∧ id newBill = newId ∧ date newBill = now)
  ∧ (∀ (newId : string) (now : Z) (data : BillData) (prev : list Booking),
       ∃ booking : Booking,
         addBooking newId now data prev = booking :: prev
         ∧ createdAt booking = Some now)
  ∧ (∀ (LocalTZA now : Z) (p : Props) (st : EditorState) (b : Bill),
       isBooking p = false → handleSubmit LocalTZA now p st = OnSave b →
       createdAt b = None
       ∧ ∀ newId t cols, ∃ newBill : Bill,
           fst (onSaveItem None None createBill newId t b cols) = newBill :: fst cols
           ∧ createdAt newBill = None).
Proof.
  split; [|split; [|split]].
  - intros now newId st cur rest Hq. exists (mkBill newId (with_date now cur)).
    unfold confirmDueBooking, currentDueBooking. rewrite Hq. simpl. done.
  - intros booking now newId st. exists (mkBill newId (with_date now booking)). done.
  - intros newId now data prev. eexists. split; reflexivity.
  - intros LocalTZA now p st b Hp Hsave.
    apply BillEditorFacts.handleSubmit_OnSave in Hsave as (_ & _ & _ & _ & _ & _ & _ & Hc).
    rewrite Hp in Hc. split; [done|].
    intros newId t cols. eexists. split; [reflexivity|]. done.
Qed.

Lemma converted_bill_witness :
  ∃ newBill : Bill,
    bills (confirmDueBooking Samples.noon "bill-1" Samples.popup) = [newBill]
    ∧ createdAt newBill = Some 0.
Proof.
  destruct converted_bill_keeps_createdAt as [Hpopup _].
  destruct (Hpopup Samples.noon "bill-1" Samples.popup
              (Samples.booking "b1" (Samples.noon - 23 * Samples.hour)) [] eq_refl)
    as (newBill & Hbills & Hcreated & _).
  exists newBill. split; [exact Hbills | exact Hcreated].
Defined.

End ConversionFacts.

(** ** The week window *)

Module DateFacts.
Import JSDate DateUtils Dashboard.

Lemma MonthFromTime_range t : 0 <= MonthFromTime t <= 11.
Proof.
  unfold MonthFromTime.
  repeat match goal with |- context [if ?c then _ else _] => destruct c end; lia.
Qed.

(** [MakeDay] undoes the decomposition into year, month and day of month,
    and moves by whole days when the day of month is moved. *)
Lemma MakeDay_DateFromTime t k :
  MakeDay (YearFromTime t) (MonthFromTime t) (DateFromTime t + k) = Day t + k.
Proof.
  pose proof (MonthFromTime_range t) as Hm.
  unfold MakeDay. rewrite (Z.div_small (MonthFromTime t) 12) by lia.
  rewrite (Z.mod_small (MonthFromTime t) 12) by lia. rewrite Z.add_0_r.
  unfold DateFromTime, DayWithinYear, InLeapYear. lia.
Qed.

Lemma MakeDate_split t : MakeDate (Day t) (TimeWithinDay t) = t.
Proof.
  unfold MakeDate, Day, TimeWithinDay, msPerDay.
  pose proof (Z.div_mod t 86400000 ltac:(lia)). lia.
Qed.

(** [d.setDate(d.getDate() + k)] moves [d] by [k] days. *)
Lemma setDate_getDate LocalTZA d k :
  setDate LocalTZA d (getDate LocalTZA d + k) = d + k * msPerDay.
Proof.
  unfold setDate, getDate. rewrite MakeDay_DateFromTime.
  pose proof (MakeDate_split (LocalTime LocalTZA d)) as Hs.
  unfold MakeDate, UTC, LocalTime in *. lia.
Qed.

(** [d.setHours(0, 0, 0, 0)] is the local midnight of [d]'s local day. *)
Lemma setHours_midnight LocalTZA d :
  setHours LocalTZA d 0 0 0 0 = Day (LocalTime LocalTZA d) * msPerDay - LocalTZA.
Proof. unfold setHours, MakeDate, MakeTime, UTC. lia. Qed.

Lemma currentDay_range LocalTZA today :
  1 <= currentDay LocalTZA today <= 7
  ∧ (Day (LocalTime LocalTZA today) + 4 - currentDay LocalTZA today) mod 7 = 0.
Proof.
  unfold currentDay, getDay, WeekDay.
  set (D := Day (LocalTime LocalTZA today)).
  pose proof (Z.mod_pos_bound (D + 4) 7 ltac:(lia)) as Hb.
  pose proof (Z.div_mod (D + 4) 7 ltac:(lia)) as Hdm.
  destruct ((D + 4) mod 7 =? 0) eqn:E.
  - apply Z.eqb_eq in E. split; [lia|].
    replace (D + 4 - 7) with (0 + ((D + 4) / 7 - 1) * 7) by lia.
    by rewrite Z.mod_add.
  - apply Z.eqb_neq in E. split; [lia|].
    replace (D + 4 - (D + 4) mod 7) with (0 + ((D + 4) / 7) * 7) by lia.
    by rewrite Z.mod_add.
Qed.

(** The start of the week in closed form: the local midnight that opens the
    day [currentDay - 1] days before today's. *)
Lemma startOfWeek_eq LocalTZA today :
  startOfWeek LocalTZA today
  = (Day (LocalTime LocalTZA today) + 1 - currentDay LocalTZA today) * msPerDay - LocalTZA.
Proof.
  unfold startOfWeek.
  replace (getDate LocalTZA today - currentDay LocalTZA today + 1)
    with (getDate LocalTZA today + (1 - currentDay LocalTZA today)) by lia.
  rewrite setDate_getDate, setHours_midnight. f_equal. f_equal.
  unfold LocalTime, Day.
  replace (today + (1 - currentDay LocalTZA today) * msPerDay + LocalTZA)
    with (today + LocalTZA + (1 - currentDay LocalTZA today) * msPerDay) by lia.
  rewrite Z.div_add by (unfold msPerDay; lia). lia.
Qed.

Lemma endOfWeek_eq LocalTZA today :
  endOfWeek LocalTZA today = startOfWeek LocalTZA today + 7 * msPerDay.
Proof. unfold endOfWeek. by rewrite setDate_getDate. Qed.

Lemma Day_of_midnight n LocalTZA :
  Day (LocalTime LocalTZA (n * msPerDay - LocalTZA)) = n
  ∧ TimeWithinDay (LocalTime LocalTZA (n * msPerDay - LocalTZA)) = 0.
Proof.
  unfold Day, TimeWithinDay, LocalTime.
  replace (n * msPerDay - LocalTZA + LocalTZA) with (n * msPerDay) by lia.
  unfold msPerDay. split; [by apply Z.div_mul | by apply Z.mod_mul].
Qed.

Lemma sum_totals_fold_left (l : list Bill) (a : Z) :
  fold_left (fun sum (bill : Bill) => sum + total bill) l a
  = a + fold_right Z.add 0 (map (fun bill : Bill => total bill) l).
Proof.
  revert a. induction l as [|x l IH]; intros a; simpl; [lia|]. rewrite IH. lia.
Qed.

(** C6. The window [isWithinThisWeek] tests against: its start is a local
    Monday at 00:00:00.000, today lies in the window, its end is the start
    plus seven days, again a local Monday midnight, and the start is the
    only local Monday midnight with today in the seven days from it.  A
    date is within the week exactly when start <= date < end; this week's
    revenue is the sum of the totals of the bills so dated; the start itself
    is inside, the end is not. *)
Theorem this_week_is_monday_inclusive_to_next_monday_exclusive (LocalTZA today : Z) :
  let start := startOfWeek LocalTZA today in
  let stop := endOfWeek LocalTZA today in
  (getDay LocalTZA start = 1 ∧ TimeWithinDay (LocalTime LocalTZA start) = 0)
  ∧ start <= today < stop
  ∧ stop = start + 7 * msPerDay
  ∧ (getDay LocalTZA stop = 1 ∧ TimeWithinDay (LocalTime LocalTZA stop) = 0)
  ∧ (∀ monday, getDay LocalTZA monday = 1 →
               TimeWithinDay (LocalTime LocalTZA monday) = 0 →
               monday <= today < monday + 7 * msPerDay → monday = start)
  ∧ (∀ date, isWithinThisWeek LocalTZA today date = true ↔ start <= date < stop)
  ∧ (∀ bills : list Bill,
       revenueThisWeek LocalTZA today bills
       = fold_right Z.add 0
           (map (fun bill : Bill => total bill)
              (List.filter (fun bill : Bill => bool_decide (start <= date bill < stop)) bills)))
  ∧ isWithinThisWeek LocalTZA today start = true
  ∧ isWithinThisWeek LocalTZA today stop = false.
Proof.
  intros start stop.
  pose proof (startOfWeek_eq LocalTZA today) as Hstart. fold start in Hstart.
  pose proof (endOfWeek_eq LocalTZA today) as Hstop. fold start stop in Hstop.
  destruct (currentDay_range LocalTZA today) as [Hcd Hmod].
  set (D := Day (LocalTime LocalTZA today)) in *.
  set (cd := currentDay LocalTZA today) in *.
  destruct (Day_of_midnight (D + 1 - cd) LocalTZA) as [HdayS HtimeS].
  destruct (Day_of_midnight (D + 8 - cd) LocalTZA) as [HdayE HtimeE].
  assert (HstopE : stop = (D + 8 - cd) * msPerDay - LocalTZA) by lia.
  assert (Htoday : D * msPerDay <= today + LocalTZA < (D + 1) * msPerDay).
  { subst D. unfold Day, LocalTime, msPerDay.
    pose proof (Z.div_mod (today + LocalTZA) 86400000 ltac:(lia)).
    pose proof (Z.mod_pos_bound (today + LocalTZA) 86400000 ltac:(lia)). lia. }
  assert (Hin : start <= today < stop) by (unfold msPerDay in *; lia).
  assert (Hwithin : ∀ date, isWithinThisWeek LocalTZA today date = true
                            ↔ start <= date < stop).
  { intros date. unfold isWithinThisWeek. fold start stop.
    rewrite andb_true_iff, Z.leb_le, Z.ltb_lt. done. }
  assert (Hmonday : ∀ n, (n + 3) mod 7 = 0 → (n + 4) mod 7 = 1).
  { intros n Hn. pose proof (Z.div_mod (n + 3) 7 ltac:(lia)).
    replace (n + 4) with (1 + ((n + 3) / 7) * 7) by lia. by rewrite Z.mod_add. }
  split.
  { rewrite Hstart. unfold getDay, WeekDay. rewrite HdayS, HtimeS. split; [|done].
    apply Hmonday. by replace (D + 1 - cd + 3) with (D + 4 - cd) by lia. }
  split; [exact Hin|]. split; [exact Hstop|]. split.
  { rewrite HstopE. unfold getDay, WeekDay. rewrite HdayE, HtimeE. split; [|done].
    replace (D + 8 - cd + 4) with (D + 1 - cd + 4 + 1 * 7) by lia. rewrite Z.mod_add by lia.
    apply Hmonday. by replace (D + 1 - cd + 3) with (D + 4 - cd) by lia. }
  split.
  { intros monday Hwd Hmid Hrange. unfold getDay, WeekDay in Hwd.
    unfold TimeWithinDay, Day, LocalTime in *.
    set (M := (monday + LocalTZA) / msPerDay) in *.
    assert (HM : monday + LocalTZA = M * msPerDay).
    { subst M. unfold msPerDay in *.
      pose proof (Z.div_mod (monday + LocalTZA) 86400000 ltac:(lia)). lia. }
    assert (HMD : D - 6 <= M <= D) by (unfold msPerDay in *; lia).
    (* both M + 4 and D + 1 - cd + 4 leave remainder 1, and they are less than 7 apart *)
    assert (Hk : (M + 3) mod 7 = 0).
    { pose proof (Z.div_mod (M + 4) 7 ltac:(lia)).
      replace (M + 3) with (0 + ((M + 4) / 7) * 7) by lia. by rewrite Z.mod_add. }
    pose proof (Z.div_mod (M + 3) 7 ltac:(lia)).
    pose proof (Z.div_mod (D + 4 - cd) 7 ltac:(lia)).
    assert (M = D + 1 - cd) by lia.
    unfold msPerDay in *. lia. }
  split; [exact Hwithin|]. split.
  { intros bills. unfold revenueThisWeek. rewrite sum_totals_fold_left, Z.add_0_l.
    f_equal. f_equal. apply filter_ext. intros bill.
    unfold isWithinThisWeek. fold start stop.
    apply eq_true_iff_eq. rewrite andb_true_iff, Z.leb_le, Z.ltb_lt, bool_decide_eq_true.
    done. }
  split.
  - apply Hwithin. unfold msPerDay in *. lia.
  - apply not_true_is_false. rewrite Hwithin. lia.
Qed.

Lemma this_week_witness :
  startOfWeek Samples.indochina Samples.appointment
  = 18995 * msPerDay - Samples.indochina.
Proof.
  destruct (this_week_is_monday_inclusive_to_next_monday_exclusive
              Samples.indochina Samples.appointment) as (_ & _ & _ & _ & Hunique & _).
  symmetry. apply Hunique; [reflexivity | reflexivity |].
  split; [discriminate | reflexivity].
Defined.

(** Saturday 8 January 2022, 10:30 in the zone UTC+7: the week runs from
    Monday 3 January 00:00 to Monday 10 January 00:00, local time. *)
Example week_of_sample_appointment :
  YearFromTime (LocalTime Samples.indochina Samples.appointment) = 2022
  ∧ MonthFromTime (LocalTime Samples.indochina Samples.appointment) = 0
  ∧ getDate Samples.indochina Samples.appointment = 8
  ∧ getDay Samples.indochina Samples.appointment = 6
  ∧ startOfWeek Samples.indochina Samples.appointment
    = 18995 * msPerDay - Samples.indochina
  ∧ getDate Samples.indochina (startOfWeek Samples.indochina Samples.appointment) = 3
  ∧ endOfWeek Samples.indochina Samples.appointment
    = 19002 * msPerDay - Samples.indochina
  ∧ getDate Samples.indochina (endOfWeek Samples.indochina Samples.appointment) = 10.
Proof. vm_compute. repeat split. Qed.

(** A week that begins in the previous month: Wednesday 2 February 2022
    belongs to the week of Monday 31 January. *)
Example week_across_month_boundary :
  let today := 19025 * msPerDay + 12 * msPerHour in
  getDate 0 today = 2 ∧ MonthFromTime today = 1 ∧ getDay 0 today = 3
  ∧ startOfWeek 0 today = 19023 * msPerDay
  ∧ getDate 0 (startOfWeek 0 today) = 31 ∧ MonthFromTime (startOfWeek 0 today) = 0.
Proof. vm_compute. repeat split. Qed.

End DateFacts.

(** ** Per-customer statistics *)

Module CustomerListFacts.
Import JS CustomerList.

(** *** The stable sort *)

Section Sorting.
Context {A : Type} (compare : A → A → Z).

(** The comparator orders any two elements, and transitively. *)
Hypothesis compare_total : ∀ x y, compare x y > 0 → compare y x <= 0.
Hypothesis compare_trans :
  ∀ x y z, compare x y <= 0 → compare y z <= 0 → compare x z <= 0.

Lemma sort_insert_perm x l : sort_insert compare x l ≡ₚ x :: l.
Proof.
  induction l as [|y l IH]; simpl; [done|].
  destruct (compare x y <=? 0); [done|]. rewrite IH. apply perm_swap.
Qed.

Lemma Array_sort_perm l : Array_sort compare l ≡ₚ l.
Proof.
  induction l as [|x l IH]; simpl; [done|].
  rewrite sort_insert_perm. by rewrite IH.
Qed.

Lemma sort_insert_sorted x l :
  StronglySorted (fun a b => compare a b <= 0) l →
  StronglySorted (fun a b => compare a b <= 0) (sort_insert compare x l).
Proof using compare_total compare_trans.
  induction 1 as [|y l Hl IH Hy]; simpl.
  - constructor; constructor.
  - destruct (compare x y <=? 0) eqn:E.
    + apply Z.leb_le in E. constructor; [by constructor|].
      constructor; [done|]. eapply Forall_impl; [exact Hy|].
      intros z Hz. by eapply compare_trans.
    + apply Z.leb_gt in E. constructor; [done|].
      rewrite sort_insert_perm. constructor; [|done].
      apply compare_total. lia.
Qed.

Lemma Array_sort_sorted l :
  StronglySorted (fun a b => compare a b <= 0) (Array_sort compare l).
Proof using compare_total compare_trans.
  induction l as [|x l IH]; simpl; [constructor|]. by apply sort_insert_sorted.
Qed.

(** Sorting a sorted array leaves it as it is. *)
Lemma Array_sort_of_sorted l :
  StronglySorted (fun a b => compare a b <= 0) l → Array_sort compare l = l.
Proof.
  induction 1 as [|x l Hl IH Hx]; simpl; [done|]. rewrite IH.
  destruct Hx as [|y l Hxy _]; simpl; [done|].
  apply Z.leb_le in Hxy. by rewrite Hxy.
Qed.

Lemma Array_sort_idem l :
  Array_sort compare (Array_sort compare l) = Array_sort compare l.
Proof using compare_total compare_trans.
  apply Array_sort_of_sorted, Array_sort_sorted.
Qed.

End Sorting.

Lemma newestFirst_total x y : newestFirst x y > 0 → newestFirst y x <= 0.
Proof. unfold newestFirst. lia. Qed.

Lemma newestFirst_trans x y z :
  newestFirst x y <= 0 → newestFirst y z <= 0 → newestFirst x z <= 0.
Proof. unfold newestFirst. lia. Qed.

Lemma bySpentDesc_total x y : bySpentDesc x y > 0 → bySpentDesc y x <= 0.
Proof. unfold bySpentDesc. lia. Qed.

Lemma bySpentDesc_trans x y z :
  bySpentDesc x y <= 0 → bySpentDesc y z <= 0 → bySpentDesc x z <= 0.
Proof. unfold bySpentDesc. lia. Qed.

Lemma StronglySorted_iff {A} (R R' : A → A → Prop) l :
  (∀ x y, R x y → R' x y) → StronglySorted R l → StronglySorted R' l.
Proof.
  intros HR. induction 1 as [|x l Hl IH Hx]; constructor; [done|].
  eapply Forall_impl; [exact Hx | auto].
Qed.

Lemma sortedVisits_sorted key bills : newestFirstSorted (sortedVisits key bills).
Proof.
  unfold newestFirstSorted, sortedVisits.
  eapply StronglySorted_iff;
    [|apply (Array_sort_sorted newestFirst newestFirst_total newestFirst_trans)].
  unfold newestFirst. simpl. intros; lia.
Qed.

(** *** The insertion-ordered map *)

Lemma Map_get_None {V} k (m : list (string * V)) :
  Map_get k m = None ↔ k ∉ map fst m.
Proof.
  unfold Map_get. induction m as [|[k' v'] m IH]; simpl.
  - split; [by intros _ ?%elem_of_nil | done].
  - destruct (String.eqb_spec k' k) as [->|Hne]; simpl.
    + split; [done|]. intros H. destruct H. apply list_elem_of_here.
    + rewrite IH. split.
      * intros H [?|?]%elem_of_cons; [congruence | done].
      * intros H Hin. apply H. by apply list_elem_of_further.
Qed.

Lemma Map_get_set_eq {V} k (v : V) m : Map_get k (Map_set k v m) = Some v.
Proof.
  unfold Map_get. induction m as [|[k' v'] m IH]; simpl.
  - by rewrite String.eqb_refl.
  - destruct (String.eqb_spec k' k) as [->|Hne]; simpl.
    + by rewrite String.eqb_refl.
    + apply String.eqb_neq in Hne. by rewrite Hne.
Qed.

Lemma Map_get_set_ne {V} k k' (v : V) m :
  k ≠ k' → Map_get k' (Map_set k v m) = Map_get k' m.
Proof.
  intros Hne. unfold Map_get. induction m as [|[k0 v0] m IH]; simpl.
  - apply String.eqb_neq in Hne. by rewrite Hne.
  - destruct (String.eqb_spec k0 k) as [->|Hne0]; simpl.
    + apply String.eqb_neq in Hne. by rewrite Hne.
    + destruct (String.eqb k0 k'); [done | exact IH].
Qed.

Lemma Map_set_keys {V} k (v : V) m :
  map fst (Map_set k v m) = if bool_decide (k ∈ map fst m) then map fst m
                            else map fst m ++ [k].
Proof.
  induction m as [|[k' v'] m IH].
  - cbn. case_bool_decide as H; [by apply elem_of_nil in H | done].
  - simpl. destruct (String.eqb_spec k' k) as [->|Hne]; simpl.
    + clear IH. case_bool_decide as H; [done|]. destruct H. apply list_elem_of_here.
    + rewrite IH. case_bool_decide as H; case_bool_decide as H'; try done.
      * destruct H'. by apply list_elem_of_further.
      * apply elem_of_cons in H' as [?|?]; [congruence | done].
Qed.

Lemma Map_set_keys_NoDup {V} k (v : V) m :
  NoDup (map fst m) → NoDup (map fst (Map_set k v m)).
Proof.
  intros Hnd. rewrite Map_set_keys. destruct (bool_decide (k ∈ map fst m)) eqn:E; [done|].
  apply bool_decide_eq_false in E. apply NoDup_app. split; [done|]. split.
  - intros x Hx ->%list_elem_of_singleton. done.
  - apply NoDup_singleton.
Qed.

(** *** The aggregation of the bills *)

Lemma billsOf_snoc key l (b : Bill) :
  billsOf key (l ++ [b])
  = billsOf key l
    ++ (if truthy (trim (customerName b)) && String.eqb (normalized (customerName b)) key
        then [b] else []).
Proof. unfold billsOf. rewrite List.filter_app. simpl. by destruct (_ && _). Qed.

Lemma sum_app (l k : list Z) :
  fold_right Z.add 0 (l ++ k) = fold_right Z.add 0 l + fold_right Z.add 0 k.
Proof. induction l as [|x l IH]; simpl; lia. Qed.

Lemma aggregateBills_snoc l (b : Bill) :
  aggregateBills (l ++ [b])
  = let name := trim (customerName b) in
    if negb (truthy name) then aggregateBills l
    else
      let existingStat := default (0, []) (Map_get (toLowerCase name) (aggregateBills l)) in
      Map_set (toLowerCase name)
        (fst existingStat + total b, snd existingStat ++ [mkVisit (date b) (total b)])
        (aggregateBills l).
Proof. unfold aggregateBills. by rewrite fold_left_app. Qed.

(** An entry of the map holds the sum and the visits, in bill order, of the
    bills of its key; keys without a bill have no entry. *)
Lemma aggregateBills_get bills key :
  match Map_get key (aggregateBills bills) with
  | None => billsOf key bills = []
  | Some s =>
      billsOf key bills ≠ [] ∧ fst s = spentOf key bills ∧ snd s = visitsOf key bills
  end.
Proof.
  induction bills as [|b l IH] using rev_ind; [done|].
  rewrite aggregateBills_snoc. unfold spentOf, visitsOf in *. rewrite billsOf_snoc.
  cbv zeta. destruct (truthy (trim (customerName b))) eqn:Enb; simpl.
  2: { rewrite app_nil_r. exact IH. }
  fold (normalized (customerName b)).
  destruct (String.eqb_spec (normalized (customerName b)) key) as [<-|Hne].
  - rewrite Map_get_set_eq. simpl. rewrite !map_app, sum_app. simpl.
    split; [by destruct (billsOf _ l)|].
    destruct (Map_get (normalized (customerName b)) (aggregateBills l)) as [s|]; simpl.
    + destruct IH as (_ & -> & ->). split; [lia | done].
    + rewrite IH. simpl. split; [lia | done].
  - rewrite Map_get_set_ne by done. rewrite app_nil_r. exact IH.
Qed.

Lemma aggregateBills_keys_NoDup bills : NoDup (map fst (aggregateBills bills)).
Proof.
  induction bills as [|b l IH] using rev_ind; [constructor|].
  rewrite aggregateBills_snoc. cbv zeta.
  destruct (negb _); [done | by apply Map_set_keys_NoDup].
Qed.

Lemma billsOf_nonempty key bills :
  billsOf key bills ≠ []
  ↔ ∃ b : Bill, b ∈ bills ∧ trim (customerName b) ≠ ""
                ∧ normalized (customerName b) = key.
Proof.
  unfold billsOf. split.
  - destruct (List.filter _ bills) as [|b l] eqn:E; [done|]. intros _.
    assert (Hb : In b (List.filter
              (fun b : Bill => truthy (trim (customerName b))
                               && String.eqb (normalized (customerName b)) key) bills))
      by (rewrite E; by left).
    apply filter_In in Hb as [Hb Hm]. apply andb_true_iff in Hm as [Hn Hk].
    exists b. split; [by apply list_elem_of_In|]. split.
    + by apply BillEditorFacts.truthy_true.
    + by apply String.eqb_eq.
  - intros (b & Hb & Hn & Hk) E.
    assert (Hin : In b (List.filter
              (fun b : Bill => truthy (trim (customerName b))
                               && String.eqb (normalized (customerName b)) key) bills)).
    { apply filter_In. split; [by apply list_elem_of_In|].
      apply andb_true_iff. split; [by apply BillEditorFacts.truthy_true|].
      by apply String.eqb_eq. }
    by rewrite E in Hin.
Qed.

Lemma billKeys_elem key bills :
  key ∈ billKeys bills
  ↔ ∃ b : Bill, b ∈ bills ∧ trim (customerName b) ≠ ""
                ∧ normalized (customerName b) = key.
Proof.
  unfold billKeys. rewrite elem_of_remove_dups, list_elem_of_fmap. split.
  - intros (b & -> & Hb). apply list_elem_of_In, filter_In in Hb as [Hb Hn].
    exists b. split; [by apply list_elem_of_In|]. split; [|done].
    by apply BillEditorFacts.truthy_true.
  - intros (b & Hb & Hn & <-). exists b. split; [done|].
    apply list_elem_of_In, filter_In. split; [by apply list_elem_of_In|].
    by apply BillEditorFacts.truthy_true.
Qed.

(** The keys of the map are the normalised names of the bills. *)
Lemma aggregateBills_keys bills : map fst (aggregateBills bills) ≡ₚ billKeys bills.
Proof.
  apply NoDup_Permutation.
  - apply aggregateBills_keys_NoDup.
  - apply NoDup_remove_dups.
  - intros key. rewrite billKeys_elem, <- billsOf_nonempty.
    pose proof (aggregateBills_get bills key) as Hget.
    pose proof (Map_get_None key (aggregateBills bills)) as Hnone.
    destruct (Map_get key (aggregateBills bills)) as [s|].
    + destruct Hget as [Hne _]. split; [done|]. intros _.
      destruct (decide (key ∈ map fst (aggregateBills bills))) as [|Hn]; [done|].
      apply Hnone in Hn. done.
    + split; [|done]. intros Hin. destruct Hnone as [Hnone _]. by destruct Hnone.
Qed.

Lemma aggregateBills_tracks bills : tracks bills (aggregateBills bills).
Proof.
  intros key. pose proof (aggregateBills_get bills key) as Hget.
  destruct (Map_get key (aggregateBills bills)) as [s|]; [|done].
  destruct Hget as (? & ? & ->). done.
Qed.


(** *** The loop over the manual customers *)

Lemma filter_all {A} (l : list A) : List.filter (fun _ => true) l = l.
Proof. induction l as [|x l IH]; simpl; [done | by rewrite IH]. Qed.

Lemma filter_filter {A} (f g : A → bool) l :
  List.filter f (List.filter g l) = List.filter (fun x => g x && f x) l.
Proof.
  induction l as [|x l IH]; simpl; [done|].
  destruct (g x); simpl; [destruct (f x)|]; by rewrite IH.
Qed.

Lemma spentOf_none key bills : billsOf key bills = [] → spentOf key bills = 0.
Proof. unfold spentOf. by intros ->. Qed.

Lemma sortedVisits_none key bills : billsOf key bills = [] → sortedVisits key bills = [].
Proof. unfold sortedVisits, visitsOf. by intros ->. Qed.

Lemma mergeCustomer_step bills m names merged cust :
  tracks bills m →
  ∃ m',
    mergeCustomer (m, names, merged) cust
    = (m',
       List.filter (fun n => negb (String.eqb n (normalized (customer_name cust)))) names,
       merged ++ [manualStat bills cust])
    ∧ tracks bills m' ∧ map fst m' = map fst m.
Proof.
  intros Ht. unfold mergeCustomer, manualStat. cbv zeta.
  fold (normalized (customer_name cust)). set (key := normalized (customer_name cust)).
  pose proof (Ht key) as Hkey.
  destruct (Map_get key m) as [s|] eqn:E.
  - destruct Hkey as (Hne & Hspent & Hvisits).
    exists (Map_set key (fst s, Array_sort newestFirst (snd s)) m).
    split; [by rewrite Hspent, Hvisits|]. split.
    + intros key'. destruct (decide (key = key')) as [<-|Hk].
      * rewrite Map_get_set_eq. simpl. split; [done|]. split; [done|].
        rewrite <- Hvisits.
        apply (Array_sort_idem newestFirst newestFirst_total newestFirst_trans).
      * rewrite Map_get_set_ne by done. apply Ht.
    + rewrite Map_set_keys. rewrite bool_decide_eq_true_2; [done|].
      destruct (decide (key ∈ map fst m)) as [|Hn]; [done|].
      apply Map_get_None in Hn. congruence.
  - exists m. split; [|done].
    by rewrite (spentOf_none _ _ Hkey), (sortedVisits_none _ _ Hkey).
Qed.

Lemma mergeCustomers_fold bills customers :
  ∀ m names merged,
    tracks bills m →
    ∃ m',
      fold_left mergeCustomer customers (m, names, merged)
      = (m',
         List.filter (fun key => negb (isCustomerKey customers key)) names,
         merged ++ map (manualStat bills) customers)
      ∧ tracks bills m' ∧ map fst m' = map fst m.
Proof.
  induction customers as [|cust customers IH]; intros m names merged Ht; cbn [fold_left].
  - exists m. simpl. by rewrite filter_all, app_nil_r.
  - destruct (mergeCustomer_step bills m names merged cust Ht) as (m1 & -> & Ht1 & Hk1).
    destruct (IH m1
                (List.filter (fun n => negb (String.eqb n (normalized (customer_name cust))))
                   names)
                (merged ++ [manualStat bills cust]) Ht1) as (m' & -> & Ht' & Hk').
    exists m'. split; [|split; [done | congruence]].
    rewrite filter_filter, <- app_assoc. simpl. f_equal. f_equal.
    apply filter_ext. intros key. by rewrite negb_orb.
Qed.

(** *** The customers known from bills only *)

Lemma billOnlyStats_fold bills m names :
  tracks bills m → (∀ n, n ∈ names → n ∈ map fst m) →
  ∀ merged,
    fold_left (billOnlyStat bills m) names merged = merged ++ map (billOnly bills) names.
Proof.
  intros Ht. induction names as [|n names IH]; intros Hkeys merged; simpl.
  - by rewrite app_nil_r.
  - rewrite IH by (intros n' Hn'; apply Hkeys; by apply list_elem_of_further).
    unfold billOnlyStat at 1. pose proof (Ht n) as Hn.
    destruct (Map_get n m) as [s|] eqn:E.
    + destruct Hn as (_ & Hspent & Hvisits). rewrite <- app_assoc. simpl.
      unfold billOnly, displayName. by rewrite Hspent, Hvisits.
    + apply Map_get_None in E. destruct E. apply Hkeys, list_elem_of_here.
Qed.

(** The code's view, in closed form. *)
Lemma customerStats_eq bills customers :
  customerStats bills customers
  = Array_sort bySpentDesc
      (map (manualStat bills) customers
       ++ map (billOnly bills)
            (List.filter (fun key => negb (isCustomerKey customers key))
               (map fst (aggregateBills bills)))).
Proof.
  unfold customerStats.
  destruct (mergeCustomers_fold bills customers (aggregateBills bills)
              (map fst (aggregateBills bills)) [] (aggregateBills_tracks bills))
    as (m' & -> & Ht & Hk).
  rewrite (billOnlyStats_fold bills m'); [done | done |].
  intros n Hn. rewrite Hk. by apply NotifierFacts.elem_of_filter_bool in Hn as [? _].
Qed.

Lemma manualStat_statOf bills cust :
  statOf (normalized (customer_name cust)) bills (manualStat bills cust).
Proof.
  unfold statOf, manualStat. simpl. split; [done|]. split; [|split; [|split; [|done]]].
  - unfold sortedVisits. rewrite (Array_sort_perm newestFirst). unfold visitsOf.
    by rewrite length_map.
  - apply Array_sort_perm.
  - apply sortedVisits_sorted.
Qed.

Lemma billOnly_statOf bills key : statOf key bills (billOnly bills key).
Proof.
  unfold statOf, billOnly. simpl. split; [done|]. split; [|split; [|split; [|done]]].
  - unfold sortedVisits. rewrite (Array_sort_perm newestFirst). unfold visitsOf.
    by rewrite length_map.
  - apply Array_sort_perm.
  - apply sortedVisits_sorted.
Qed.

(** C7. The customer view is a rearrangement of: one stat per manual
    profile, keeping its id, name, phone and birthday, followed by one stat
    per normalised (trimmed, lower-cased) name that occurs on a bill with a
    non-blank name and belongs to no profile, without id.  It is ordered by
    total spent, highest first.  Each stat has, for the bills whose
    normalised name is its key, the sum of their totals, their number, their
    visits newest first, and the newest visit's date as last visit; a
    profile without bills gets zeros, no visit and no last visit.  The bills
    of "Anna " and "anna" make one stat with 2 visits and the sum of both
    totals, which takes the id of the profile "ANNA" when there is one. *)
Theorem customerStats_groups_by_normalized_name
    (bills : list Bill) (customers : list Customer) :
  customerStats bills customers ≡ₚ specView bills customers
  ∧ spentDescSorted (customerStats bills customers)
  ∧ (∀ cust : Customer,
       let s := manualStat bills cust in
       stat_id s = Some (customer_id cust) ∧ stat_name s = customer_name cust
       ∧ stat_phone s = phone cust ∧ stat_dob s = dob cust
       ∧ statOf (normalized (customer_name cust)) bills s
       ∧ (billsOf (normalized (customer_name cust)) bills = [] →
          totalSpent s = 0 ∧ visitCount s = 0%nat ∧ visitHistory s = []
          ∧ lastVisitDate s = None))
  ∧ (∀ key, stat_id (billOnly bills key) = None ∧ statOf key bills (billOnly bills key))
  ∧ (NoDup (billKeys bills)
     ∧ ∀ key, key ∈ billKeys bills
              ↔ ∃ b : Bill, b ∈ bills ∧ trim (customerName b) ≠ ""
                            ∧ normalized (customerName b) = key)
  ∧ (normalized "Anna " = "anna" ∧ normalized "anna" = "anna"
     ∧ customerStats Samples.annaBills []
       = [mkStat None "anna" None None 300000 2 (Some Samples.noon)
            [mkVisit Samples.noon 200000;
             mkVisit (Samples.noon - 48 * Samples.hour) 100000]]
     ∧ customerStats Samples.annaBills [Samples.annaProfile; Samples.noBillProfile]
       = [mkStat (Some "cust-1") "ANNA" (Some "0900") None 300000 2 (Some Samples.noon)
            [mkVisit Samples.noon 200000;
             mkVisit (Samples.noon - 48 * Samples.hour) 100000];
          mkStat (Some "cust-2") "Binh" None None 0 0 None []]).
Proof.
  split; [|split; [|split; [|split; [|split]]]].
  - rewrite customerStats_eq, (Array_sort_perm bySpentDesc). unfold specView.
    apply Permutation_app_head, Permutation_map.
    assert (Hfilter : ∀ (f : string → bool) l k, l ≡ₚ k → List.filter f l ≡ₚ List.filter f k).
    { intros f l k Hp. induction Hp as [|x l k _ IH|x y l|l k j _ IH1 _ IH2]; simpl.
      - done.
      - destruct (f x); [by constructor | done].
      - destruct (f x), (f y); try done. apply perm_swap.
      - by etrans. }
    apply Hfilter, aggregateBills_keys.
  - rewrite customerStats_eq. unfold spentDescSorted.
    eapply StronglySorted_iff;
      [|apply (Array_sort_sorted bySpentDesc bySpentDesc_total bySpentDesc_trans)].
    unfold bySpentDesc. simpl. intros; lia.
  - intros cust s. repeat split; try apply manualStat_statOf.
    + subst s. simpl. by apply spentOf_none.
    + subst s. simpl. by rewrite sortedVisits_none.
    + subst s. simpl. by rewrite sortedVisits_none.
    + subst s. simpl. by rewrite sortedVisits_none.
  - intros key. split; [done | apply billOnly_statOf].
  - split; [apply NoDup_remove_dups | intros key; apply billKeys_elem].
  - vm_compute. repeat split.
Qed.

Lemma customerStats_witness :
  totalSpent (manualStat Samples.annaBills Samples.noBillProfile) = 0
  ∧ visitHistory (manualStat Samples.annaBills Samples.noBillProfile) = [].
Proof.
  destruct (customerStats_groups_by_normalized_name Samples.annaBills
              [Samples.annaProfile; Samples.noBillProfile]) as (_ & _ & Hmanual & _).
  destruct (Hmanual Samples.noBillProfile) as (_ & _ & _ & _ & _ & Hzero).
  destruct (Hzero eq_refl) as (Hspent & _ & Hhistory & _).
  split; [exact Hspent | exact Hhistory].
Defined.

End CustomerListFacts.

(** ** Backup import *)

Module BackupFacts.
Import Backup.

Lemma Array_isArray_Some l elements :
  Array_isArray l = Some elements ↔ l = Found (JArray elements).
Proof.
  destruct l as [| |[]]; simpl; split; intros H; try done; by injection H as ->.
Qed.

Lemma hasArray_isArray data k :
  hasArray data k ↔ ∃ elements, Array_isArray (getProp data k) = Some elements.
Proof.
  unfold hasArray. split; intros [elements H]; exists elements; by apply Array_isArray_Some.
Qed.

Lemma applyCategories_frame data st :
  bills (applyCategories data st) = bills st
  ∧ services (applyCategories data st) = services st
  ∧ shopName (applyCategories data st) = shopName st
  ∧ billTheme (applyCategories data st) = billTheme st
  ∧ categories (applyCategories data st)
    = match getProp data "categories" with
      | Found (JArray cats) => cats
      | _ => categories st
      end.
Proof.
  unfold applyCategories.
  destruct (getProp data "categories") as [| |[|b|n|s|elements|members]]; simpl; try done.
  - by destruct b.
  - by destruct (negb _).
  - by destruct (JS.truthy s).
Qed.

Lemma applySettings_frame data st :
  bills (applySettings data st) = bills st
  ∧ services (applySettings data st) = services st
  ∧ categories (applySettings data st) = categories st
  ∧ (shopName (applySettings data st) ≠ shopName st →
     ∃ settings v, getProp data "settings" = Found settings
                   ∧ getProp settings "shopName" = Found v
                   ∧ shopName (applySettings data st) = v)
  ∧ (billTheme (applySettings data st) ≠ billTheme st →
     ∃ settings v, getProp data "settings" = Found settings
                   ∧ getProp settings "billTheme" = Found v
                   ∧ billTheme (applySettings data st) = v).
Proof.
  unfold applySettings.
  destruct (truthy (getProp data "settings")); [|done].
  destruct (getProp data "settings") as [| |settings]; try done.
  destruct (getProp settings "shopName") as [| |v1] eqn:E1;
    destruct (getProp settings "billTheme") as [| |v2] eqn:E2;
    try destruct (truthy (Found v1)); try destruct (truthy (Found v2));
    simpl; repeat split; try done; intros _; eauto.
Qed.

(** The settings an import ends with: a name or theme the document holds
    under [settings], when truthy, and the old one otherwise. *)
Lemma applySettings_values data st :
  shopName (applySettings data st)
  = match getProp data "settings" with
    | Found (JObject members) =>
        match getProp (JObject members) "shopName" with
        | Found v => if truthy (Found v) then v else shopName st
        | _ => shopName st
        end
    | _ => shopName st
    end
  ∧ billTheme (applySettings data st)
    = match getProp data "settings" with
      | Found (JObject members) =>
          match getProp (JObject members) "billTheme" with
          | Found v => if truthy (Found v) then v else billTheme st
          | _ => billTheme st
          end
      | _ => billTheme st
      end.
Proof.
  unfold applySettings.
  destruct (getProp data "settings") as [| |[|b|n|s|elements|members]]; try done.
  - by destruct b.
  - simpl. by destruct (negb (n =? 0)).
  - simpl. by destruct (JS.truthy s).
  - change (truthy (Found (JObject members))) with true. cbv iota.
    destruct (getProp (JObject members) "shopName") as [| |v1];
      destruct (getProp (JObject members) "billTheme") as [| |v2];
      try destruct (truthy (Found v1)); try destruct (truthy (Found v2)); done.
Qed.

(** C8. The import handler.  A text that does not parse, or that parses to
    [null]: the read-error alert, the store untouched, no reload.  A document
    in which [bills] or [services] is missing or not an array: an alert (the
    invalid-file one, or the read-error one), the store untouched, no reload.
    A document with both arrays, confirmed: bills and services are replaced
    by the document's, the success alert is shown and the page reloads;
    categories change only to an array the document holds under
    [categories], shop name and theme only to values it holds under
    [settings]; declined: nothing changes.  The settings are applied
    whenever present: a truthy [shopName] of the document's [settings]
    object becomes the shop name and a truthy [billTheme] the theme, each
    on its own, and a setting that is missing or falsy leaves the old value
    (a non-empty string is truthy, the empty string is not).  The success
    alert is shown only for a confirmed document with both arrays. *)
Theorem handleFileUpload_restores_only_valid_backups :
  (∀ confirmed st, handleFileUpload None confirmed st = mkResult st [ReadFailed] false)
  ∧ (∀ data confirmed st,
       ¬ (hasArray data "bills" ∧ hasArray data "services") →
       let r := handleFileUpload (Some data) confirmed st in
       store r = st ∧ reloaded r = false
       ∧ (alerts r = [InvalidFile] ∨ alerts r = [ReadFailed]))
  ∧ (∀ data st newBills newServices,
       getProp data "bills" = Found (JArray newBills) →
       getProp data "services" = Found (JArray newServices) →
       let r := handleFileUpload (Some data) true st in
       bills (store r) = newBills ∧ services (store r) = newServices
       ∧ alerts r = [RestoreSucceeded] ∧ reloaded r = true
       ∧ categories (store r)
         = match getProp data "categories" with
           | Found (JArray cats) => cats
           | _ => categories st
           end
       ∧ (categories (store r) ≠ categories st → hasArray data "categories")
       ∧ (shopName (store r) ≠ shopName st →
          ∃ settings v, getProp data "settings" = Found settings
                        ∧ getProp settings "shopName" = Found v
                        ∧ shopName (store r) = v)
       ∧ (billTheme (store r) ≠ billTheme st →
          ∃ settings v, getProp data "settings" = Found settings
                        ∧ getProp settings "billTheme" = Found v
                        ∧ billTheme (store r) = v)
       ∧ handleFileUpload (Some data) false st = mkResult st [] false
       ∧ shopName (store r)
         = match getProp data "settings" with
           | Found (JObject members) =>
               match getProp (JObject members) "shopName" with
               | Found v => if truthy (Found v) then v else shopName st
               | _ => shopName st
               end
           | _ => shopName st
           end
       ∧ billTheme (store r)
         = match getProp data "settings" with
           | Found (JObject members) =>
               match getProp (JObject members) "billTheme" with
               | Found v => if truthy (Found v) then v else billTheme st
               | _ => billTheme st
               end
           | _ => billTheme st
           end
       ∧ (∀ members name,
            getProp data "settings" = Found (JObject members) →
            getProp (JObject members) "shopName" = Found (JString name) →
            shopName (store r) = (if String.eqb name "" then shopName st else JString name))
       ∧ (∀ members theme,
            getProp data "settings" = Found (JObject members) →
            getProp (JObject members) "billTheme" = Found (JString theme) →
            billTheme (store r)
            = (if String.eqb theme "" then billTheme st else JString theme)))
  ∧ (∀ parsed confirmed st,
       alerts (handleFileUpload parsed confirmed st) = [RestoreSucceeded]
       ∨ store (handleFileUpload parsed confirmed st) ≠ st →
       confirmed = true
       ∧ ∃ data, parsed = Some data ∧ hasArray data "bills" ∧ hasArray data "services").
Proof.
  split; [done|]. split; [|split].
  - intros data confirmed st Hinvalid r. subst r. unfold handleFileUpload.
    rewrite !hasArray_isArray in Hinvalid.
    destruct (getProp data "bills") as [| |[|b|n|s|newBills|members]] eqn:Eb; cbn;
      try (repeat split; by eauto).
    destruct (Array_isArray (getProp data "services")) as [newServices|] eqn:E2;
      [|repeat split; by eauto].
    destruct Hinvalid. split; eauto.
  - intros data st newBills newServices Hb Hs r. subst r. unfold handleFileUpload.
    rewrite Hb, Hs. simpl.
    destruct (applyCategories_frame data (restoreServices newServices (restoreBills newBills st)))
      as (C1 & C2 & C3 & C4 & C5).
    destruct (applySettings_frame data
                (applyCategories data (restoreServices newServices (restoreBills newBills st))))
      as (S1 & S2 & S3 & S4 & S5).
    rewrite S1, S2, S3, C1, C2, C5. simpl.
    split; [done|]. split; [done|]. split; [done|]. split; [done|]. split; [done|].
    split.
    { intros Hc. unfold hasArray.
      destruct (getProp data "categories") as [| |[]]; try done. eauto. }
    destruct (applySettings_values data
                (applyCategories data (restoreServices newServices (restoreBills newBills st))))
      as (V1 & V2).
    rewrite C3 in S4, V1. rewrite C4 in S5, V2. simpl in S4, S5, V1, V2.
    split; [done|]. split; [done|]. split; [done|]. split; [exact V1|].
    split; [exact V2|]. split.
    + intros members name Hset Hname. rewrite V1, Hset, Hname. simpl.
      unfold JS.truthy. by destruct (String.eqb name "").
    + intros members theme Hset Htheme. rewrite V2, Hset, Htheme. simpl.
      unfold JS.truthy. by destruct (String.eqb theme "").
  - intros parsed confirmed st H.
    destruct parsed as [data|]; [|by destruct H].
    unfold handleFileUpload in H.
    destruct (getProp data "bills") as [| |[|b|n|s|newBills|members]] eqn:Eb; cbn in H;
      try (by destruct H).
    destruct (Array_isArray (getProp data "services")) as [newServices|] eqn:E2;
      [|by destruct H].
    destruct confirmed; [|by destruct H].
    split; [done|]. exists data. rewrite !hasArray_isArray, Eb, E2. eauto.
Qed.

Lemma handleFileUpload_witness :
  bills (store (handleFileUpload (Some Samples.backupDocument) true Samples.currentStore))
  = [JObject [("id", JString "bill-9")]]
  ∧ services (store (handleFileUpload (Some Samples.backupDocument) true Samples.currentStore))
    = [].
Proof.
  destruct handleFileUpload_restores_only_valid_backups as (_ & _ & Hvalid & _).
  destruct (Hvalid Samples.backupDocument Samples.currentStore
              [JObject [("id", JString "bill-9")]] [] eq_refl eq_refl)
    as (Hb & Hs & _).
  split; [exact Hb | exact Hs].
Defined.

(** The sample documents through the handler: the complete one replaces
    bills, services and the shop name and leaves categories and theme; the
    one whose [services] is not an array, an unparsable text and [null] leave
    the store alone. *)
Example import_of_sample_documents :
  handleFileUpload (Some Samples.backupDocument) true Samples.currentStore
  = mkResult
      (mkStore [JObject [("id", JString "bill-9")]] []
         [JObject [("id", JString "cat-1")]] (JString "Nail Spa") (JString "default"))
      [RestoreSucceeded] true
  ∧ handleFileUpload (Some Samples.billsOnlyDocument) true Samples.currentStore
    = mkResult Samples.currentStore [InvalidFile] false
  ∧ handleFileUpload None true Samples.currentStore
    = mkResult Samples.currentStore [ReadFailed] false
  ∧ handleFileUpload (Some JNull) true Samples.currentStore
    = mkResult Samples.currentStore [ReadFailed] false.
Proof. repeat split. Qed.

End BackupFacts.

(** * Further properties of the code *)

(** ** The engine *)

Module EngineMore.
Import Collections Notifier NotifierFacts.

(** X1. In every state the application reaches (from the persisted
    collections, by polls, popup buttons, list and editor actions and
    reloads) no booking id occurs twice in the queue of due bookings, and
    the id of every queued booking is in the notified set. *)
Theorem reachable_queue_ids_distinct_and_notified (st : AppState) :
  reachable st →
  NoDup (map id (dueBookingQueue st))
  ∧ ∀ b : Booking, b ∈ dueBookingQueue st → id b ∈ notifiedBookingIds st.
Proof. intros Hreach. by apply reachable_queueInv. Qed.

Lemma reachable_queue_witness :
  NoDup (map id (dueBookingQueue (run Samples.morning Samples.busyDay)))
  ∧ ∀ b : Booking,
      b ∈ dueBookingQueue (run Samples.morning Samples.busyDay) →
      id b ∈ notifiedBookingIds (run Samples.morning Samples.busyDay).
Proof.
  apply reachable_queue_ids_distinct_and_notified.
  unfold run, Samples.busyDay. cbn [fold_left].
  repeat apply reachable_step. apply reachable_initial.
Defined.

(** A tick in which no booking passes the test leaves the state as it is. *)
Lemma tick_nothing_due now N l acc :
  (∀ b : Booking, b ∈ l → surfaces now N b = false) →
  fold_left
    (fun acc booking =>
       if surfaces now N booking then
         setNotifiedBookingIds (fun prev => {[id booking]} ∪ prev)
           (setDueBookingQueue (enqueue booking) acc)
       else acc) l acc = acc.
Proof.
  revert acc. induction l as [|b l IH]; intros acc Hl; simpl; [done|].
  rewrite (Hl b) by apply list_elem_of_here.
  apply IH. intros b' Hb'. apply Hl. by apply list_elem_of_further.
Qed.

(** X2. A poll tick repeated at the same instant changes nothing: whatever
    the first tick surfaced is notified, so the second finds no booking to
    surface (the effect runs the check again as soon as the notified set
    has changed). *)
Theorem checkBookings_idempotent (now : Z) (st : AppState) :
  checkBookings now (checkBookings now st) = checkBookings now st.
Proof.
  unfold checkBookings at 1.
  destruct (checkBookings_frame now st) as (_ & -> & _).
  apply tick_nothing_due. intros b Hb.
  destruct (surfaces now (notifiedBookingIds st) b) eqn:E.
  - destruct (checkBookings_enqueues now st b Hb E) as [_ HN].
    apply not_true_is_false. intros (_ & _ & Hnot)%surfaces_true. done.
  - apply not_true_is_false. intros (Hdue & Hrecent & Hnot)%surfaces_true.
    apply not_true_iff_false in E. apply E, surfaces_true.
    repeat split; try done. intros Hin. apply Hnot.
    rewrite checkBookings_notified. by apply elem_of_union_r.
Qed.

(** *** The booking collection *)

Lemma deleteBooking_fresh i (l : list Booking) :
  (∀ b : Booking, b ∈ l → id b ≠ i) → deleteBooking i l = l.
Proof.
  intros Hl. unfold deleteBooking. induction l as [|b l IH]; simpl; [done|].
  assert (E : String.eqb (id b) i = false)
    by (apply String.eqb_neq, Hl, list_elem_of_here).
  rewrite E. simpl. f_equal. apply IH. intros b' Hb'. apply Hl.
  by apply list_elem_of_further.
Qed.

(** X3. [updateBooking] never changes which ids the collection holds, nor
    their order or number; it leaves the collection as it is when no record
    has the id; afterwards every record with the id is the new record, and
    the records with other ids are the old ones. *)
Theorem updateBooking_replaces_in_place (u : Booking) (l : list Booking) :
  map id (updateBooking u l) = map id l
  ∧ ((∀ b : Booking, b ∈ l → id b ≠ id u) → updateBooking u l = l)
  ∧ (∀ b : Booking, b ∈ updateBooking u l → id b = id u → b = u)
  ∧ (∀ b : Booking, id b ≠ id u → (b ∈ updateBooking u l ↔ b ∈ l))
  ∧ (∀ n (b : Booking), l !! n = Some b →
       updateBooking u l !! n = Some (if String.eqb (id b) (id u) then u else b)).
Proof.
  split; [|split; [|split; [|split]]].
  - unfold updateBooking. induction l as [|b l IH]; simpl; [done|].
    rewrite IH. f_equal. destruct (String.eqb_spec (id b) (id u)); congruence.
  - intros Hl. unfold updateBooking. induction l as [|b l IH]; simpl; [done|].
    assert (E : String.eqb (id b) (id u) = false)
      by (apply String.eqb_neq, Hl, list_elem_of_here).
    rewrite E. f_equal. apply IH. intros b' Hb'. apply Hl. by apply list_elem_of_further.
  - intros b [[-> _]|[_ Hne]]%updateBooking_elem E; [done | by destruct Hne].
  - intros b Hne. rewrite updateBooking_elem. split.
    + intros [[-> _]|[? _]]; [by destruct Hne | done].
    + intros Hb. by right.
  - intros n b Hn. unfold updateBooking.
    change (map ?f l) with (f <$> l). by rewrite list_lookup_fmap, Hn.
Qed.

(** X4. A new booking is put in front with the given id and with
    [createdAt] set to the time of the call, whatever the submitted record
    carried; deleting an id removes every record with it and only those, and
    deleting the id of a booking just added under a fresh id gives back the
    collection as it was. *)
Theorem addBooking_then_deleteBooking
    (newId : string) (now : Z) (data : BillData) (prev : list Booking) :
  (∃ booking : Booking,
     addBooking newId now data prev = booking :: prev
     ∧ id booking = newId ∧ createdAt booking = Some now
     ∧ date booking = date data ∧ items booking = items data
     ∧ total booking = total data ∧ customerName booking = customerName data)
  ∧ (∀ b : Booking, b ∈ deleteBooking newId prev ↔ b ∈ prev ∧ id b ≠ newId)
  ∧ deleteBooking newId (deleteBooking newId prev) = deleteBooking newId prev
  ∧ deleteBooking newId (addBooking newId now data prev) = deleteBooking newId prev
  ∧ ((∀ b : Booking, b ∈ prev → id b ≠ newId) →
     deleteBooking newId (addBooking newId now data prev) = prev).
Proof.
  assert (Hadd : deleteBooking newId (addBooking newId now data prev)
                 = deleteBooking newId prev).
  { unfold addBooking, deleteBooking. simpl. by rewrite String.eqb_refl. }
  split; [eexists; split; [reflexivity | done]|].
  split; [intros b; apply deleteBooking_elem|].
  split.
  { apply deleteBooking_fresh. by intros b [_ ?]%deleteBooking_elem. }
  split; [exact Hadd|].
  intros Hfresh. rewrite Hadd. by apply deleteBooking_fresh.
Qed.

Lemma addBooking_then_deleteBooking_witness :
  deleteBooking "b9"
    (addBooking "b9" Samples.noon (Samples.booking "draft" Samples.noon)
       (bookings Samples.morning))
  = bookings Samples.morning.
Proof.
  destruct (addBooking_then_deleteBooking "b9" Samples.noon
              (Samples.booking "draft" Samples.noon) (bookings Samples.morning))
    as (_ & _ & _ & _ & Hfresh).
  apply Hfresh. intros b Hb.
  apply elem_of_cons in Hb as [->|Hb]; [discriminate|].
  apply list_elem_of_singleton in Hb as ->. discriminate.
Defined.

End EngineMore.

(** ** Customer profiles and the editor's name list *)

Module AppMore.
Import JS Collections Customers Notifier App.

Lemma deleteCustomer_elem i l (c : Customer) :
  c ∈ deleteCustomer i l ↔ c ∈ l ∧ customer_id c ≠ i.
Proof.
  unfold deleteCustomer. rewrite NotifierFacts.elem_of_filter_bool, negb_true_iff.
  by rewrite String.eqb_neq.
Qed.

Lemma deleteCustomer_fresh i (l : list Customer) :
  (∀ c, c ∈ l → customer_id c ≠ i) → deleteCustomer i l = l.
Proof.
  intros Hl. unfold deleteCustomer. induction l as [|c l IH]; simpl; [done|].
  assert (E : String.eqb (customer_id c) i = false)
    by (apply String.eqb_neq, Hl, list_elem_of_here).
  rewrite E. simpl. f_equal. apply IH. intros c' Hc'. apply Hl.
  by apply list_elem_of_further.
Qed.

(** X5. The profile collection: a new profile goes to the end, with the
    given id and the submitted name, phone and birthday, the older profiles
    keeping their places; an update changes neither the ids nor their order
    and turns every profile with the id into the new one; deleting the id of
    a profile just added under a fresh id gives back the collection as it
    was. *)
Theorem customer_collection_operations
    (newId : string) (data : CustomerData) (u : Customer) (prev : list Customer) :
  (addCustomer newId data prev
   = prev ++ [mkCustomer newId (data_name data) (data_phone data) (data_dob data)])
  ∧ (∀ n c, prev !! n = Some c → addCustomer newId data prev !! n = Some c)
  ∧ map customer_id (updateCustomer u prev) = map customer_id prev
  ∧ (∀ c, c ∈ updateCustomer u prev → customer_id c = customer_id u → c = u)
  ∧ ((∀ c, c ∈ prev → customer_id c ≠ customer_id u) → updateCustomer u prev = prev)
  ∧ (∀ c, c ∈ deleteCustomer newId prev ↔ c ∈ prev ∧ customer_id c ≠ newId)
  ∧ ((∀ c, c ∈ prev → customer_id c ≠ newId) →
     deleteCustomer newId (addCustomer newId data prev) = prev).
Proof.
  split; [done|]. split.
  { intros n c Hn. unfold addCustomer. by apply lookup_app_l_Some. }
  split.
  { unfold updateCustomer. induction prev as [|c l IH]; simpl; [done|].
    rewrite IH. f_equal.
    destruct (String.eqb_spec (customer_id c) (customer_id u)); congruence. }
  split.
  { intros c Hc E. unfold updateCustomer in Hc.
    apply list_elem_of_fmap in Hc as (c0 & -> & _).
    destruct (String.eqb_spec (customer_id c0) (customer_id u)) as [|Hne]; [done|].
    by destruct Hne. }
  split.
  { intros Hl. unfold updateCustomer. induction prev as [|c l IH]; simpl; [done|].
    assert (E : String.eqb (customer_id c) (customer_id u) = false)
      by (apply String.eqb_neq, Hl, list_elem_of_here).
    rewrite E. f_equal. apply IH. intros c' Hc'. apply Hl. by apply list_elem_of_further. }
  split; [intros c; apply deleteCustomer_elem|].
  intros Hfresh. unfold addCustomer, deleteCustomer. rewrite List.filter_app. simpl.
  rewrite String.eqb_refl. simpl. rewrite app_nil_r. by apply deleteCustomer_fresh.
Qed.

(** *** The name list *)

Lemma Set_of_fold (l seen : list string) :
  let r := fold_left
             (fun seen x => if bool_decide (x ∈ seen) then seen else seen ++ [x]) l seen in
  (NoDup seen → NoDup r) ∧ (∀ x, x ∈ r ↔ x ∈ seen ∨ x ∈ l).
Proof.
  revert seen. induction l as [|a l IH]; intros seen; simpl.
  - split; [done|]. intros x. split; [by left|]. by intros [?|?%elem_of_nil].
  - destruct (IH (if bool_decide (a ∈ seen) then seen else seen ++ [a])) as [Hnd Hin].
    split.
    + intros Hseen. apply Hnd. case_bool_decide as Ha; [done|].
      apply NoDup_app. split; [done|]. split; [|apply NoDup_singleton].
      by intros x Hx ->%list_elem_of_singleton.
    + intros x. rewrite Hin. case_bool_decide as Ha.
      * rewrite elem_of_cons. split; [tauto|]. intros [?|[->|?]]; tauto.
      * rewrite elem_of_app, list_elem_of_singleton, elem_of_cons. tauto.
Qed.

(** X6. The name list offered by the editor holds every non-blank customer
    name of the bills, the bookings and the profiles, trimmed, each once,
    and nothing else; names that differ in case are different entries. *)
Theorem customerNames_trimmed_distinct_nonblank
    (bills : list Bill) (bookings : list Booking) (customers : list Customer) :
  NoDup (customerNames bills bookings customers)
  ∧ (∀ name, name ∈ customerNames bills bookings customers
             ↔ name ≠ ""
               ∧ ((∃ b : Bill, b ∈ bills ∧ trim (customerName b) = name)
                  ∨ (∃ b : Booking, b ∈ bookings ∧ trim (customerName b) = name)
                  ∨ (∃ c, c ∈ customers ∧ trim (customer_name c) = name)))
  ∧ customerNames Samples.annaBills [] [Samples.annaProfile] = ["Anna"; "anna"; "ANNA"].
Proof.
  unfold customerNames.
  set (all := map (fun bill : Bill => trim (customerName bill)) bills
              ++ map (fun b : Booking => trim (customerName b)) bookings
              ++ map (fun c => trim (customer_name c)) customers).
  destruct (Set_of_fold all []) as [Hnd Hin]. fold (Set_of all) in Hnd, Hin.
  split; [|split; [|reflexivity]].
  - assert (Hf : ∀ l : list string, NoDup l → NoDup (List.filter truthy l)).
    { induction 1 as [|x l Hx Hl IH]; simpl; [constructor|].
      destruct (truthy x); [|done]. constructor; [|done].
      by intros [? _]%NotifierFacts.elem_of_filter_bool. }
    apply Hf, Hnd. constructor.
  - intros name. rewrite NotifierFacts.elem_of_filter_bool, Hin, BillEditorFacts.truthy_true.
    subst all. rewrite !elem_of_app, !list_elem_of_fmap. split.
    + intros [[?%elem_of_nil|[(b & -> & Hb)|[(b & -> & Hb)|(c & -> & Hc)]]] Hne];
        try done; split; eauto.
    + intros (Hne & [(b & Hb & <-)|[(b & Hb & <-)|(c & Hc & <-)]]); split; try done;
        right; eauto.
Qed.

End AppMore.

(** ** Strings: trimming and lower case *)

Module StringFacts.
Import JS.

Lemma isWhiteSpace_lowerChar c : isWhiteSpace (lowerChar c) = isWhiteSpace c.
Proof. by destruct c as [[] [] [] [] [] [] [] []]. Qed.

Lemma lowerChar_idem c : lowerChar (lowerChar c) = lowerChar c.
Proof. by destruct c as [[] [] [] [] [] [] [] []]. Qed.

Lemma toLowerCase_idem s : toLowerCase (toLowerCase s) = toLowerCase s.
Proof. induction s as [|c s IH]; simpl; [done|]. by rewrite lowerChar_idem, IH. Qed.

Lemma trimStart_toLowerCase s : trimStart (toLowerCase s) = toLowerCase (trimStart s).
Proof.
  induction s as [|c s IH]; simpl; [done|].
  rewrite isWhiteSpace_lowerChar. by destruct (isWhiteSpace c).
Qed.

Lemma trimEnd_toLowerCase s : trimEnd (toLowerCase s) = toLowerCase (trimEnd s).
Proof.
  induction s as [|c s IH]; simpl; [done|].
  rewrite IH, isWhiteSpace_lowerChar.
  destruct (trimEnd s); simpl; [by destruct (isWhiteSpace c) | done].
Qed.

(** Lower-casing and trimming commute: [name.toLowerCase().trim()] and
    [name.trim().toLowerCase()] are the same string. *)
Lemma trim_toLowerCase s : trim (toLowerCase s) = toLowerCase (trim s).
Proof. unfold trim. by rewrite trimStart_toLowerCase, trimEnd_toLowerCase. Qed.

Lemma trimEnd_idem s : trimEnd (trimEnd s) = trimEnd s.
Proof.
  induction s as [|c s IH]; simpl; [done|].
  destruct (trimEnd s) as [|c' t] eqn:E.
  - destruct (isWhiteSpace c) eqn:Ec; simpl; [done | by rewrite Ec].
  - change (trimEnd (String c (String c' t)))
      with (match trimEnd (String c' t) with
            | EmptyString => if isWhiteSpace c then EmptyString else String c EmptyString
            | t' => String c t'
            end).
    by rewrite IH.
Qed.

(** A string that does not begin with white space keeps its first character
    under [trimEnd]. *)
Lemma trimEnd_head c s :
  isWhiteSpace c = false → ∃ t, trimEnd (String c s) = String c t.
Proof. intros E. simpl. rewrite E. destruct (trimEnd s); eauto. Qed.

Lemma trimStart_trimEnd s : trimStart (trimEnd (trimStart s)) = trimEnd (trimStart s).
Proof.
  destruct (trimStart s) as [|c t] eqn:E; [done|].
  assert (Hc : isWhiteSpace c = false)
    by (eapply BillEditorFacts.trimStart_head; exact E).
  destruct (trimEnd_head c t Hc) as [t' ->]. simpl. by rewrite Hc.
Qed.

Lemma trim_idem s : trim (trim s) = trim s.
Proof. unfold trim. by rewrite trimStart_trimEnd, trimEnd_idem. Qed.

Lemma toLowerCase_empty s : toLowerCase s = "" ↔ s = "".
Proof. by destruct s. Qed.

End StringFacts.

(** ** The cascade delete of a customer *)

Module CascadeMore.
Import JS Collections Customers Notifier App CustomerList.

Lemma cascade_fold (m : Bill → bool) (l acc : list Bill) :
  fold_left
    (fun acc (b : Bill) =>
       if m b then List.filter (fun x : Bill => negb (String.eqb (id x) (id b))) acc
       else acc) l acc
  = List.filter
      (fun x : Bill => negb (existsb (fun b : Bill => m b && String.eqb (id x) (id b)) l))
      acc.
Proof.
  revert acc. induction l as [|b l IH]; intros acc; simpl.
  - by rewrite CustomerListFacts.filter_all.
  - rewrite IH. destruct (m b); simpl; [|done].
    rewrite CustomerListFacts.filter_filter. apply filter_ext. intros x.
    by rewrite negb_orb.
Qed.

Lemma cascade_fold_distinct (m : Bill → bool) (l : list Bill) :
  NoDup (map id l) →
  List.filter
    (fun x : Bill => negb (existsb (fun b : Bill => m b && String.eqb (id x) (id b)) l)) l
  = List.filter (fun x => negb (m x)) l.
Proof.
  intros Hnd. apply filter_ext_in. intros x Hx. f_equal.
  apply eq_true_iff_eq. rewrite existsb_exists. split.
  - intros (b & Hb & [Hm E%String.eqb_eq]%andb_true_iff).
    assert (x = b) as ->; [|done].
    apply (NotifierFacts.NoDup_map_inj id l); try done; by apply list_elem_of_In.
  - intros Hm. exists x. split; [done|]. by rewrite Hm, String.eqb_refl.
Qed.

(** X7. The cascade delete of a customer: afterwards no bill and no booking
    carries the customer's name (compared lower-cased and trimmed); a record
    is removed exactly when its id is the id of a record with that name, so
    with distinct ids exactly the records with that name go and the others
    keep their order; the profile with the given id goes, no profile when
    no id is given; the queue of due bookings and the notified ids are left
    as they are. *)
Theorem handleFullCustomerDelete_removes_the_customers_records
    (customer : option string * string) (st : AppState) (customers : list Customer) :
  let key := lowerTrim (snd customer) in
  let st' := fst (handleFullCustomerDelete customer st customers) in
  let customers' := snd (handleFullCustomerDelete customer st customers) in
  (∀ b : Bill, b ∈ bills st' → lowerTrim (customerName b) ≠ key)
  ∧ (∀ b : Booking, b ∈ bookings st' → lowerTrim (customerName b) ≠ key)
  ∧ (∀ b : Bill, b ∈ bills st'
       ↔ b ∈ bills st
         ∧ ¬ ∃ b0 : Bill, b0 ∈ bills st ∧ lowerTrim (customerName b0) = key
                          ∧ id b0 = id b)
  ∧ (∀ b : Booking, b ∈ bookings st'
       ↔ b ∈ bookings st
         ∧ ¬ ∃ b0 : Booking, b0 ∈ bookings st ∧ lowerTrim (customerName b0) = key
                             ∧ id b0 = id b)
  ∧ (NoDup (map id (bills st)) →
     bills st'
     = List.filter (fun b : Bill => negb (String.eqb (lowerTrim (customerName b)) key))
         (bills st))
  ∧ (NoDup (map id (bookings st)) →
     bookings st'
     = List.filter (fun b : Bill => negb (String.eqb (lowerTrim (customerName b)) key))
         (bookings st))
  ∧ (∀ c, c ∈ customers'
          ↔ c ∈ customers ∧ ∀ i, fst customer = Some i → i ≠ "" → customer_id c ≠ i)
  ∧ dueBookingQueue st' = dueBookingQueue st
  ∧ notifiedBookingIds st' = notifiedBookingIds st.
Proof.
  intros key st' customers'.
  set (m := fun b : Bill => String.eqb (lowerTrim (customerName b)) key).
  assert (Hbills : bills st'
            = List.filter
                (fun x : Bill =>
                   negb (existsb (fun b : Bill => m b && String.eqb (id x) (id b)) (bills st)))
                (bills st)).
  { subst st'. unfold handleFullCustomerDelete. simpl.
    apply (cascade_fold m (bills st) (bills st)). }
  assert (Hbookings : bookings st'
            = List.filter
                (fun x : Bill =>
                   negb (existsb (fun b : Bill => m b && String.eqb (id x) (id b))
                           (bookings st)))
                (bookings st)).
  { subst st'. unfold handleFullCustomerDelete. simpl.
    apply (cascade_fold m (bookings st) (bookings st)). }
  assert (Hin : ∀ (l : list Bill) (b : Bill),
            b ∈ List.filter
                  (fun x : Bill =>
                     negb (existsb (fun b : Bill => m b && String.eqb (id x) (id b)) l)) l
            ↔ b ∈ l ∧ ¬ ∃ b0 : Bill, b0 ∈ l ∧ lowerTrim (customerName b0) = key
                                     ∧ id b0 = id b).
  { intros l b. rewrite NotifierFacts.elem_of_filter_bool, negb_true_iff.
    rewrite <- not_true_iff_false, existsb_exists. split.
    - intros [Hb Hno]. split; [done|]. intros (b0 & Hb0 & Hk & Hid). apply Hno.
      exists b0. split; [by apply list_elem_of_In|]. subst m. simpl.
      apply andb_true_iff. split; [by apply String.eqb_eq|]. by apply String.eqb_eq.
    - intros [Hb Hno]. split; [done|]. intros (b0 & Hb0 & [Hk Hid]%andb_true_iff).
      apply Hno. exists b0. split; [by apply list_elem_of_In|].
      subst m. simpl in Hk. apply String.eqb_eq in Hk, Hid. done. }
  assert (Hgone : ∀ (l : list Bill) (b : Bill),
            b ∈ List.filter
                  (fun x : Bill =>
                     negb (existsb (fun b : Bill => m b && String.eqb (id x) (id b)) l)) l
            → lowerTrim (customerName b) ≠ key).
  { intros l b [Hb Hno]%Hin Hk. apply Hno. by exists b. }
  split; [rewrite Hbills; apply Hgone|]. split; [rewrite Hbookings; apply Hgone|].
  split; [rewrite Hbills; apply Hin|]. split; [rewrite Hbookings; apply Hin|].
  split; [intros Hnd; rewrite Hbills; by apply cascade_fold_distinct|].
  split; [intros Hnd; rewrite Hbookings; by apply cascade_fold_distinct|].
  split; [|done].
  intros c. subst customers'. unfold handleFullCustomerDelete. simpl.
  destruct (fst customer) as [i|]; [|split; [by intros ? | by intros [? _]]].
  destruct (truthy i) eqn:E.
  - apply BillEditorFacts.truthy_true in E. rewrite AppMore.deleteCustomer_elem. split.
    + intros [Hc Hne]. split; [done|]. by intros ? [= <-] _.
    + intros [Hc Hne]. split; [done|]. by apply Hne.
  - apply BillEditorFacts.truthy_false in E. split.
    + intros Hc. split; [done|]. intros ? [= <-] Hne. by destruct Hne.
    + by intros [? _].
Qed.


(** The view is a rearrangement of the profiles' stats followed by the
    bill-only stats. *)
Lemma customerStats_perm_specView bills customers :
  customerStats bills customers ≡ₚ specView bills customers.
Proof.
  rewrite CustomerListFacts.customerStats_eq, (CustomerListFacts.Array_sort_perm bySpentDesc).
  unfold specView. apply Permutation_app_head, Permutation_map.
  assert (Hfilter : ∀ (f : string → bool) l k, l ≡ₚ k → List.filter f l ≡ₚ List.filter f k).
  { intros f l k Hp. induction Hp as [|x l k _ IH|x y l|l k j _ IH1 _ IH2]; simpl.
    - done.
    - destruct (f x); [by constructor | done].
    - destruct (f x), (f y); try done. apply perm_swap.
    - by etrans. }
  apply Hfilter, CustomerListFacts.aggregateBills_keys.
Qed.

Lemma normalized_idem x : normalized (normalized x) = normalized x.
Proof.
  unfold normalized.
  by rewrite StringFacts.trim_toLowerCase, StringFacts.toLowerCase_idem,
    StringFacts.trim_idem.
Qed.

Lemma lowerTrim_normalized x : lowerTrim x = normalized x.
Proof. apply StringFacts.trim_toLowerCase. Qed.

(** The name shown for a bill-only customer normalises to the customer's
    key. *)
Lemma normalized_displayName bills key :
  key ∈ billKeys bills → normalized (displayName bills key) = key.
Proof.
  intros (b & _ & _ & <-)%CustomerListFacts.billKeys_elem.
  set (key := normalized (customerName b)).
  unfold displayName, or_else.
  destruct (find _ bills) as [b0|] eqn:E; simpl.
  - apply find_some in E as [_ E]. apply String.eqb_eq in E.
    destruct (truthy (customerName b0)); [|apply normalized_idem].
    unfold normalized at 1. rewrite <- StringFacts.trim_toLowerCase, E.
    subst key. unfold normalized.
    by rewrite <- StringFacts.trim_toLowerCase, StringFacts.trim_idem.
  - apply normalized_idem.
Qed.

(** Every stat of the view counts the bills of the key its name normalises
    to. *)
Lemma customerStats_visitCount bills customers s :
  s ∈ customerStats bills customers →
  visitCount s = length (billsOf (normalized (stat_name s)) bills).
Proof.
  rewrite customerStats_perm_specView. unfold specView.
  intros [Hs|Hs]%elem_of_app; apply list_elem_of_fmap in Hs as (x & -> & Hx).
  - apply (CustomerListFacts.manualStat_statOf bills x).
  - apply NotifierFacts.elem_of_filter_bool in Hx as [Hx _].
    simpl. rewrite (normalized_displayName bills x Hx).
    apply (CustomerListFacts.billOnly_statOf bills x).
Qed.

(** X8. Deleting a customer from the customer view removes exactly the
    bills the view counted for that customer: for a stat of the view with a
    non-blank name, and bills with distinct ids, the bills that remain are
    the bills outside the stat's group (the cascade compares names
    lower-cased then trimmed, the view trimmed then lower-cased, which is the
    same), their number is the old number less the stat's visit count, and no
    bill of the group is left. *)
Theorem cascade_deletes_the_bills_of_the_stat
    (st : AppState) (customers : list Customer) (s : CustomerStat) :
  s ∈ customerStats (bills st) customers →
  trim (stat_name s) ≠ "" →
  NoDup (map id (bills st)) →
  let key := normalized (stat_name s) in
  let st' := fst (handleFullCustomerDelete (stat_id s, stat_name s) st customers) in
  (∀ name, lowerTrim name = normalized name)
  ∧ (∀ b : Bill, b ∈ bills st' ↔ b ∈ bills st ∧ b ∉ billsOf key (bills st))
  ∧ length (bills st) = (length (bills st') + visitCount s)%nat
  ∧ billsOf key (bills st') = [].
Proof.
  intros Hs Hname Hnd key st'.
  assert (Hkey : key ≠ "").
  { subst key. unfold normalized. by rewrite StringFacts.toLowerCase_empty. }
  assert (Hpred : ∀ b : Bill,
            String.eqb (lowerTrim (customerName b)) (lowerTrim (stat_name s))
            = truthy (trim (customerName b))
              && String.eqb (normalized (customerName b)) key).
  { intros b. rewrite !lowerTrim_normalized. fold key.
    destruct (String.eqb_spec (normalized (customerName b)) key) as [E|E];
      [|by rewrite andb_false_r].
    rewrite andb_true_r. symmetry. apply BillEditorFacts.truthy_true. intros Hblank.
    apply Hkey. rewrite <- E. unfold normalized. by rewrite Hblank. }
  assert (Hbills : bills st'
            = List.filter
                (fun b : Bill =>
                   negb (truthy (trim (customerName b))
                         && String.eqb (normalized (customerName b)) key))
                (bills st)).
  { subst st'. unfold handleFullCustomerDelete. cbn [fst snd bills setBookings setBills].
    rewrite (cascade_fold
               (fun b : Bill =>
                  String.eqb (lowerTrim (customerName b)) (lowerTrim (stat_name s)))),
      cascade_fold_distinct by done.
    apply filter_ext. intros b. by rewrite Hpred. }
  split; [exact lowerTrim_normalized|]. split.
  { intros b. rewrite Hbills, NotifierFacts.elem_of_filter_bool. unfold billsOf.
    rewrite NotifierFacts.elem_of_filter_bool, negb_true_iff.
    split; [intros [Hb E]; split; [done|]; intros [_ E']; congruence|].
    intros [Hb Hno]. split; [done|]. apply not_true_is_false. intros E. by apply Hno. }
  split.
  { rewrite (customerStats_visitCount _ _ _ Hs). fold key. rewrite Hbills. unfold billsOf.
    rewrite Nat.add_comm. symmetry. apply List.filter_length. }
  rewrite Hbills. unfold billsOf. rewrite CustomerListFacts.filter_filter.
  apply BillEditorFacts.filter_nil_iff. intros b _. apply andb_negb_l.
Qed.

Lemma cascade_deletes_witness :
  length (bills MoreSamples.annaState)
  = (length (bills (fst (handleFullCustomerDelete (Some "cust-1", "ANNA")
                           MoreSamples.annaState MoreSamples.annaCustomers))) + 2)%nat.
Proof.
  assert (Hs : mkStat (Some "cust-1") "ANNA" (Some "0900") None 300000 2 (Some Samples.noon)
                 [mkVisit Samples.noon 200000;
                  mkVisit (Samples.noon - 48 * Samples.hour) 100000]
               ∈ customerStats (bills MoreSamples.annaState) MoreSamples.annaCustomers)
    by apply list_elem_of_here.
  assert (Hnd : NoDup (map id (bills MoreSamples.annaState))).
  { apply NoDup_cons. split; [|apply NoDup_singleton].
    intros Hin%list_elem_of_singleton. discriminate Hin. }
  destruct (cascade_deletes_the_bills_of_the_stat MoreSamples.annaState
              MoreSamples.annaCustomers _ Hs ltac:(discriminate) Hnd)
    as (_ & _ & Hcount & _).
  exact Hcount.
Defined.

End CascadeMore.

Module EditorMore.
Import JS JSDate Collections BillEditor EditorRows.

(** X9. Typing a quantity into a row whose service is in the catalogue sets
    the row's quantity to the number typed (0 for an empty or non-numeric
    text) and its price to the unit price times that quantity, leaving the
    other rows and the rest of the form alone; leaving the field then
    raises a quantity below 1 to 1, with the price of one unit.  Whatever
    was typed, after the blur the quantity is at least 1 and the price is
    the unit price times the quantity.  On a row whose service is not in
    the catalogue both handlers leave the form as it is. *)
Theorem quantity_typed_then_blurred (p : Props) (index : nat) (st : EditorState)
    (it : ServiceItem) :
  s_items st !! index = Some it →
  (∀ service value,
     findService (services p) (serviceId it) = Some service →
     let typed := default 0 (if String.eqb value "" then Some 0 else parseInt value) in
     let row q :=
       mkServiceItem (item_id it) (serviceId it) (item_name it)
         (unitPrice service (variantName it) * q) q (variantName it) in
     let st1 := handleQuantityChange p index value st in
     let st2 := handleQuantityBlur p index st1 in
     st1 = setItems (<[index := row typed]> (s_items st)) st
     ∧ st2 = setItems (<[index := row (Z.max 1 typed)]> (s_items st)) st
     ∧ (∃ item, s_items st2 !! index = Some item
                ∧ 1 <= quantity item
                ∧ price item = unitPrice service (variantName it) * quantity item)
     ∧ (∀ j, j ≠ index → s_items st2 !! j = s_items st !! j))
  ∧ (handleQuantityChange p index "" st = handleQuantityChange p index "abc" st)
  ∧ (findService (services p) (serviceId it) = None →
     ∀ value, handleQuantityChange p index value st = st
              ∧ handleQuantityBlur p index st = st).
Proof.
  intros Hit. split; [|split].
  - intros service value Hsvc typed row st1 st2.
    assert (H1 : st1 = setItems (<[index := row typed]> (s_items st)) st).
    { subst st1. unfold handleQuantityChange. rewrite Hit, Hsvc. done. }
    assert (Hlt : (index < length (s_items st))%nat).
    { eapply lookup_lt_Some. exact Hit. }
    assert (Hrow1 : s_items st1 !! index = Some (row typed)).
    { rewrite H1. simpl. by apply list_lookup_insert_eq. }
    assert (H2 : st2 = setItems (<[index := row (Z.max 1 typed)]> (s_items st)) st).
    { subst st2. unfold handleQuantityBlur. rewrite Hrow1. cbn [quantity row].
      destruct ((typed =? 0) || (typed <? 1)) eqn:E.
      - unfold handleQuantityChange. rewrite Hrow1. cbn [serviceId row]. rewrite Hsvc.
        rewrite H1. cbn [s_items setItems]. rewrite list_insert_insert_eq.
        replace (Z.max 1 typed) with 1 by (apply orb_true_iff in E; lia). done.
      - apply orb_false_iff in E as [_ E]. apply Z.ltb_ge in E.
        replace (Z.max 1 typed) with typed by lia. done. }
    split; [done|]. split; [done|]. split.
    + exists (row (Z.max 1 typed)). rewrite H2. cbn [s_items setItems].
      split; [by apply list_lookup_insert_eq|]. simpl. lia.
    + intros j Hj. rewrite H2. cbn [s_items setItems]. by apply list_lookup_insert_ne.
  - unfold handleQuantityChange. done.
  - intros Hnone value. split.
    + unfold handleQuantityChange. by rewrite Hit, Hnone.
    + unfold handleQuantityBlur, handleQuantityChange. rewrite Hit, Hnone.
      by destruct ((quantity it =? 0) || (quantity it <? 1)).
Qed.

Lemma quantity_typed_then_blurred_witness :
  handleQuantityChange Samples.billProps 0 "" Samples.twiceA
  = handleQuantityChange Samples.billProps 0 "abc" Samples.twiceA.
Proof.
  destruct (quantity_typed_then_blurred Samples.billProps 0 Samples.twiceA
              (mkServiceItem "temp-1" "svc-a" "Service A" 200000 2 None) eq_refl)
    as (_ & H & _).
  exact H.
Defined.

(** X10. The receipt of a record the editor saved (from a form whose rows
    without a service carry no price): its subtotal is the form's subtotal,
    and the discount it shows is the form's discount amount cut down to the
    range from 0 to the subtotal, so a discount larger than the subtotal
    shows as the subtotal.  The discount lines appear exactly when both the
    discount amount and the subtotal are positive, and then the total and
    the discount shown add up to the subtotal. *)
Theorem receipt_shows_the_discount_applied
    (LocalTZA now : Z) (p : Props) (st : EditorState) (b : Bill) :
  handleSubmit LocalTZA now p st = OnSave b →
  rowsUnpriced (s_items st) →
  let subtotal := calculateSubtotal st in
  let discount := calculateDiscountAmount st in
  BillViewModal.subTotal b = subtotal
  ∧ BillViewModal.discountAmount b = Z.max 0 (Z.min discount subtotal)
  ∧ (BillViewModal.hasDiscount b = true ↔ 0 < discount ∧ 0 < subtotal)
  ∧ (BillViewModal.hasDiscount b = true →
     total b + BillViewModal.discountAmount b = BillViewModal.subTotal b).
Proof.
  intros Hsave Hrows subtotal discount.
  destruct (BillEditorFacts.handleSubmit_OnSave _ _ _ _ _ Hsave)
    as (_ & _ & Hitems & Htotal & _).
  assert (Hsub : BillViewModal.subTotal b = subtotal).
  { unfold BillViewModal.subTotal. rewrite BillEditorFacts.sum_fold_left, Hitems.
    rewrite BillEditorFacts.sum_selected_rows by done.
    subst subtotal. rewrite BillEditorFacts.calculateSubtotal_sum. lia. }
  assert (Ht : total b = Z.max 0 (subtotal - discount)).
  { rewrite Htotal. done. }
  assert (Hd : BillViewModal.discountAmount b = Z.max 0 (Z.min discount subtotal)).
  { unfold BillViewModal.discountAmount. rewrite Hsub, Ht.
    destruct (Z.max 0 (subtotal - discount) <? subtotal) eqn:E.
    - apply Z.ltb_lt in E. lia.
    - apply Z.ltb_ge in E. lia. }
  split; [done|]. split; [done|]. split.
  - unfold BillViewModal.hasDiscount. rewrite Hd, Z.gtb_ltb, Z.ltb_lt. lia.
  - unfold BillViewModal.hasDiscount. rewrite Hd, Hsub, Ht, Z.gtb_ltb, Z.ltb_lt. lia.
Qed.

Lemma receipt_shows_witness :
  ∃ b : Bill,
    handleSubmit Samples.indochina 0 Samples.billProps Samples.twiceA_tenPercent = OnSave b
    ∧ BillViewModal.discountAmount b = 20000.
Proof.
  eexists. split; [reflexivity|].
  refine (proj1 (proj2 (receipt_shows_the_discount_applied Samples.indochina 0
                          Samples.billProps Samples.twiceA_tenPercent _ eq_refl _))).
  apply (BillEditorFacts.worked_form_rowsUnpriced Samples.billProps
           (freshForm "temp-1" 19000 (10, 30))
           [CustomerNameChange "Lan"; ItemChange 0%nat "svc-a"; QuantityChange 0%nat "2";
            DiscountValueChange 10; DiscountTypeChange percent]).
  - intros service Hs. apply list_elem_of_singleton in Hs as ->. discriminate.
  - apply BillEditorFacts.freshForm_rowsUnpriced.
Defined.

End EditorMore.

Module ReopenFacts.
Import JS JSDate Collections BillEditor.

Lemma hours_and_minutes t :
  HourFromTime t * msPerHour + MinFromTime t * msPerMinute
  = TimeWithinDay t - t mod msPerMinute.
Proof.
  unfold HourFromTime, MinFromTime, TimeWithinDay, msPerHour, msPerMinute, msPerDay.
  replace (t / 3600000) with (t / 60000 / 60) by (rewrite Z.div_div by lia; done).
  pose proof (Z.div_mod t 60000 ltac:(lia)) as H0.
  pose proof (Z.mod_pos_bound t 60000 ltac:(lia)) as B0.
  set (a := t / 60000) in *.
  pose proof (Z.div_mod a 60 ltac:(lia)) as H1.
  pose proof (Z.mod_pos_bound a 60 ltac:(lia)) as B1.
  set (b := a / 60) in *.
  pose proof (Z.div_mod b 24 ltac:(lia)) as H2.
  pose proof (Z.mod_pos_bound b 24 ltac:(lia)) as B2.
  assert (Hmod : t mod 86400000 = 3600000 * (b mod 24) + 60000 * (a mod 60) + t mod 60000).
  { symmetry. apply (Z.mod_unique_pos t 86400000 (b / 24)); lia. }
  lia.
Qed.

(** X11. Opening a saved record in the editor and submitting it untouched
    does not always give back its date.  The form takes the day from the
    UTC date and the time from the local clock, so the date submitted is the
    record's date, less its seconds and milliseconds, moved by the days
    between the local day of the UTC midnight and the record's local day:
    at or east of UTC a record timed before the zone's offset into the local
    day (before 07:00 at UTC+7) comes back one day earlier and any other
    unchanged; west of UTC a record comes back one day earlier unless its
    local time is within the offset of the end of the local day. *)
Theorem reopened_record_date (LocalTZA : Z) (b : Bill) :
  let local := LocalTime LocalTZA (date b) in
  let submitted := finalDate LocalTZA (loadForm LocalTZA b) in
  submitted
  = date b - local mod msPerMinute
    + (Day (LocalTime LocalTZA (Day (date b) * msPerDay)) - Day local) * msPerDay
  ∧ (0 <= LocalTZA < msPerDay →
     submitted
     = (if LocalTZA <=? TimeWithinDay local then date b else date b - msPerDay)
       - local mod msPerMinute)
  ∧ (- msPerDay < LocalTZA < 0 →
     submitted
     = (if TimeWithinDay local <? msPerDay + LocalTZA then date b - msPerDay else date b)
       - local mod msPerMinute).
Proof.
  intros local submitted.
  assert (Hgen : submitted
                 = date b - local mod msPerMinute
                   + (Day (LocalTime LocalTZA (Day (date b) * msPerDay)) - Day local)
                     * msPerDay).
  { subst submitted. unfold finalDate, loadForm, setHours. cbn [s_date s_time fst snd].
    unfold getHours, getMinutes, MakeTime, MakeDate, UTC. fold local.
    pose proof (hours_and_minutes local) as Hhm.
    pose proof (DateFacts.MakeDate_split local) as Hsplit. unfold MakeDate in Hsplit.
    assert (Hlocal : local = date b + LocalTZA) by done.
    clearbody local. unfold msPerSecond. lia. }
  split; [done|].
  assert (Hlocal : local = date b + LocalTZA) by done.
  pose proof (Z.div_mod (date b) 86400000 ltac:(lia)) as Hd.
  pose proof (Z.mod_pos_bound (date b) 86400000 ltac:(lia)) as Bd.
  pose proof (Z.div_mod local 86400000 ltac:(lia)) as Hl.
  pose proof (Z.mod_pos_bound local 86400000 ltac:(lia)) as Bl.
  clearbody local.
  split; intros Hz; rewrite Hgen; unfold Day, TimeWithinDay, LocalTime, msPerDay in *.
  - replace (date b / 86400000 * 86400000 + LocalTZA)
      with (LocalTZA + date b / 86400000 * 86400000) by lia.
    rewrite Z.div_add, (Z.div_small LocalTZA) by lia.
    destruct (LocalTZA <=? local mod 86400000) eqn:E;
      [apply Z.leb_le in E | apply Z.leb_gt in E]; lia.
  - replace (date b / 86400000 * 86400000 + LocalTZA)
      with (LocalTZA + 86400000 + (date b / 86400000 - 1) * 86400000) by lia.
    rewrite Z.div_add, (Z.div_small (LocalTZA + 86400000)) by lia.
    destruct (local mod 86400000 <? 86400000 + LocalTZA) eqn:E;
      [apply Z.ltb_lt in E | apply Z.ltb_ge in E]; lia.
Qed.

(** The bill for 06:30 at UTC+7 comes back dated the day before. *)
Example early_bill_moves_a_day_back :
  finalDate Samples.indochina (loadForm Samples.indochina MoreSamples.earlyBill)
  = date MoreSamples.earlyBill - msPerDay.
Proof. reflexivity. Qed.

Lemma filter_true_all {A} (f : A → bool) (l : list A) :
  (∀ x, x ∈ l → f x = true) → List.filter f l = l.
Proof.
  induction l as [|x l IH]; intros H; simpl; [done|].
  rewrite (H x) by apply list_elem_of_here.
  f_equal. apply IH. intros y Hy. apply H. by apply list_elem_of_further.
Qed.

Lemma map_id_on {A} (f : A → A) (l : list A) :
  (∀ x, x ∈ l → f x = x) → map f l = l.
Proof.
  induction l as [|x l IH]; intros H; simpl; [done|].
  rewrite (H x) by apply list_elem_of_here.
  f_equal. apply IH. intros y Hy. apply H. by apply list_elem_of_further.
Qed.

(** X12. Opening a record as the editor saves them (name and note trimmed,
    every item with a service and a quantity other than 0, the total equal
    to the larger of 0 and subtotal minus discount) and submitting the form
    untouched hands [onSave] the same record with the date the form
    combines, and, in the bill editor, without its [createdAt]; in the
    booking editor the submit goes through only when that date is not more
    than a minute in the past. *)
Theorem resubmitting_an_untouched_record
    (LocalTZA now : Z) (p : Props) (b : Bill) (n : string) :
  bill p = Some b →
  trim (customerName b) = customerName b → customerName b ≠ "" →
  items b ≠ [] →
  (∀ item, item ∈ items b → serviceId item ≠ "" ∧ quantity item ≠ 0) →
  note b = Some n → trim n = n →
  total b = Math_max 0 (fold_right Z.add 0 (map price (items b)) - discountAmount b) →
  let submitted := finalDate LocalTZA (loadForm LocalTZA b) in
  (isBooking p = false →
   handleSubmit LocalTZA now p (loadForm LocalTZA b)
   = OnSave (mkBill (id b) (with_createdAt None (with_date submitted b))))
  ∧ (isBooking p = true → now - submitted <= 60000 →
     handleSubmit LocalTZA now p (loadForm LocalTZA b)
     = OnSave (mkBill (id b) (with_date submitted b)))
  ∧ (isBooking p = true → now - submitted > 60000 →
     handleSubmit LocalTZA now p (loadForm LocalTZA b) = Blocked BookingInThePast false).
Proof.
  intros Hbill Hname Hnonblank Hitems Hrows Hnote Hn Htotal submitted.
  assert (Hloaded : s_items (loadForm LocalTZA b) = items b).
  { unfold loadForm. cbn [s_items]. apply map_id_on. intros item Hitem.
    destruct (Hrows item Hitem) as [_ Hq].
    destruct (Z.eqb_spec (quantity item) 0) as [E|_]; [done|]. by destruct item. }
  assert (Hfinal : List.filter (fun item => truthy (serviceId item))
                     (s_items (loadForm LocalTZA b)) = items b).
  { rewrite Hloaded. apply filter_true_all. intros item Hitem.
    apply BillEditorFacts.truthy_true. by destruct (Hrows item Hitem). }
  assert (Hcalc : calculateTotal (loadForm LocalTZA b) = total b).
  { rewrite Htotal. unfold calculateTotal, calculateDiscountAmount, discountAmount.
    rewrite BillEditorFacts.calculateSubtotal_sum, Hloaded.
    unfold loadForm. cbn [s_discountType s_discountValue].
    by destruct (discountType b). }
  assert (Hid : or_else (from_option id "" (bill p)) "" = id b).
  { rewrite Hbill. simpl. unfold or_else. by destruct (truthy (id b)) eqn:E;
      [|apply BillEditorFacts.truthy_false in E]. }
  assert (Hlen : (length (items b) =? 0)%nat = false).
  { destruct (items b); [done|]. done. }
  assert (Hgo : ∀ late : bool,
            (isBooking p && (submitted <? now) && (now - submitted >? 60000)) = late →
            handleSubmit LocalTZA now p (loadForm LocalTZA b)
            = if late then Blocked BookingInThePast false
              else OnSave
                     (mkBill (id b)
                        (mkBillData (customerName b) submitted (items b) (total b)
                           (discountValue b) (discountType b) (Some n)
                           (match isBooking p, bill p with
                            | true, Some b0 => createdAt b0
                            | _, _ => None
                            end)))).
  { intros late Hlate. unfold handleSubmit. rewrite Hfinal, Hcalc, Hid, Hlen.
    fold submitted. rewrite Hlate.
    change (s_customerName (loadForm LocalTZA b)) with (customerName b).
    change (s_note (loadForm LocalTZA b)) with (default "" (note b)).
    change (s_discountValue (loadForm LocalTZA b)) with (discountValue b).
    change (s_discountType (loadForm LocalTZA b)) with (discountType b).
    rewrite Hname, Hnote. cbn [from_option]. unfold Datatypes.id. rewrite Hn.
    apply BillEditorFacts.truthy_true in Hnonblank. rewrite Hnonblank. done. }
  split; [|split].
  - intros Hmode. rewrite (Hgo false) by (by rewrite Hmode).
    rewrite Hmode. unfold with_createdAt, with_date. simpl. by rewrite Hnote.
  - intros Hmode Hlate. rewrite (Hgo false).
    + rewrite Hmode, Hbill. unfold with_date. simpl. by rewrite Hnote.
    + rewrite Hmode. simpl. destruct (submitted <? now); [|done]. simpl.
      rewrite Z.gtb_ltb. apply Z.ltb_ge. lia.
  - intros Hmode Hlate. rewrite (Hgo true); [done|].
    rewrite Hmode. simpl.
    replace (submitted <? now) with true by (symmetry; apply Z.ltb_lt; lia).
    simpl. rewrite Z.gtb_ltb. apply Z.ltb_lt. lia.
Qed.

Lemma resubmitting_witness :
  handleSubmit Samples.indochina 0 MoreSamples.earlyBillProps
    (loadForm Samples.indochina MoreSamples.earlyBill)
  = OnSave
      (mkBill "bill-7"
         (with_createdAt None
            (with_date (finalDate Samples.indochina
                          (loadForm Samples.indochina MoreSamples.earlyBill))
               MoreSamples.earlyBill))).
Proof.
  refine (proj1 (resubmitting_an_untouched_record Samples.indochina 0
                   MoreSamples.earlyBillProps MoreSamples.earlyBill ""
                   eq_refl eq_refl _ _ _ eq_refl eq_refl eq_refl) eq_refl).
  - discriminate.
  - discriminate.
  - intros item Hitem. apply list_elem_of_singleton in Hitem as ->. split; discriminate.
Defined.

End ReopenFacts.

Module DateMore.
Import JS JSDate DateUtils Dashboard DateUtilsMore.

Lemma YearFromTime_Day t1 t2 : Day t1 = Day t2 → YearFromTime t1 = YearFromTime t2.
Proof. intros H. unfold YearFromTime. by rewrite H. Qed.

Lemma MonthFromTime_Day t1 t2 : Day t1 = Day t2 → MonthFromTime t1 = MonthFromTime t2.
Proof.
  intros H. unfold MonthFromTime, DayWithinYear, InLeapYear.
  by rewrite (YearFromTime_Day _ _ H), H.
Qed.

Lemma DateFromTime_Day t1 t2 : Day t1 = Day t2 → DateFromTime t1 = DateFromTime t2.
Proof.
  intros H. unfold DateFromTime, DayWithinYear, InLeapYear.
  by rewrite (YearFromTime_Day _ _ H), (MonthFromTime_Day _ _ H), H.
Qed.

(** Year, month and day of month determine the day. *)
Lemma same_calendar_day t1 t2 :
  DateFromTime t1 = DateFromTime t2 ∧ MonthFromTime t1 = MonthFromTime t2
  ∧ YearFromTime t1 = YearFromTime t2
  ↔ Day t1 = Day t2.
Proof.
  split.
  - intros (Hd & Hm & Hy).
    pose proof (DateFacts.MakeDay_DateFromTime t1 0) as H1.
    pose proof (DateFacts.MakeDay_DateFromTime t2 0) as H2.
    rewrite Hd, Hm, Hy in H1. lia.
  - intros H. by rewrite (DateFromTime_Day _ _ H), (MonthFromTime_Day _ _ H),
      (YearFromTime_Day _ _ H).
Qed.

Lemma isToday_Day LocalTZA today date :
  isToday LocalTZA today date = true
  ↔ Day (LocalTime LocalTZA date) = Day (LocalTime LocalTZA today).
Proof.
  unfold isToday, getDate, getMonth, getFullYear.
  rewrite !andb_true_iff, !Z.eqb_eq, <- same_calendar_day. tauto.
Qed.

Lemma Day_bounds t : Day t * msPerDay <= t < (Day t + 1) * msPerDay.
Proof.
  unfold Day, msPerDay.
  pose proof (Z.div_mod t 86400000 ltac:(lia)).
  pose proof (Z.mod_pos_bound t 86400000 ltac:(lia)). lia.
Qed.

Lemma Day_unique t n : n * msPerDay <= t < (n + 1) * msPerDay → Day t = n.
Proof.
  intros H. unfold Day, msPerDay in *. symmetry.
  apply (Z.div_unique_pos t 86400000 n (t - n * 86400000)); lia.
Qed.

Lemma isToday_window LocalTZA today date :
  isToday LocalTZA today date = true
  ↔ setHours LocalTZA today 0 0 0 0 <= date < setHours LocalTZA today 0 0 0 0 + msPerDay.
Proof.
  rewrite isToday_Day, DateFacts.setHours_midnight.
  set (n := Day (LocalTime LocalTZA today)). split.
  - intros H. pose proof (Day_bounds (LocalTime LocalTZA date)) as Hb.
    rewrite H in Hb. unfold LocalTime in Hb. lia.
  - intros H. apply Day_unique. unfold LocalTime. lia.
Qed.

Lemma isToday_within LocalTZA today date :
  isToday LocalTZA today date = true →
  isWithinThisWeek LocalTZA today date = true
  ∧ isWithinThisMonth LocalTZA today date = true.
Proof.
  intros Hdate. split.
  - apply isToday_window in Hdate. rewrite DateFacts.setHours_midnight in Hdate.
    unfold isWithinThisWeek. rewrite DateFacts.endOfWeek_eq, DateFacts.startOfWeek_eq.
    destruct (DateFacts.currentDay_range LocalTZA today) as [Hcd _].
    apply andb_true_iff. rewrite Z.leb_le, Z.ltb_lt. unfold msPerDay in *. lia.
  - apply isToday_Day in Hdate. unfold isWithinThisMonth, getMonth, getFullYear.
    rewrite (MonthFromTime_Day _ _ Hdate), (YearFromTime_Day _ _ Hdate), !Z.eqb_refl. done.
Qed.

(** X13. [isToday] holds exactly of the instants of today's local calendar
    day, from its midnight (today's date with the hours set to 0) up to, not
    including, the next one; what is today is within this week and within
    this month. *)
Theorem isToday_is_the_local_day (LocalTZA today : Z) :
  let midnight := setHours LocalTZA today 0 0 0 0 in
  (∀ date, isToday LocalTZA today date = true ↔ midnight <= date < midnight + msPerDay)
  ∧ isToday LocalTZA today today = true
  ∧ (∀ date, isToday LocalTZA today date = true →
             isWithinThisWeek LocalTZA today date = true
             ∧ isWithinThisMonth LocalTZA today date = true).
Proof.
  intros midnight. split; [intros date; apply isToday_window|].
  split; [by apply isToday_Day | intros date; apply isToday_within].
Qed.

Lemma sum_filter_le (f g : Bill → bool) (l : list Bill) :
  (∀ b : Bill, b ∈ l → 0 <= total b) → (∀ b, f b = true → g b = true) →
  0 <= fold_right Z.add 0 (map (fun bill : Bill => total bill) (List.filter f l))
    <= fold_right Z.add 0 (map (fun bill : Bill => total bill) (List.filter g l)).
Proof.
  intros Hpos Himp. induction l as [|x l IH]; simpl; [lia|].
  assert (Hx : 0 <= total x) by apply Hpos, list_elem_of_here.
  assert (Hl : ∀ b : Bill, b ∈ l → 0 <= total b).
  { intros b Hb. by apply Hpos, list_elem_of_further. }
  specialize (IH Hl).
  destruct (f x) eqn:Ef.
  - rewrite (Himp x Ef). simpl. lia.
  - destruct (g x); simpl; lia.
Qed.

(** X14. With no negative total among the bills, today's revenue is at
    least 0 and at most this week's revenue and at most this month's. *)
Theorem revenueToday_at_most_week_and_month (LocalTZA today : Z) (bills : list Bill) :
  (∀ b : Bill, b ∈ bills → 0 <= total b) →
  0 <= revenueToday LocalTZA today bills <= revenueThisWeek LocalTZA today bills
  ∧ revenueToday LocalTZA today bills <= revenueThisMonth LocalTZA today bills.
Proof.
  intros Hpos. unfold revenueToday, revenueThisWeek, revenueThisMonth.
  rewrite !DateFacts.sum_totals_fold_left.
  pose proof (isToday_within LocalTZA today) as Himp.
  pose proof (sum_filter_le (fun bill : Bill => isToday LocalTZA today (date bill))
                (fun bill : Bill => isWithinThisWeek LocalTZA today (date bill)) bills Hpos
                (fun b H => proj1 (Himp _ H))) as Hw.
  pose proof (sum_filter_le (fun bill : Bill => isToday LocalTZA today (date bill))
                (fun bill : Bill => isWithinThisMonth LocalTZA today (date bill)) bills Hpos
                (fun b H => proj2 (Himp _ H))) as Hm.
  lia.
Qed.

Lemma revenueToday_witness :
  0 <= revenueToday Samples.indochina Samples.noon Samples.annaBills
    <= revenueThisWeek Samples.indochina Samples.noon Samples.annaBills.
Proof.
  refine (proj1 (revenueToday_at_most_week_and_month Samples.indochina Samples.noon
                   Samples.annaBills _)).
  intros b Hb. apply elem_of_cons in Hb as [->|Hb]; [simpl; lia|].
  apply list_elem_of_singleton in Hb as ->. simpl. lia.
Defined.

(** X15. The label of a bill in the list counts local calendar days: with
    [k] the number of days from the bill's local day to today's, the label
    is "Hôm nay" for 0, "Hôm qua" for 1, "[k] ngày trước" for 2 to 6, and
    the month and year of the bill's local day otherwise, that is for a week
    back or more and for every later day.  "Hôm nay" is the label exactly
    of the bills [isToday] holds of. *)
Theorem getBillDateCategory_counts_local_days (LocalTZA today date : Z) :
  let k := Day (LocalTime LocalTZA today) - Day (LocalTime LocalTZA date) in
  getBillDateCategory LocalTZA today date
  = (if k =? 0 then "Hôm nay"
     else if k =? 1 then "Hôm qua"
     else if (2 <=? k) && (k <=? 6) then pretty k +:+ " ngày trước"
     else "Tháng " +:+ pretty (getMonth LocalTZA date + 1) +:+ "/"
          +:+ pretty (getFullYear LocalTZA date))
  ∧ (getBillDateCategory LocalTZA today date = "Hôm nay"
     ↔ isToday LocalTZA today date = true).
Proof.
  intros k.
  assert (Hdiff : Math_ceil_ratio
                    (setHours LocalTZA today 0 0 0 0 - setHours LocalTZA date 0 0 0 0)
                    (1000 * 60 * 60 * 24) = k).
  { rewrite !DateFacts.setHours_midnight. unfold Math_ceil_ratio, msPerDay.
    replace (- (Day (LocalTime LocalTZA today) * 86400000 - LocalTZA
                - (Day (LocalTime LocalTZA date) * 86400000 - LocalTZA)))
      with ((- k) * 86400000) by lia.
    change (1000 * 60 * 60 * 24) with 86400000. rewrite Z.div_mul by lia. lia. }
  assert (Hsame : Day (LocalTime LocalTZA (setHours LocalTZA date 0 0 0 0))
                  = Day (LocalTime LocalTZA date)).
  { rewrite DateFacts.setHours_midnight. apply DateFacts.Day_of_midnight. }
  assert (Heq : getBillDateCategory LocalTZA today date
                = (if k =? 0 then "Hôm nay"
                   else if k =? 1 then "Hôm qua"
                   else if (2 <=? k) && (k <=? 6) then pretty k +:+ " ngày trước"
                   else "Tháng " +:+ pretty (getMonth LocalTZA date + 1) +:+ "/"
                        +:+ pretty (getFullYear LocalTZA date))).
  { unfold getBillDateCategory. rewrite Hdiff. unfold getMonth, getFullYear.
    rewrite (MonthFromTime_Day _ _ Hsame), (YearFromTime_Day _ _ Hsame).
    replace ((k <? 7) && (k >? 1)) with ((2 <=? k) && (k <=? 6)); [done|].
    rewrite Z.gtb_ltb.
    destruct (Z.leb_spec 2 k), (Z.leb_spec k 6), (Z.ltb_spec k 7), (Z.ltb_spec 1 k);
      simpl; try done; lia. }
  split; [done|].
  rewrite Heq, isToday_Day.
  destruct (Z.eqb_spec k 0) as [E|E]; [split; [lia | done]|].
  split; [|lia]. intros Hlabel. exfalso.
  destruct (Z.eqb_spec k 1) as [E1|E1]; [discriminate Hlabel|].
  destruct ((2 <=? k) && (k <=? 6)) eqn:Ek; [|discriminate Hlabel].
  apply andb_true_iff in Ek as [E2 E6]. apply Z.leb_le in E2, E6.
  assert (Hk : k = 2 ∨ k = 3 ∨ k = 4 ∨ k = 5 ∨ k = 6) by lia.
  destruct Hk as [Hk|[Hk|[Hk|[Hk|Hk]]]]; rewrite Hk in Hlabel; discriminate Hlabel.
Qed.

(** Seen at noon of the sample day: a bill of two days before, and one of
    eight days later. *)
Example getBillDateCategory_examples :
  getBillDateCategory Samples.indochina Samples.noon (Samples.noon - 48 * Samples.hour)
  = "2 ngày trước"
  ∧ getBillDateCategory Samples.indochina Samples.noon (Samples.noon + 192 * Samples.hour)
    = "Tháng 1/1970".
Proof. split; reflexivity. Qed.

End DateMore.

Module ProfileFacts.
Import JS Collections Customers CustomerList CustomerModals.








(** X17. Renaming a profile does not rename the customer's bills.  When
    the edit form of a profile is saved with a name that normalises to
    another key, and no other profile has the old key, the bills under the
    old name come back in the view as a customer without id, phone or
    birthday, carrying the old figures, and the profile's entry carries the
    figures of the bills under the new name. *)
Theorem renaming_a_profile_leaves_its_bills_behind
    (bills : list Bill) (customers : list Customer) (c : Customer)
    (newId : string) (data : CustomerData) :
  c ∈ customers →
  customer_id c ≠ "" →
  (∀ c', c' ∈ customers → customer_id c' ≠ customer_id c →
         normalized (customer_name c') ≠ normalized (customer_name c)) →
  billsOf (normalized (customer_name c)) bills ≠ [] →
  normalized (data_name data) ≠ normalized (customer_name c) →
  let old := normalized (customer_name c) in
  let renamed :=
    mkCustomer (customer_id c) (data_name data) (data_phone data) (data_dob data) in
  let customers' := handleSaveEdit (manualStat bills c) newId data customers in
  customers' = updateCustomer renamed customers
  ∧ manualStat bills renamed ∈ customerStats bills customers'
  ∧ billOnly bills old ∈ customerStats bills customers'
  ∧ stat_id (billOnly bills old) = None
  ∧ totalSpent (billOnly bills old) = totalSpent (manualStat bills c)
  ∧ visitHistory (billOnly bills old) = visitHistory (manualStat bills c)
  ∧ totalSpent (manualStat bills renamed) = spentOf (normalized (data_name data)) bills.
Proof.
  intros Hc Hid Hothers Hbills Hnew old renamed customers'.
  assert (Hc' : customers' = updateCustomer renamed customers).
  { subst customers'. unfold handleSaveEdit. cbn [manualStat stat_id].
    apply BillEditorFacts.truthy_true in Hid. by rewrite Hid. }
  assert (Hin : renamed ∈ updateCustomer renamed customers).
  { unfold updateCustomer. apply list_elem_of_fmap. exists c. split; [|done].
    by rewrite String.eqb_refl. }
  assert (Hkeys : isCustomerKey (updateCustomer renamed customers) old = false).
  { unfold isCustomerKey. apply not_true_is_false. intros Hex.
    apply existsb_exists in Hex as (x & Hx & Heq). apply String.eqb_eq in Heq.
    apply list_elem_of_In in Hx. unfold updateCustomer in Hx.
    apply list_elem_of_fmap in Hx as (y & -> & Hy).
    destruct (String.eqb_spec (customer_id y) (customer_id renamed)) as [E|E].
    - apply Hnew. symmetry. exact Heq.
    - apply (Hothers y Hy E). symmetry. exact Heq. }
  split; [done|]. rewrite Hc', !CascadeMore.customerStats_perm_specView. unfold specView.
  split; [|split].
  - apply elem_of_app. left. apply list_elem_of_fmap. by exists renamed.
  - apply elem_of_app. right. apply list_elem_of_fmap. exists old. split; [done|].
    apply NotifierFacts.elem_of_filter_bool. split; [|by rewrite Hkeys].
    apply CustomerListFacts.billKeys_elem.
    by apply CustomerListFacts.billsOf_nonempty in Hbills.
  - done.
Qed.

Lemma renaming_a_profile_witness :
  billOnly Samples.annaBills "anna"
  ∈ customerStats Samples.annaBills
      (handleSaveEdit (manualStat Samples.annaBills Samples.annaProfile) "cust-9"
         (mkCustomerData "Hanna" (Some "0900") (Some "")) MoreSamples.annaCustomers).
Proof.
  refine (proj1 (proj2 (proj2 (renaming_a_profile_leaves_its_bills_behind
                                 Samples.annaBills MoreSamples.annaCustomers
                                 Samples.annaProfile "cust-9"
                                 (mkCustomerData "Hanna" (Some "0900") (Some ""))
                                 _ _ _ _ _)))).
  - apply list_elem_of_here.
  - discriminate.
  - intros c' Hc' Hne. apply elem_of_cons in Hc' as [->|Hc']; [done|].
    apply list_elem_of_singleton in Hc' as ->. discriminate.
  - discriminate.
  - discriminate.
Defined.

End ProfileFacts.

Module EditorInvariantFacts.
Import JS Collections BillEditor EditorRows EditorInvariant.

Lemma find_ext {A} (f g : A → bool) (l : list A) :
  (∀ x, f x = g x) → find f l = find g l.
Proof. intros H. induction l as [|x l IH]; simpl; [done|]. by rewrite H, IH. Qed.

Lemma find_by_name (name : string) (vs : list Variant) (variant : Variant) :
  find (fun v => String.eqb (variant_name v) name) vs = Some variant →
  find (fun v => bool_decide (Some (variant_name v) = Some (variant_name variant))) vs
  = Some variant.
Proof.
  intros H. assert (Hn : variant_name variant = name).
  { apply find_some in H as [_ H]. by apply String.eqb_eq in H. }
  rewrite <- H. apply find_ext. intros x. rewrite Hn.
  destruct (String.eqb_spec (variant_name x) name) as [->|Hne].
  - by apply bool_decide_eq_true.
  - apply bool_decide_eq_false. congruence.
Qed.

Lemma rowsPriced_insert services rows index item :
  rowsPriced services rows → rowPriced services item →
  rowsPriced services (<[index := item]> rows).
Proof.
  intros Hrows Hitem x Hx. apply list_elem_of_lookup in Hx as [j Hj].
  apply list_lookup_insert_Some in Hj as [(_ & -> & _)|[_ Hj]]; [done|].
  apply Hrows, list_elem_of_lookup. by exists j.
Qed.

Lemma handleQuantityChange_rowsPriced p index value st :
  (∀ service, service ∈ services p → service_id service ≠ "") →
  rowsPriced (services p) (s_items st) →
  rowsPriced (services p) (s_items (handleQuantityChange p index value st)).
Proof.
  intros Hids Hrows. unfold handleQuantityChange.
  destruct (s_items st !! index) as [it|] eqn:Hit; [|done].
  destruct (findService (services p) (serviceId it)) as [service|] eqn:Hf; [|done].
  cbn [s_items setItems]. apply rowsPriced_insert; [done|].
  right. exists service. cbn [serviceId item_name price quantity variantName].
  split; [done|]. split; [|done].
  destruct (Hrows it) as [[Hid _]|(service' & Hf' & Hname & _)].
  - apply list_elem_of_lookup. by exists index.
  - apply BillEditorFacts.findService_id in Hf as Hsid.
    apply BillEditorFacts.findService_In, Hids in Hf. congruence.
  - congruence.
Qed.

Lemma editorStep_rowsPriced p st ev :
  (∀ service, service ∈ services p → service_id service ≠ "") →
  (∀ service, service ∈ services p → priceType service = fixed → variants service = None) →
  rowsPriced (services p) (s_items st) →
  rowsPriced (services p) (s_items (editorStep p st ev)).
Proof.
  intros Hids Hfixed Hrows.
  destruct ev; simpl; try done.
  - unfold handleItemChange.
    destruct (findService (services p) selectedServiceId) as [service|] eqn:Hf; [|done].
    destruct (s_items st !! index) as [it|]; [|done].
    cbn [s_items setItems]. apply rowsPriced_insert; [done|].
    right. exists service.
    apply BillEditorFacts.findService_id in Hf as Hid. rewrite <- Hid in Hf.
    unfold unitPrice.
    destruct (priceType service) eqn:Ept, (variants service) as [[|v vs]|] eqn:Ev;
      cbn [serviceId item_name price quantity variantName]; rewrite ?Ept, ?Ev;
      repeat split; try done; try lia.
    + cbn [find]. lia.
    + cbn [find]. rewrite bool_decide_eq_true_2 by done. lia.
  - unfold handleVariantChange.
    destruct (s_items st !! index) as [it|] eqn:Hit; [|done].
    destruct (findService (services p) (serviceId it)) as [service|] eqn:Hf; [|done].
    destruct (variants service) as [vs|] eqn:Ev; [|done].
    destruct (find _ vs) as [variant|] eqn:Hv; [|done].
    cbn [s_items setItems]. apply rowsPriced_insert; [done|].
    right. exists service. cbn [serviceId item_name price quantity variantName].
    split; [done|]. split.
    + destruct (Hrows it) as [[Hid _]|(service' & Hf' & Hname & _)].
      * apply list_elem_of_lookup. by exists index.
      * apply BillEditorFacts.findService_id in Hf as Hsid.
        apply BillEditorFacts.findService_In, Hids in Hf. congruence.
      * congruence.
    + unfold unitPrice. rewrite Ev.
      destruct (priceType service) eqn:Ept.
      * apply BillEditorFacts.findService_In in Hf.
        rewrite (Hfixed service Hf Ept) in Ev. discriminate Ev.
      * by rewrite (find_by_name _ _ _ Hv).
  - by apply handleQuantityChange_rowsPriced.
  - unfold handleQuantityBlur. destruct (s_items st !! index); [|done].
    destruct (_ || _); [by apply handleQuantityChange_rowsPriced | done].
  - intros x [Hx|Hx]%elem_of_app; [by apply Hrows|].
    apply list_elem_of_singleton in Hx as ->. by left.
  - intros x Hx. apply Hrows. by eapply list_elem_of_delete_inv.
Qed.

(** X18. However a new bill or booking is worked on in the editor, its
    rows stay priced by the catalogue, provided no service of the catalogue
    has an empty id and none priced as fixed carries variants: a row either
    has no service and price 0, or has a service of the catalogue, that
    service's name, and as price the unit price (of the row's variant for a
    service priced by variant, of the service otherwise) times the row's
    quantity.  So the subtotal the form shows is the sum of unit price times
    quantity over its rows. *)
Theorem editor_rows_stay_priced_by_the_catalogue
    (p : Props) (events : list Event) (tempId : string) (day : Z) (time : Z * Z) :
  (∀ service, service ∈ services p → service_id service ≠ "") →
  (∀ service, service ∈ services p → priceType service = fixed → variants service = None) →
  let st := fold_left (editorStep p) events (freshForm tempId day time) in
  rowsPriced (services p) (s_items st)
  ∧ calculateSubtotal st
    = fold_right Z.add 0
        (map (fun item =>
                match findService (services p) (serviceId item) with
                | Some service => unitPrice service (variantName item) * quantity item
                | None => 0
                end) (s_items st)).
Proof.
  intros Hids Hfixed st.
  assert (Hinv : ∀ evs st0, rowsPriced (services p) (s_items st0) →
                   rowsPriced (services p) (s_items (fold_left (editorStep p) evs st0))).
  { induction evs as [|ev evs IH]; intros st0 H0; simpl; [done|].
    apply IH. by apply editorStep_rowsPriced. }
  assert (Hrows : rowsPriced (services p) (s_items st)).
  { apply Hinv. intros x Hx. apply list_elem_of_singleton in Hx as ->. by left. }
  split; [done|].
  rewrite BillEditorFacts.calculateSubtotal_sum.
  revert Hrows. generalize (s_items st). intros rows Hrows.
  induction rows as [|x rows IH]; simpl; [done|].
  rewrite IH by (intros y Hy; by apply Hrows, list_elem_of_further).
  f_equal. destruct (Hrows x (list_elem_of_here _ _)) as [[Hid H0]|(service & Hf & _ & Hp)].
  - destruct (findService (services p) (serviceId x)) as [service|] eqn:Hf; [|done].
    apply BillEditorFacts.findService_id in Hf as Hsid.
    apply BillEditorFacts.findService_In, Hids in Hf. congruence.
  - by rewrite Hf.
Qed.

Lemma editor_rows_witness :
  calculateSubtotal
    (fold_left (editorStep MoreSamples.variantProps) MoreSamples.threeLong
       (freshForm "temp-1" 19000 (10, 30)))
  = 360000.
Proof.
  assert (Hids : ∀ service, service ∈ services MoreSamples.variantProps →
                            service_id service ≠ "").
  { intros service Hs. apply elem_of_cons in Hs as [->|Hs]; [discriminate|].
    apply list_elem_of_singleton in Hs as ->. discriminate. }
  assert (Hfixed : ∀ service, service ∈ services MoreSamples.variantProps →
                              priceType service = fixed → variants service = None).
  { intros service Hs Hfix. apply elem_of_cons in Hs as [->|Hs]; [done|].
    apply list_elem_of_singleton in Hs as ->. discriminate Hfix. }
  rewrite (proj2 (editor_rows_stay_priced_by_the_catalogue MoreSamples.variantProps
                    MoreSamples.threeLong "temp-1" 19000 (10, 30) Hids Hfixed)).
  reflexivity.
Defined.

End EditorInvariantFacts.

Module BillListFacts.
Import JS JSDate DateUtilsMore CustomerList App BillList.

Lemma includes_empty s : includes s "" = true.
Proof. by destruct s. Qed.

(** The sort by date is stable: the bookings of any one date come out in
    the order they went in. *)
Lemma sort_insert_by_date_stable (x : Booking) (l : list Booking) (d : Z) :
  List.filter (fun b : Booking => date b =? d)
    (sort_insert (fun a b : Booking => date a - date b) x l)
  = List.filter (fun b : Booking => date b =? d) (x :: l).
Proof.
  induction l as [|y l IH]; [done|]. cbn [sort_insert].
  destruct (Z.leb_spec (date x - date y) 0) as [Hle|Hgt]; [done|].
  cbn [List.filter] in *. rewrite IH.
  destruct (Z.eqb_spec (date y) d) as [Ey|Ey], (Z.eqb_spec (date x) d) as [Ex|Ex];
    try done; lia.
Qed.

Lemma Array_sort_by_date_stable (l : list Booking) (d : Z) :
  List.filter (fun b : Booking => date b =? d)
    (Array_sort (fun a b : Booking => date a - date b) l)
  = List.filter (fun b : Booking => date b =? d) l.
Proof.
  induction l as [|x l IH]; [done|].
  change (Array_sort (fun a b : Booking => date a - date b) (x :: l))
    with (sort_insert (fun a b : Booking => date a - date b) x
            (Array_sort (fun a b : Booking => date a - date b) l)).
  rewrite sort_insert_by_date_stable. cbn [List.filter]. by rewrite IH.
Qed.

(** X19. The bookings tab lists the bookings whose customer name contains
    the search text, letter case ignored, ordered by date with the soonest
    first and bookings of equal date in their old order; with an empty
    search text these are all the bookings.  The page shows the first
    [visibleCount] of the list, and more can be loaded exactly when some of
    the list is not shown. *)
Theorem bookings_tab_lists_matches_soonest_first
    (searchTerm : string) (bookings : list Booking) (visibleCount : nat) :
  let shown := filteredBookings searchTerm bookings in
  let matches (booking : Booking) :=
    includes (toLowerCase (customerName booking)) (toLowerCase searchTerm) in
  shown ≡ₚ List.filter matches bookings
  ∧ StronglySorted (fun a b : Booking => date a <= date b) shown
  ∧ (∀ d, List.filter (fun b : Booking => date b =? d) shown
          = List.filter (fun b : Booking => date b =? d) (List.filter matches bookings))
  ∧ (StronglySorted (fun a b : Booking => date a <= date b) bookings →
     shown = List.filter matches bookings)
  ∧ filteredBookings "" bookings ≡ₚ bookings
  ∧ filteredBookings (toLowerCase searchTerm) bookings = shown
  ∧ (∃ hidden, shown = visibleItems shown visibleCount ++ hidden
               ∧ length (visibleItems shown visibleCount)
                 = Nat.min visibleCount (length shown)
               ∧ (hasMore shown visibleCount = true ↔ hidden ≠ [])).
Proof.
  intros shown matches.
  set (compare := fun a b : Booking => date a - date b).
  assert (Htotal : ∀ x y, compare x y > 0 → compare y x <= 0)
    by (unfold compare; lia).
  assert (Htrans : ∀ x y z, compare x y <= 0 → compare y z <= 0 → compare x z <= 0)
    by (unfold compare; lia).
  assert (Hiff : ∀ l : list Booking,
            StronglySorted (fun a b => compare a b <= 0) l
            ↔ StronglySorted (fun a b : Booking => date a <= date b) l).
  { intros l. split; apply CustomerListFacts.StronglySorted_iff; intros a b;
      unfold compare; lia. }
  split; [apply CustomerListFacts.Array_sort_perm|].
  split; [apply Hiff, CustomerListFacts.Array_sort_sorted; done|].
  split; [intros d; apply Array_sort_by_date_stable|].
  split.
  { intros Hsorted. apply CustomerListFacts.Array_sort_of_sorted, Hiff.
    clear -Hsorted. induction Hsorted as [|x l Hl IH Hx]; simpl; [constructor|].
    destruct (matches x); [|done]. constructor; [done|].
    apply List.Forall_forall. intros y Hy. apply filter_In in Hy as [Hy _].
    rewrite List.Forall_forall in Hx. by apply Hx. }
  split.
  { unfold filteredBookings. rewrite CustomerListFacts.Array_sort_perm.
    rewrite (ReopenFacts.filter_true_all _ bookings); [done|].
    intros x _. apply includes_empty. }
  split.
  { unfold shown, filteredBookings. by rewrite StringFacts.toLowerCase_idem. }
  exists (drop visibleCount shown). unfold visibleItems, hasMore.
  split; [by rewrite take_drop|]. split; [apply length_take|].
  rewrite Nat.ltb_lt. split.
  - intros Hlt Hnil. apply (f_equal length) in Hnil. rewrite length_drop in Hnil.
    simpl in Hnil. lia.
  - intros Hne. destruct (Nat.lt_ge_cases visibleCount (length shown)) as [|Hge]; [done|].
    destruct Hne. by apply drop_ge.
Qed.

(** Two bookings for the same time keep their order behind an earlier
    one. *)
Example filteredBookings_keeps_the_order_of_equal_dates :
  filteredBookings ""
    [Samples.booking "b2" Samples.noon; Samples.booking "b1" Samples.noon;
     Samples.booking "b3" (Samples.noon - Samples.hour)]
  = [Samples.booking "b3" (Samples.noon - Samples.hour);
     Samples.booking "b2" Samples.noon; Samples.booking "b1" Samples.noon].
Proof. reflexivity. Qed.

(** *** Grouping *)

Section Grouping.
Context {A : Type} (category : A → string).

Lemma grouped_snoc items x :
  grouped category (items ++ [x]) = pushInto (category x) x (grouped category items).
Proof. unfold grouped. by rewrite fold_left_app. Qed.

Lemma pushInto_keys (k : string) (x : A) acc :
  map fst (pushInto k x acc)
  = if bool_decide (k ∈ map fst acc) then map fst acc else map fst acc ++ [k].
Proof. unfold pushInto. destruct (Map_get k acc); apply CustomerListFacts.Map_set_keys. Qed.

Lemma grouped_keys items : map fst (grouped category items) = Set_of (map category items).
Proof.
  induction items as [|x items IH] using rev_ind; [done|].
  rewrite grouped_snoc, pushInto_keys, IH, map_app. unfold Set_of.
  by rewrite fold_left_app.
Qed.

Lemma grouped_get items label :
  Map_get label (grouped category items)
  = match List.filter (fun x => String.eqb (category x) label) items with
    | [] => None
    | group => Some group
    end.
Proof.
  induction items as [|x items IH] using rev_ind; [done|].
  rewrite grouped_snoc, List.filter_app. cbn [List.filter].
  unfold pushInto.
  destruct (String.eqb_spec (category x) label) as [->|Hne].
  - rewrite IH.
    destruct (List.filter _ items) as [|y group]; rewrite CustomerListFacts.Map_get_set_eq;
      done.
  - rewrite app_nil_r.
    destruct (Map_get (category x) (grouped category items));
      by rewrite CustomerListFacts.Map_get_set_ne.
Qed.

End Grouping.

Lemma bookingCategory_days LocalTZA today date :
  let k := Day (LocalTime LocalTZA date) - Day (LocalTime LocalTZA today) in
  bookingCategory LocalTZA today date
  = (if k =? 0 then "Hôm nay"
     else if k =? 1 then "Ngày mai"
     else pretty (getDate LocalTZA date) +:+ "/" +:+ pretty (getMonth LocalTZA date + 1)
          +:+ "/" +:+ pretty (getFullYear LocalTZA date)).
Proof.
  intros k. unfold bookingCategory.
  rewrite DateFacts.setDate_getDate, !DateFacts.setHours_midnight.
  assert (Hsame : Day (LocalTime LocalTZA
                         (Day (LocalTime LocalTZA date) * msPerDay - LocalTZA))
                  = Day (LocalTime LocalTZA date))
    by apply DateFacts.Day_of_midnight.
  unfold getDate, getMonth, getFullYear.
  rewrite (DateMore.DateFromTime_Day _ _ Hsame), (DateMore.MonthFromTime_Day _ _ Hsame),
    (DateMore.YearFromTime_Day _ _ Hsame).
  replace (Day (LocalTime LocalTZA date) * msPerDay - LocalTZA
           =? Day (LocalTime LocalTZA today) * msPerDay - LocalTZA) with (k =? 0).
  2:{ unfold msPerDay. destruct (Z.eqb_spec k 0), (Z.eqb_spec
        (Day (LocalTime LocalTZA date) * 86400000 - LocalTZA)
        (Day (LocalTime LocalTZA today) * 86400000 - LocalTZA)); try done; lia. }
  replace (Day (LocalTime LocalTZA date) * msPerDay - LocalTZA
           =? Day (LocalTime LocalTZA today) * msPerDay - LocalTZA + 1 * msPerDay)
    with (k =? 1); [done|].
  unfold msPerDay. destruct (Z.eqb_spec k 1), (Z.eqb_spec
    (Day (LocalTime LocalTZA date) * 86400000 - LocalTZA)
    (Day (LocalTime LocalTZA today) * 86400000 - LocalTZA + 1 * 86400000)); try done; lia.
Qed.

(** X20. The two tabs group what they show by label.  The groups are
    listed in the order in which their labels first occur among the shown
    records; the group of a label holds exactly the shown records with that
    label, in their order, and a label with no record has no group.  A
    booking's label is "Hôm nay" when its local day is today's, "Ngày mai"
    when it is the day after, and day/month/year of its local day otherwise,
    also for a day that has passed. *)
Theorem list_groups_partition_the_shown_records
    (LocalTZA today : Z) (shownBills : list Bill) (shownBookings : list Booking) :
  let billLabel (bill : Bill) := getBillDateCategory LocalTZA today (date bill) in
  let bookingLabel (booking : Booking) := bookingCategory LocalTZA today (date booking) in
  map fst (groupedBills LocalTZA today shownBills) = Set_of (map billLabel shownBills)
  ∧ NoDup (map fst (groupedBills LocalTZA today shownBills))
  ∧ (∀ label,
       Map_get label (groupedBills LocalTZA today shownBills)
       = match List.filter (fun bill => String.eqb (billLabel bill) label) shownBills with
         | [] => None
         | group => Some group
         end)
  ∧ map fst (groupedBookings LocalTZA today shownBookings)
    = Set_of (map bookingLabel shownBookings)
  ∧ NoDup (map fst (groupedBookings LocalTZA today shownBookings))
  ∧ (∀ label,
       Map_get label (groupedBookings LocalTZA today shownBookings)
       = match List.filter (fun booking => String.eqb (bookingLabel booking) label)
                 shownBookings with
         | [] => None
         | group => Some group
         end)
  ∧ (∀ date,
       let k := Day (LocalTime LocalTZA date) - Day (LocalTime LocalTZA today) in
       bookingCategory LocalTZA today date
       = (if k =? 0 then "Hôm nay"
          else if k =? 1 then "Ngày mai"
          else pretty (getDate LocalTZA date) +:+ "/"
               +:+ pretty (getMonth LocalTZA date + 1) +:+ "/"
               +:+ pretty (getFullYear LocalTZA date))).
Proof.
  intros billLabel bookingLabel.
  assert (Hnd : ∀ l, NoDup (Set_of l)).
  { intros l. by apply (AppMore.Set_of_fold l []), NoDup_nil. }
  change (groupedBills LocalTZA today shownBills) with (grouped billLabel shownBills).
  change (groupedBookings LocalTZA today shownBookings)
    with (grouped bookingLabel shownBookings).
  rewrite !grouped_keys.
  repeat split; try apply Hnd; try (intros label; apply grouped_get).
  intros date. apply bookingCategory_days.
Qed.

(** Seen at noon of the sample day: bookings for later that day, for the
    next day and for the day before. *)
Example groupedBookings_example :
  groupedBookings Samples.indochina Samples.noon
    [Samples.booking "b1" (Samples.noon + Samples.hour);
     Samples.booking "b2" (Samples.noon + 24 * Samples.hour);
     Samples.booking "b3" (Samples.noon + 2 * Samples.hour);
     Samples.booking "b4" (Samples.noon - 24 * Samples.hour)]
  = [("Hôm nay", [Samples.booking "b1" (Samples.noon + Samples.hour);
                  Samples.booking "b3" (Samples.noon + 2 * Samples.hour)]);
     ("Ngày mai", [Samples.booking "b2" (Samples.noon + 24 * Samples.hour)]);
     ("4/1/1970", [Samples.booking "b4" (Samples.noon - 24 * Samples.hour)])].
Proof. reflexivity. Qed.

End BillListFacts.

Module CalendarFacts.
Import JSDate.

Lemma DayFromYear_succ y : DayFromYear (y + 1) = DayFromYear y + DaysInYear y.
Proof.
  unfold DayFromYear, DaysInYear.
  replace (y + 1 - 1970) with (y - 1969) by lia.
  replace (y + 1 - 1969) with (y - 1968) by lia.
  replace (y + 1 - 1901) with (y - 1900) by lia.
  replace (y + 1 - 1601) with (y - 1600) by lia.
  destruct (Z.eqb_spec (y mod 4) 0), (Z.eqb_spec (y mod 100) 0), (Z.eqb_spec (y mod 400) 0);
    simpl; Z.div_mod_to_equations; lia.
Qed.

Lemma DaysInYear_range y : 365 <= DaysInYear y <= 366.
Proof. unfold DaysInYear. repeat destruct (negb _); lia. Qed.

Lemma year_search_spec fuel : ∀ y d,
  d < DayFromYear (y + 1) → DayFromYear (y - Z.of_nat fuel + 1) <= d →
  DayFromYear (year_search fuel y d) <= d < DayFromYear (year_search fuel y d + 1).
Proof.
  induction fuel as [|fuel IH]; intros y d Hup Hlow.
  - cbn [year_search]. change (Z.of_nat 0) with 0 in Hlow.
    replace (y - 0 + 1) with (y + 1) in Hlow by lia. lia.
  - cbn [year_search]. destruct (Z.leb_spec (DayFromYear y) d) as [Hle|Hgt]; [lia|].
    apply IH.
    + by replace (y - 1 + 1) with y by lia.
    + by replace (y - 1 - Z.of_nat fuel + 1) with (y - Z.of_nat (S fuel) + 1) by lia.
Qed.

Lemma DayFromYear_up n :
  0 <= n → 365 * n <= DayFromYear (1970 + n) <= 366 * n.
Proof.
  revert n. apply natlike_ind; [by vm_compute|].
  intros n Hn IH. replace (1970 + Z.succ n) with (1970 + n + 1) by lia.
  rewrite DayFromYear_succ. pose proof (DaysInYear_range (1970 + n)). lia.
Qed.

Lemma DayFromYear_down n :
  0 <= n → - 366 * n <= DayFromYear (1970 - n) <= - 365 * n.
Proof.
  revert n. apply natlike_ind; [by vm_compute|].
  intros n Hn IH. pose proof (DayFromYear_succ (1970 - Z.succ n)) as Hs.
  replace (1970 - Z.succ n + 1) with (1970 - n) in Hs by lia.
  pose proof (DaysInYear_range (1970 - Z.succ n)). lia.
Qed.

Lemma DayFromYear_bounds y :
  (1970 <= y → 365 * (y - 1970) <= DayFromYear y <= 366 * (y - 1970))
  ∧ (y <= 1970 → 366 * (y - 1970) <= DayFromYear y <= 365 * (y - 1970)).
Proof.
  split; intros Hy.
  - pose proof (DayFromYear_up (y - 1970) ltac:(lia)) as H.
    replace (1970 + (y - 1970)) with y in H by lia. lia.
  - pose proof (DayFromYear_down (1970 - y) ltac:(lia)) as H.
    replace (1970 - (1970 - y)) with y in H by lia. lia.
Qed.

(** [YearFromTime t] is the year the day of [t] falls in: the search
    starts high enough and has fuel enough. *)
Lemma YearFromTime_spec t :
  DayFromYear (YearFromTime t) <= Day t < DayFromYear (YearFromTime t + 1).
Proof.
  unfold YearFromTime. set (d := Day t). apply year_search_spec.
  - destruct (Z.le_gt_cases 0 d) as [Hd|Hd].
    + pose proof (proj1 (DayFromYear_bounds (1970 + Z.max (d / 365) (d / 366) + 1 + 1))) as H.
      Z.div_mod_to_equations. lia.
    + destruct (Z.le_gt_cases 1970 (1970 + Z.max (d / 365) (d / 366) + 1 + 1)) as [Hy|Hy].
      * pose proof (proj1 (DayFromYear_bounds _) Hy). Z.div_mod_to_equations. lia.
      * pose proof (proj2 (DayFromYear_bounds (1970 + Z.max (d / 365) (d / 366) + 1 + 1))
                      ltac:(lia)).
        Z.div_mod_to_equations. lia.
  - rewrite Z2Nat.id by (Z.div_mod_to_equations; lia).
    set (y1 := 1970 + Z.max (d / 365) (d / 366) + 1 - (Z.abs d / 100000 + 4) + 1).
    destruct (Z.le_gt_cases 1970 y1) as [Hy|Hy].
    + pose proof (proj1 (DayFromYear_bounds y1) Hy). subst y1.
      Z.div_mod_to_equations. lia.
    + pose proof (proj2 (DayFromYear_bounds y1) ltac:(lia)). subst y1.
      Z.div_mod_to_equations. lia.
Qed.

Lemma DayWithinYear_range t : 0 <= DayWithinYear t < 365 + InLeapYear t.
Proof.
  pose proof (YearFromTime_spec t) as H.
  rewrite DayFromYear_succ in H. unfold DayWithinYear, InLeapYear.
  pose proof (DaysInYear_range (YearFromTime t)).
  destruct (Z.eqb_spec (DaysInYear (YearFromTime t)) 366); lia.
Qed.

Lemma DateFromTime_range t : 1 <= DateFromTime t <= 31.
Proof.
  pose proof (DayWithinYear_range t) as H.
  unfold DateFromTime, MonthFromTime.
  assert (Hleap : InLeapYear t = 0 ∨ InLeapYear t = 1).
  { unfold InLeapYear. destruct (_ =? _); lia. }
  repeat match goal with
         | |- context [if ?c <? ?d then _ else _] => destruct (Z.ltb_spec c d)
         end; simpl; lia.
Qed.

End CalendarFacts.

Module ChartFacts.
Import JS JSDate DateUtils DateUtilsMore Chart.

Lemma length_append s t :
  String.length (s +:+ t) = (String.length s + String.length t)%nat.
Proof. induction s as [|c s IH]; simpl; [done | by rewrite IH]. Qed.

Lemma append_inj_suffix s1 : ∀ s2 t1 t2,
  String.length t1 = String.length t2 → s1 +:+ t1 = s2 +:+ t2 → s1 = s2 ∧ t1 = t2.
Proof.
  induction s1 as [|c s1 IH]; intros [|c' s2] t1 t2 Hlen Heq.
  - done.
  - apply (f_equal String.length) in Heq. rewrite !length_append in Heq.
    simpl in Heq. lia.
  - apply (f_equal String.length) in Heq. rewrite !length_append in Heq.
    simpl in Heq. lia.
  - cbn [String.append] in Heq. injection Heq as -> Heq.
    destruct (IH _ _ _ Hlen Heq) as [-> ->]. done.
Qed.

(** Two digits, padded: the tens and the units. *)
Lemma padStart_two_digits n :
  0 <= n < 100 →
  padStart 2 (pretty n)
  = String (ascii_of_nat (48 + Z.to_nat (n / 10)))
      (String (ascii_of_nat (48 + Z.to_nat (n mod 10))) "").
Proof.
  intros Hn.
  assert (Hall : forallb
            (fun k => String.eqb (padStart 2 (pretty (Z.of_nat k)))
                        (String (ascii_of_nat (48 + Z.to_nat (Z.of_nat k / 10)))
                           (String (ascii_of_nat (48 + Z.to_nat (Z.of_nat k mod 10))) "")))
            (seq 0 100) = true) by (vm_compute; reflexivity).
  rewrite forallb_forall in Hall.
  specialize (Hall (Z.to_nat n)). rewrite Z2Nat.id in Hall by lia.
  apply String.eqb_eq, Hall, in_seq. lia.
Qed.

Lemma padStart_two_digits_inj n m :
  0 <= n < 100 → 0 <= m < 100 →
  padStart 2 (pretty n) = padStart 2 (pretty m) → n = m.
Proof.
  intros Hn Hm. rewrite !padStart_two_digits by done.
  assert (Hinj : ∀ a b, (a < 10)%nat → (b < 10)%nat →
                        ascii_of_nat (48 + a) = ascii_of_nat (48 + b) → a = b).
  { intros a b Ha Hb E. apply (f_equal nat_of_ascii) in E.
    rewrite !nat_ascii_embedding in E by lia. lia. }
  remember (ascii_of_nat (48 + Z.to_nat (n / 10))) as tn eqn:Etn.
  remember (ascii_of_nat (48 + Z.to_nat (m / 10))) as tm eqn:Etm.
  remember (ascii_of_nat (48 + Z.to_nat (n mod 10))) as un eqn:Eun.
  remember (ascii_of_nat (48 + Z.to_nat (m mod 10))) as um eqn:Eum.
  intros Heq. injection Heq as Ht Hu. subst tn tm un um.
  apply Hinj in Ht; [|Z.div_mod_to_equations; lia..].
  apply Hinj in Hu; [|Z.div_mod_to_equations; lia..].
  Z.div_mod_to_equations. lia.
Qed.

Lemma padStart_two_chars n :
  0 <= n < 100 → ∃ a b, padStart 2 (pretty n) = String a (String b "").
Proof. intros Hn. rewrite padStart_two_digits by done. eauto. Qed.

(** The key of a date names its local calendar day. *)
Lemma getLocalDateKey_inj LocalTZA d1 d2 :
  getLocalDateKey LocalTZA d1 = getLocalDateKey LocalTZA d2
  ↔ Day (LocalTime LocalTZA d1) = Day (LocalTime LocalTZA d2).
Proof.
  split.
  - unfold getLocalDateKey, getFullYear, getMonth, getDate.
    set (t1 := LocalTime LocalTZA d1). set (t2 := LocalTime LocalTZA d2).
    pose proof (DateFacts.MonthFromTime_range t1) as Hm1.
    pose proof (DateFacts.MonthFromTime_range t2) as Hm2.
    pose proof (CalendarFacts.DateFromTime_range t1) as Hd1.
    pose proof (CalendarFacts.DateFromTime_range t2) as Hd2.
    destruct (padStart_two_chars (MonthFromTime t1 + 1) ltac:(lia)) as (a1 & b1 & Em1).
    destruct (padStart_two_chars (MonthFromTime t2 + 1) ltac:(lia)) as (a2 & b2 & Em2).
    destruct (padStart_two_chars (DateFromTime t1) ltac:(lia)) as (e1 & f1 & Ed1).
    destruct (padStart_two_chars (DateFromTime t2) ltac:(lia)) as (e2 & f2 & Ed2).
    intros Heq.
    assert (Hparts : pretty (YearFromTime t1) = pretty (YearFromTime t2)
                     ∧ padStart 2 (pretty (MonthFromTime t1 + 1))
                       = padStart 2 (pretty (MonthFromTime t2 + 1))
                     ∧ padStart 2 (pretty (DateFromTime t1))
                       = padStart 2 (pretty (DateFromTime t2))).
    { revert Heq. rewrite Em1, Em2, Ed1, Ed2. intros Heq.
      apply append_inj_suffix in Heq as [Hy Heq]; [|done].
      cbn [String.append] in Heq. injection Heq as -> -> -> ->. done. }
    destruct Hparts as (Hy & Hm & Hd).
    apply (inj pretty) in Hy.
    apply padStart_two_digits_inj in Hm; [|lia..].
    apply padStart_two_digits_inj in Hd; [|lia..].
    apply DateMore.same_calendar_day. split; [done|]. split; [lia | done].
  - intros H. unfold getLocalDateKey, getFullYear, getMonth, getDate.
    by rewrite (DateMore.DateFromTime_Day _ _ H), (DateMore.MonthFromTime_Day _ _ H),
      (DateMore.YearFromTime_Day _ _ H).
Qed.

Lemma addRevenue_map key amount data :
  NoDup (map chart_date data) →
  addRevenue key amount data
  = map (fun d => if String.eqb (chart_date d) key
                  then mkChartDay (chart_name d) (chart_date d) (chart_revenue d + amount)
                  else d) data.
Proof.
  induction data as [|d data IH]; intros Hnd; simpl; [done|].
  apply NoDup_cons in Hnd as [Hd Hnd].
  destruct (String.eqb_spec (chart_date d) key) as [E|E].
  - f_equal. symmetry. apply ReopenFacts.map_id_on. intros x Hx.
    destruct (String.eqb_spec (chart_date x) key) as [E'|_]; [|done].
    destruct Hd. rewrite E, <- E'. apply list_elem_of_fmap. by exists x.
  - f_equal. by apply IH.
Qed.

Lemma addRevenue_fold (keyOf : Bill → string) (bills : list Bill) : ∀ data,
  NoDup (map chart_date data) →
  fold_left (fun data (bill : Bill) => addRevenue (keyOf bill) (total bill) data) bills data
  = map (fun d =>
           mkChartDay (chart_name d) (chart_date d)
             (chart_revenue d
              + fold_right Z.add 0
                  (map (fun bill : Bill => total bill)
                     (List.filter (fun bill => String.eqb (chart_date d) (keyOf bill)) bills))))
      data.
Proof.
  induction bills as [|b bills IH]; intros data Hnd; simpl.
  - symmetry. apply ReopenFacts.map_id_on. intros [n k r] _. simpl. f_equal. lia.
  - rewrite IH.
    + rewrite addRevenue_map by done. rewrite map_map. apply map_ext. intros d.
      destruct (String.eqb (chart_date d) (keyOf b)); simpl; f_equal; lia.
    + rewrite addRevenue_map by done. rewrite map_map.
      erewrite map_ext; [exact Hnd|]. intros d. by destruct (String.eqb _ _).
Qed.

(** X21. The chart of the last seven days has one entry for each of the
    seven local calendar days that end with today, oldest first, each with
    the key of its day and the sum of the totals of the bills dated on that
    local day; bills of other days count nowhere.  The last entry carries
    today's revenue. *)
Theorem weeklyChartData_sums_the_last_seven_local_days
    (LocalTZA today : Z) (bills : list Bill) :
  let D := Day (LocalTime LocalTZA today) in
  let entry i :=
    mkChartDay (getDay LocalTZA (today - i * msPerDay))
      (getLocalDateKey LocalTZA (today - i * msPerDay))
      (fold_right Z.add 0
         (map (fun bill : Bill => total bill)
            (List.filter
               (fun bill : Bill => Day (LocalTime LocalTZA (date bill)) =? D - i) bills))) in
  weeklyChartData LocalTZA today bills = map entry [6; 5; 4; 3; 2; 1; 0]
  ∧ (∀ i, Day (LocalTime LocalTZA (today - i * msPerDay)) = D - i)
  ∧ chart_revenue (entry 0) = revenueToday LocalTZA today bills.
Proof.
  intros D entry.
  assert (Hday : ∀ i, Day (LocalTime LocalTZA (today - i * msPerDay)) = D - i).
  { intros i. unfold D, LocalTime, Day.
    replace (today - i * msPerDay + LocalTZA) with (today + LocalTZA + (- i) * msPerDay)
      by lia.
    rewrite Z.div_add by (unfold msPerDay; lia). lia. }
  assert (Hset : ∀ i, setDate LocalTZA today (getDate LocalTZA today - i)
                      = today - i * msPerDay).
  { intros i. replace (getDate LocalTZA today - i) with (getDate LocalTZA today + (- i))
      by lia. rewrite DateFacts.setDate_getDate. lia. }
  split; [|split; [done|]].
  - set (blank := fun i => mkChartDay (getDay LocalTZA (today - i * msPerDay))
                             (getLocalDateKey LocalTZA (today - i * msPerDay)) 0).
    assert (Hdata : weeklyChartData LocalTZA today bills
                    = fold_left
                        (fun data (bill : Bill) =>
                           addRevenue (getLocalDateKey LocalTZA (date bill)) (total bill)
                             data)
                        bills (map blank [6; 5; 4; 3; 2; 1; 0])).
    { unfold weeklyChartData. cbn [map rev app]. by rewrite !Hset. }
    rewrite Hdata, addRevenue_fold.
    + rewrite map_map. apply map_ext. intros i. unfold entry, blank.
      cbn [chart_name chart_date chart_revenue]. rewrite Z.add_0_l.
      f_equal. f_equal. f_equal. apply filter_ext. intros bill.
      destruct (String.eqb_spec (getLocalDateKey LocalTZA (today - i * msPerDay))
                  (getLocalDateKey LocalTZA (date bill))) as [E|E];
        rewrite getLocalDateKey_inj, (Hday i) in E;
        destruct (Z.eqb_spec (Day (LocalTime LocalTZA (date bill))) (D - i));
        try done; lia.
    + unfold blank. cbn [map chart_date].
      assert (Hne : ∀ i j, i ≠ j →
                getLocalDateKey LocalTZA (today - i * msPerDay)
                ≠ getLocalDateKey LocalTZA (today - j * msPerDay)).
      { intros i j Hij E. rewrite getLocalDateKey_inj, !Hday in E. lia. }
      repeat (apply NoDup_cons; split;
              [rewrite !elem_of_cons, elem_of_nil;
               intros Hin; repeat destruct Hin as [Hin|Hin]; try done;
               revert Hin; apply Hne; lia|]).
      apply NoDup_singleton.
  - unfold entry, revenueToday. cbn [chart_revenue].
    rewrite DateFacts.sum_totals_fold_left, Z.add_0_l. f_equal. f_equal.
    apply filter_ext. intros bill.
    destruct (Z.eqb_spec (Day (LocalTime LocalTZA (date bill))) (D - 0)) as [E|E];
      destruct (isToday LocalTZA today (date bill)) eqn:Et; try done.
    + apply not_true_iff_false in Et. destruct Et. apply DateMore.isToday_Day.
      unfold D in E. lia.
    + apply DateMore.isToday_Day in Et. unfold D in E. lia.
Qed.

(** Seen at noon of the sample day: the two bills of Anna, one of that day
    and one of two days before. *)
Example weeklyChartData_example :
  map (fun d => (chart_date d, chart_revenue d))
    (weeklyChartData Samples.indochina Samples.noon Samples.annaBills)
  = [("1969-12-30", 0); ("1969-12-31", 0); ("1970-01-01", 0); ("1970-01-02", 0);
     ("1970-01-03", 100000); ("1970-01-04", 0); ("1970-01-05", 200000)].
Proof. reflexivity. Qed.

End ChartFacts.

Module NewFormFacts.
Import JS JSDate Collections DateUtilsMore BillEditor NewForm.

Lemma getTodayDateString_Day LocalTZA now :
  getTodayDateString LocalTZA now = Day (LocalTime LocalTZA now).
Proof.
  unfold getTodayDateString, getFullYear, getMonth, getDate.
  pose proof (DateFacts.MakeDay_DateFromTime (LocalTime LocalTZA now) 0) as H.
  rewrite !Z.add_0_r in H. exact H.
Qed.

Lemma default_finalDate LocalTZA now st :
  s_date st = getTodayDateString LocalTZA now →
  s_time st = getCurrentTimeString LocalTZA now →
  finalDate LocalTZA st
  = now - LocalTime LocalTZA now mod msPerMinute
    + (Day (LocalTime LocalTZA (Day (LocalTime LocalTZA now) * msPerDay))
       - Day (LocalTime LocalTZA now)) * msPerDay.
Proof.
  intros Hdate Htime. unfold finalDate, setHours.
  rewrite Hdate, Htime, getTodayDateString_Day. cbn [fst snd getCurrentTimeString].
  unfold getHours, getMinutes, MakeTime, MakeDate, UTC.
  pose proof (ReopenFacts.hours_and_minutes (LocalTime LocalTZA now)) as Hhm.
  pose proof (DateFacts.MakeDate_split (LocalTime LocalTZA now)) as Hsplit.
  unfold MakeDate in Hsplit.
  assert (Hlocal : LocalTime LocalTZA now = now + LocalTZA) by done.
  set (local := LocalTime LocalTZA now) in *. clearbody local.
  unfold msPerSecond. lia.
Qed.

(** X22. A new bill or booking whose date and time are left as the form
    set them is dated the minute the form was set up when the zone is at or
    east of UTC, and the same minute of the day before when the zone is west
    of UTC (the date field holds the local date, which is then read as a UTC
    date).  So a new booking left at its default time is refused as being
    in the past when it is submitted later than 60 seconds after that minute
    began, and west of UTC it is refused whenever it is submitted. *)
Theorem new_record_left_at_its_default_time
    (LocalTZA now later : Z) (p : Props) (st : EditorState) :
  s_date st = getTodayDateString LocalTZA now →
  s_time st = getCurrentTimeString LocalTZA now →
  let minute := now - LocalTime LocalTZA now mod msPerMinute in
  (0 <= LocalTZA < msPerDay → finalDate LocalTZA st = minute)
  ∧ (- msPerDay <= LocalTZA < 0 → finalDate LocalTZA st = minute - msPerDay)
  ∧ minute <= now < minute + msPerMinute
  ∧ (isBooking p = true → trim (s_customerName st) ≠ "" →
     (∃ item, item ∈ s_items st ∧ serviceId item ≠ "") →
     now <= later →
     (0 <= LocalTZA < msPerDay →
      (later - minute > 60000
       → handleSubmit LocalTZA later p st = Blocked BookingInThePast false)
      ∧ (later - minute <= 60000
         → ∃ b, handleSubmit LocalTZA later p st = OnSave b ∧ date b = minute))
     ∧ (- msPerDay <= LocalTZA < 0 →
        handleSubmit LocalTZA later p st = Blocked BookingInThePast false)).
Proof.
  intros Hdate Htime minute.
  pose proof (default_finalDate LocalTZA now st Hdate Htime) as Hfinal. fold minute in Hfinal.
  assert (Hminute : minute <= now < minute + msPerMinute).
  { subst minute. unfold msPerMinute.
    pose proof (Z.mod_pos_bound (LocalTime LocalTZA now) 60000 ltac:(lia)). lia. }
  assert (Heast : 0 <= LocalTZA < msPerDay → finalDate LocalTZA st = minute).
  { intros Hz. rewrite Hfinal. unfold Day at 1. unfold LocalTime at 1.
    replace (Day (LocalTime LocalTZA now) * msPerDay + LocalTZA)
      with (LocalTZA + Day (LocalTime LocalTZA now) * msPerDay) by lia.
    rewrite Z.div_add by (unfold msPerDay; lia). rewrite Z.div_small by lia. lia. }
  assert (Hwest : - msPerDay <= LocalTZA < 0 → finalDate LocalTZA st = minute - msPerDay).
  { intros Hz. rewrite Hfinal. unfold Day at 1. unfold LocalTime at 1.
    replace (Day (LocalTime LocalTZA now) * msPerDay + LocalTZA)
      with (LocalTZA + msPerDay + (Day (LocalTime LocalTZA now) - 1) * msPerDay) by lia.
    rewrite Z.div_add by (unfold msPerDay; lia). rewrite Z.div_small by lia. lia. }
  split; [done|]. split; [done|]. split; [done|].
  intros Hmode Hname (item & Hitem & Hsvc) Hlater.
  assert (Hsubmit : handleSubmit LocalTZA later p st
            = if (finalDate LocalTZA st <? later) && (later - finalDate LocalTZA st >? 60000)
              then Blocked BookingInThePast false
              else OnSave
                     (mkBill (or_else (from_option id "" (bill p)) "")
                        (mkBillData (trim (s_customerName st)) (finalDate LocalTZA st)
                           (List.filter (fun item => truthy (serviceId item)) (s_items st))
                           (calculateTotal st) (s_discountValue st) (s_discountType st)
                           (Some (trim (s_note st)))
                           (match isBooking p, bill p with
                            | true, Some b => createdAt b
                            | _, _ => None
                            end)))).
  { unfold handleSubmit. apply BillEditorFacts.truthy_true in Hname. rewrite Hname.
    cbn [negb].
    assert (Hlen : (length (List.filter (fun item => truthy (serviceId item)) (s_items st))
                    =? 0)%nat = false).
    { apply Nat.eqb_neq. intros Hzero. apply length_zero_iff_nil in Hzero.
      assert (Hin : item ∈ List.filter (fun item => truthy (serviceId item)) (s_items st)).
      { apply NotifierFacts.elem_of_filter_bool. split; [done|].
        by apply BillEditorFacts.truthy_true. }
      rewrite Hzero in Hin. by apply elem_of_nil in Hin. }
    rewrite Hlen, Hmode. done. }
  split.
  - intros Hz. rewrite Hsubmit, (Heast Hz). split.
    + intros Hlate.
      replace (minute <? later) with true by (symmetry; apply Z.ltb_lt; lia).
      replace (later - minute >? 60000) with true; [done|].
      symmetry. rewrite Z.gtb_ltb. apply Z.ltb_lt. lia.
    + intros Hearly.
      replace (later - minute >? 60000) with false.
      * rewrite andb_false_r. eexists. split; [done|]. done.
      * symmetry. rewrite Z.gtb_ltb. apply Z.ltb_ge. lia.
  - intros Hz. rewrite Hsubmit, (Hwest Hz). unfold msPerDay, msPerMinute in *.
    replace (minute - 86400000 <? later) with true by (symmetry; apply Z.ltb_lt; lia).
    replace (later - (minute - 86400000) >? 60000) with true; [done|].
    symmetry. rewrite Z.gtb_ltb. apply Z.ltb_lt. lia.
Qed.

Lemma new_record_witness :
  finalDate Samples.indochina (newForm Samples.indochina (Samples.appointment + 40000))
  = Samples.appointment.
Proof.
  refine (proj1 (new_record_left_at_its_default_time Samples.indochina
                   (Samples.appointment + 40000) 0 Samples.bookingProps
                   (newForm Samples.indochina (Samples.appointment + 40000))
                   eq_refl eq_refl) _).
  unfold Samples.indochina, Samples.hour, msPerDay. lia.
Defined.

End NewFormFacts.
